(** * Vulkan pipeline manager of the drv3d_vulkan driver

    A shallow embedding of
    [prog/engine/drv/drv3d_vulkan/pipeline/main_pipelines.cpp] and
    [prog/engine/drv/drv3d_vulkan/pipeline/manager.h]:
    the compute and graphics pipeline objects (construction, compilation,
    binding) and the templated pipeline storage with its manager.

    Integers of the C++ code are [Z] values with the narrowing conversions
    written out, bit operations are [Z.land], [Z.lor], [Z.shiftr];
    [Tab<T*>] arrays are lists indexed with stdpp's lookup and insert, a
    null pointer in a slot is [None]; objects reached through pointers that
    other objects share live in finite maps from addresses. Calls that leave
    the modelled code (native Vulkan calls, logging, the background
    compiler) are recorded, in program order, in a trace of events. *)

From Stdlib Require Import ZArith Lia Bool String.
From stdpp Require Import base option list gmap.

#[local] Open Scope Z_scope.

(** ** Fatal contracts

    A violated assertion or a failed native call stops the operation with
    a [Fatal] outcome; nothing after it runs. *)

Inductive Failure : Type :=
| AssertFailed (expr : string)   (* G_ASSERT(expr) / G_ASSERTF(expr, ...) was false *)
| ExitOnFail (result : Z)        (* VULKAN_EXIT_ON_FAIL(result) with a failing VkResult *)
| OutOfRange                     (* element access past the end of a Tab *)
| NullDeref                      (* dereference of a null or dangling pointer *)
| Blocked.                       (* a wait that nothing can ever satisfy *)

Inductive outcome (A : Type) : Type :=
| Done (a : A)
| Fatal (f : Failure).
Arguments Done {A} a.
Arguments Fatal {A} f.

#[global] Instance outcome_ret : MRet outcome := fun A a => Done a.
#[global] Instance outcome_bind : MBind outcome :=
  fun A B k m => match m with Done a => k a | Fatal f => Fatal f end.

(** Modelled from the spec: the assertion macros G_ASSERT and G_ASSERTF are
    declared outside these sources.  "Assertions as fatal contracts [...]:
    keep as explicit precondition checks that abort or return a fatal error
    result; do not weaken them into silent fallbacks". *)
Definition G_ASSERT (cond : bool) (expr : string) : outcome unit :=
  if cond then Done tt else Fatal (AssertFailed expr).

(** ** The part of the Vulkan API the driver code names *)

Module Vk.

(* VkResult: success codes are non-negative, error codes negative. *)
Definition VK_SUCCESS : Z := 0.
Definition VK_ERROR_UNKNOWN : Z := -13.
Definition VULKAN_OK (r : Z) : bool := 0 <=? r.
Definition VULKAN_FAIL (r : Z) : bool := r <? 0.

(** Modelled from the spec: the macro VULKAN_EXIT_ON_FAIL is declared outside
    these sources.  "If native creation fails, the process is considered
    fatal (unrecoverable)". *)
Definition VULKAN_EXIT_ON_FAIL (r : Z) : outcome unit :=
  if VULKAN_FAIL r then Fatal (ExitOnFail r) else Done tt.

(* Handles are 64 bit values, VK_NULL_HANDLE is 0. *)
Definition VK_NULL_HANDLE : Z := 0.
Definition is_null (h : Z) : bool := h =? VK_NULL_HANDLE.

(* VkSampleCountFlagBits *)
Definition VK_SAMPLE_COUNT_1_BIT : Z := 1.
Definition VK_SAMPLE_COUNT_2_BIT : Z := 2.
Definition VK_SAMPLE_COUNT_4_BIT : Z := 4.
Definition VK_SAMPLE_COUNT_8_BIT : Z := 8.
Definition VK_SAMPLE_COUNT_16_BIT : Z := 16.
Definition VK_SAMPLE_COUNT_32_BIT : Z := 32.
Definition VK_SAMPLE_COUNT_64_BIT : Z := 64.

(* VkPipelineCreateFlagBits *)
Definition VK_PIPELINE_CREATE_ALLOW_DERIVATIVES_BIT : Z := 2.
Definition VK_PIPELINE_CREATE_DERIVATIVE_BIT : Z := 4.

(* VkCullModeFlagBits, VkFrontFace, VkLogicOp, VkColorComponentFlagBits *)
Definition VK_CULL_MODE_FRONT_BIT : Z := 1.
Definition VK_CULL_MODE_BACK_BIT : Z := 2.
Definition VK_FRONT_FACE_CLOCKWISE : Z := 1.
Definition VK_LOGIC_OP_COPY : Z := 3.
Definition VK_COLOR_COMPONENT_RGBA_BIT : Z := 15.

(* VkPipelineBindPoint *)
Definition VK_PIPELINE_BIND_POINT_GRAPHICS : Z := 0.
Definition VK_PIPELINE_BIND_POINT_COMPUTE : Z := 1.

Record VkPipelineRasterizationStateCreateInfo := {
  depthClampEnable : bool;
  rasterizerDiscardEnable : bool;
  polygonMode : Z;
  cullMode : Z;
  frontFace : Z;
  depthBiasEnable : bool;
  conservativeRasterChained : bool   (* conservativeRasterStateCI chained into pNext *)
}.

Record VkPipelineMultisampleStateCreateInfo := {
  rasterizationSamples : Z;
  sampleShadingEnable : bool;
  alphaToCoverageEnable : bool;
  alphaToOneEnable : bool
}.

Record VkStencilOpState := {
  failOp : Z;
  passOp : Z;
  depthFailOp : Z;
  compareOp : Z;
  compareMask : Z;
  writeMask : Z;
  reference : Z
}.

Record VkPipelineDepthStencilStateCreateInfo := {
  depthTestEnable : bool;
  depthWriteEnable : bool;
  depthCompareOp : Z;
  depthBoundsTestEnable : bool;
  stencilTestEnable : bool;
  front : VkStencilOpState;
  back : VkStencilOpState
}.

Record VkPipelineColorBlendAttachmentState := {
  blendEnable : bool;
  srcColorBlendFactor : Z;
  dstColorBlendFactor : Z;
  colorBlendOp : Z;
  srcAlphaBlendFactor : Z;
  dstAlphaBlendFactor : Z;
  alphaBlendOp : Z;
  colorWriteMask : Z
}.

Record VkPipelineColorBlendStateCreateInfo := {
  logicOpEnable : bool;
  logicOp : Z;
  attachmentCount : nat
}.

(* The fields of VkGraphicsPipelineCreateInfo that are plain values; the
   pointed-to state blocks are the other members of the scratch. *)
Record VkGraphicsPipelineCreateInfo := {
  flags : Z;
  layout : Z;
  renderPass : Z;
  subpass : Z;
  basePipelineHandle : Z;
  basePipelineIndex : Z
}.

End Vk.

(** ** Build and device configuration

    Constants, preprocessor switches and device capabilities that the two
    source files read but do not declare. *)

Record Config := {
  MAX_SIMRT : nat;                             (* Driver3dRenderTarget::MAX_SIMRT *)
  NumIndependentBlendParameters : nat;         (* shaders::RenderState::NumIndependentBlendParameters *)
  TARGET_ANDROID : bool;                       (* _TARGET_ANDROID *)
  hasConservativeRasterizationEXT : bool;      (* VK_EXT_conservative_rasterization and device.hasExtension<ConservativeRasterizationEXT>() *)
  framebufferNoAttachmentsSampleCounts : Z;    (* properties.limits.framebufferNoAttachmentsSampleCounts *)
  VULKAN_LOG_PIPELINE_ACTIVITY : Z;
  PIPELINE_COMPILATION_LONG_THRESHOLD : Z;
  D3D_HAS_RAY_TRACING : bool
}.

(** ** Trace of calls leaving the modelled code *)

Inductive Event : Type :=
| EvAddPipelineCompileRef (rp : nat)
| EvReleasePipelineCompileRef (rp : nat)
| EvCreateGraphicsPipelines (cache : Z) (ci : Vk.VkGraphicsPipelineCreateInfo)
| EvCreateComputePipelines (cache module layout : Z)
| EvDestroyShaderModule (module : Z)
| EvCmdBindPipeline (cmd bindPoint pipeline : Z)
| EvLogerr (msg : string) (args : list Z)
| EvDebug (msg : string) (args : list Z)
| EvDeleteScratch
| EvQueue (pipe : nat)
| EvWaitFor (pipe : nat).

(** ** Static render state and render pass descriptions (inputs) *)

Module RenderState.

Record BlendParams := {
  blendEnable : bool;
  blendSrcFactor : Z;
  blendDstFactor : Z;
  blendOp : Z;
  blendSeparateAlphaEnable : bool;
  blendSrcAlphaFactor : Z;
  blendDstAlphaFactor : Z;
  blendOpAlpha : Z
}.

#[global] Instance BlendParams_inhabited : Inhabited BlendParams :=
  populate {| blendEnable := false; blendSrcFactor := 0; blendDstFactor := 0; blendOp := 0;
              blendSeparateAlphaEnable := false; blendSrcAlphaFactor := 0;
              blendDstAlphaFactor := 0; blendOpAlpha := 0 |}.

Record StaticState := {
  depthClipEnable : bool;
  cullMode : Z;
  conservativeRasterEnable : bool;
  getForcedSamplerCount : Z;
  alphaToCoverage : bool;
  depthTestEnable : bool;
  depthWriteEnable : bool;
  depthTestFunc : Z;
  depthBoundsEnable : bool;
  stencilTestEnable : bool;
  stencilTestOpStencilFail : Z;
  stencilTestOpPass : Z;
  stencilTestOpDepthFail : Z;
  stencilTestFunc : Z;
  indenpendentBlendEnabled : bool;
  blendStates : list BlendParams;
  colorMask : Z
}.

(* CULL_NONE, CULL_CW, CULL_CCW are consecutive driver constants; the
   static state stores the offset from CULL_NONE. *)
Definition CULL_CW_minus_CULL_NONE : Z := 1.
Definition CULL_CCW_minus_CULL_NONE : Z := 2.

End RenderState.

Inductive DepthState := NO_DEPTH | RO_DEPTH | RW_DEPTH.

#[global] Instance DepthState_eq_dec : EqDecision DepthState.
Proof. solve_decision. Defined.

(* RenderPassClass::Identifier *)
Record RenderPassClassIdentifier := {
  colorSamples : list Z;        (* uint8_t colorSamples[MAX_SIMRT] *)
  depthState : DepthState;
  colorTargetMask : Z
}.

(* RenderPassResource: a native render pass, with the queries the
   constructor makes on it. *)
Record RenderPassResource := {
  rpId : nat;
  rpGetHandle : Z;
  getMSAASamples : Z -> Z;
  hasDepthAtSubpass : Z -> bool;
  getColorWriteMaskAtSubpass : Z -> Z
}.

(** ** checkSampleCount (main_pipelines.cpp, lines 157-183) *)

Definition sampleCountFlag (count : Z) : Z :=
  if count =? 2 then Vk.VK_SAMPLE_COUNT_2_BIT
  else if count =? 4 then Vk.VK_SAMPLE_COUNT_4_BIT
  else if count =? 8 then Vk.VK_SAMPLE_COUNT_8_BIT
  else if count =? 16 then Vk.VK_SAMPLE_COUNT_16_BIT
  else if count =? 32 then Vk.VK_SAMPLE_COUNT_32_BIT
  else if count =? 64 then Vk.VK_SAMPLE_COUNT_64_BIT
  else count.   (* default: static_cast<VkSampleCountFlagBits>(count) *)

Definition msg_sample_count_unsupported : string :=
  "properties.limits.framebufferNoAttachmentsSampleCounts & ret".
Definition msg_forced_msaa_attachments : string :=
  "!hasDepth && !colorMask".

(* [count] is an unsigned int, [colorMask] and [hasDepth] are uint8_t: the
   caller's narrowing is written at the call site. *)
Definition checkSampleCount (cfg : Config) (count colorMask hasDepth : Z) : outcome Z :=
  if count <=? 1 then Done Vk.VK_SAMPLE_COUNT_1_BIT
  else
    let ret := sampleCountFlag count in
    _ ← G_ASSERT (negb (Z.land (framebufferNoAttachmentsSampleCounts cfg) ret =? 0))
                 msg_sample_count_unsupported;
    _ ← G_ASSERT ((hasDepth =? 0) && (colorMask =? 0)) msg_forced_msaa_attachments;
    Done ret.

(** ** The native driver

    What the Vulkan implementation answers to the creation calls, and what
    the scoped timer measures around them. *)

Record Driver := {
  (* vkCreateGraphicsPipelines(device, cache, 1, &gpci, NULL, &ret): the result code and the handle written *)
  vkCreateGraphicsPipelines : Z -> Vk.VkGraphicsPipelineCreateInfo -> Z * Z;
  (* vkCreateComputePipelines(device, cache, 1, &cpci, NULL, &ret), by cache, shader module and layout *)
  vkCreateComputePipelines : Z -> Z -> Z -> Z * Z;
  compilationTime : Z
}.

(** ** Graphics pipeline *)

Module Graphics.

(* The members of the graphics pipeline layout the pipeline code reads. *)
Record GraphicsPipelineLayout := {
  layoutHandle : Z;        (* layout->handle *)
  fsOutputMask : Z;        (* layout->registers.fs().header.outputMask *)
  hasTC : bool
}.

(* GraphicsPipelineCompileScratchData.  Vertex input, tessellation, input
   assembly, dynamic state list and shader stage list are filled by the
   constructor from the input layout and the shader modules only; they are
   not read again by the code modelled here and are left out. *)
Record GraphicsPipelineCompileScratchData := {
  vkCache : Z;
  nativeRP : option RenderPassResource;
  raster : Vk.VkPipelineRasterizationStateCreateInfo;
  multisample : Vk.VkPipelineMultisampleStateCreateInfo;
  depthStencil : Vk.VkPipelineDepthStencilStateCreateInfo;
  attachmentStates : list Vk.VkPipelineColorBlendAttachmentState;
  colorBlendState : Vk.VkPipelineColorBlendStateCreateInfo;
  gpci : Vk.VkGraphicsPipelineCreateInfo;
  parentPipe : option nat;    (* GraphicsPipeline *parentPipe, an address or null *)
  allocated : bool;
  progIdx : Z;
  varIdx : Z;
  varTotal : Z
}.

Record GraphicsPipeline := {
  layout : GraphicsPipelineLayout;
  dynStateMask : Z;
  handle : Z;                 (* VK_NULL_HANDLE until compiled *)
  compileScratch : option GraphicsPipelineCompileScratchData
}.

(* GraphicsPipelineVariantDescription, with the static render state already
   fetched: [staticState] is info.rsBackend.getStatic(info.varDsc.state.renderState.staticIdx). *)
Record GraphicsPipelineVariantDescription := {
  subpass : Z;
  rpClass : RenderPassClassIdentifier;
  polygonLine : Z;
  topology : Z
}.

Record GraphicsPipelineCreationInfo := {
  info_dynStateMask : Z;
  info_scratch : GraphicsPipelineCompileScratchData;
  info_nativeRP : option RenderPassResource;
  info_varDsc : GraphicsPipelineVariantDescription;
  info_staticState : RenderState.StaticState;
  info_passHandle : Z;        (* info.pass_man.getPassClass(rpClass)->getPass(device, 0) *)
  info_parentPipeline : option nat
}.

(** *** GraphicsPipeline::GraphicsPipeline (main_pipelines.cpp, lines 196-459) *)

Definition uint8 (x : Z) : Z := x mod 256.

(* Lines 203-226: what the pipeline learns from its render pass. *)
Record ResolvedPass := {
  renderPassHandle : Z;
  hasDepth : bool;
  forceNoZWrite : bool;
  rpColorTargetMask : Z;   (* uint32_t *)
  sampleCount : Z
}.

Definition resolvePass (info : GraphicsPipelineCreationInfo) : ResolvedPass :=
  let sp := subpass (info_varDsc info) in
  let cls := rpClass (info_varDsc info) in
  match info_nativeRP info with
  | Some rp =>
      {| renderPassHandle := rpGetHandle rp;
         hasDepth := hasDepthAtSubpass rp sp;
         forceNoZWrite := false;
         rpColorTargetMask := getColorWriteMaskAtSubpass rp sp;
         sampleCount := getMSAASamples rp sp |}
  | None =>
      {| renderPassHandle := info_passHandle info;
         hasDepth := bool_decide (depthState cls ≠ NO_DEPTH);
         forceNoZWrite := bool_decide (depthState cls = RO_DEPTH);
         rpColorTargetMask := colorTargetMask cls;
         sampleCount := Z.max (colorSamples cls !!! 0%nat) 1 |}
  end.

(* Lines 267-280: the cull mode keeps the scratch's previous value when the
   static state holds none of the three known offsets. *)
Definition translateCullMode (cull_mode previous : Z) : Z :=
  if cull_mode =? 0 then 0
  else if cull_mode =? RenderState.CULL_CW_minus_CULL_NONE then Vk.VK_CULL_MODE_FRONT_BIT
  else if cull_mode =? RenderState.CULL_CCW_minus_CULL_NONE then Vk.VK_CULL_MODE_BACK_BIT
  else previous.

(* Line 348. *)
Definition isResolveAttachment (info : GraphicsPipelineCreationInfo) (i : nat) : bool :=
  (0 <? i)%nat
  && (1 <? colorSamples (rpClass (info_varDsc info)) !!! (i - 1)%nat)
  && negb (bool_decide (is_Some (info_nativeRP info))).

(* Lines 354-389: the attachment state written for render target [i] into
   slot [attachmentCount]. *)
Definition attachmentState (cfg : Config) (info : GraphicsPipelineCreationInfo)
    (i attachmentCount : nat) (swMask rpMask : Z) : Vk.VkPipelineColorBlendAttachmentState :=
  let staticState := info_staticState info in
  let blendStateId :=
    if RenderState.indenpendentBlendEnabled staticState
       && (i <? NumIndependentBlendParameters cfg)%nat then i else 0%nat in
  let blendState := RenderState.blendStates staticState !!! blendStateId in
  let separate := RenderState.blendSeparateAlphaEnable blendState in
  {| Vk.blendEnable := RenderState.blendEnable blendState;
     Vk.srcColorBlendFactor := RenderState.blendSrcFactor blendState;
     Vk.dstColorBlendFactor := RenderState.blendDstFactor blendState;
     Vk.colorBlendOp := RenderState.blendOp blendState;
     Vk.srcAlphaBlendFactor :=
       if separate then RenderState.blendSrcAlphaFactor blendState
       else RenderState.blendSrcFactor blendState;
     Vk.dstAlphaBlendFactor :=
       if separate then RenderState.blendDstAlphaFactor blendState
       else RenderState.blendDstFactor blendState;
     Vk.alphaBlendOp :=
       if separate then RenderState.blendOpAlpha blendState
       else RenderState.blendOp blendState;
     Vk.colorWriteMask :=
       if negb (Z.land (Z.land swMask rpMask) 1 =? 0)
       then Z.land (Z.shiftr (RenderState.colorMask staticState) (Z.of_nat attachmentCount * 4))
                   Vk.VK_COLOR_COMPONENT_RGBA_BIT
       else 0 |}.

(* Lines 346-393: the loop over render targets.  [n] counts the values of
   [i] still below MAX_SIMRT; a resolve attachment takes the [continue],
   which still runs the loop's own [++i, rpMask >>= 1]. *)
Fixpoint fillAttachments (cfg : Config) (info : GraphicsPipelineCreationInfo)
    (n i : nat) (rpMask swMask : Z) (attachmentCount : nat)
    (states : list Vk.VkPipelineColorBlendAttachmentState)
  : nat * list Vk.VkPipelineColorBlendAttachmentState :=
  match n with
  | O => (attachmentCount, states)
  | S n' =>
      if rpMask =? 0 then (attachmentCount, states)
      else if isResolveAttachment info i
      then fillAttachments cfg info n' (S i) (Z.shiftr rpMask 1) swMask attachmentCount states
      else
        fillAttachments cfg info n' (S i) (Z.shiftr rpMask 1) (Z.shiftr swMask 1)
          (S attachmentCount)
          (<[attachmentCount := attachmentState cfg info i attachmentCount swMask rpMask]> states)
  end.

(* Lines 332-394. *)
Definition colorAttachments (cfg : Config) (l : GraphicsPipelineLayout)
    (info : GraphicsPipelineCreationInfo) (rpColorTargetMask : Z)
    (states : list Vk.VkPipelineColorBlendAttachmentState)
  : nat * list Vk.VkPipelineColorBlendAttachmentState :=
  if negb (rpColorTargetMask =? 0)
  then fillAttachments cfg info (MAX_SIMRT cfg) 0%nat
         (uint8 rpColorTargetMask) (uint8 (fsOutputMask l)) 0%nat states
  else (0%nat, states).

Definition msg_alpha_to_coverage : string :=
  "(csd.multisample.alphaToCoverageEnable == VK_FALSE) || ((csd.multisample.alphaToCoverageEnable == VK_TRUE) && !(csd.multisample.rasterizationSamples & VK_SAMPLE_COUNT_1_BIT))".

(* Lines 257-295: rasterization state.  [previous] is the cull mode the
   scratch held before. *)
Definition rasterState (cfg : Config) (info : GraphicsPipelineCreationInfo) (previous : Z)
  : Vk.VkPipelineRasterizationStateCreateInfo :=
  let staticState := info_staticState info in
  {| Vk.depthClampEnable :=
       if TARGET_ANDROID cfg then false
       else if RenderState.depthClipEnable staticState then false else true;
     Vk.rasterizerDiscardEnable := false;
     Vk.polygonMode := polygonLine (info_varDsc info);
     Vk.cullMode := translateCullMode (RenderState.cullMode staticState) previous;
     Vk.frontFace := Vk.VK_FRONT_FACE_CLOCKWISE;
     Vk.depthBiasEnable := true;
     Vk.conservativeRasterChained :=
       RenderState.conservativeRasterEnable staticState
       && hasConservativeRasterizationEXT cfg |}.

(* Lines 313-330: depth and stencil state as the static state asks for it. *)
Definition depthStencilState (info : GraphicsPipelineCreationInfo) (forceNoZWrite : bool)
  : Vk.VkPipelineDepthStencilStateCreateInfo :=
  let staticState := info_staticState info in
  let stencilFront :=
    {| Vk.failOp := RenderState.stencilTestOpStencilFail staticState;
       Vk.passOp := RenderState.stencilTestOpPass staticState;
       Vk.depthFailOp := RenderState.stencilTestOpDepthFail staticState;
       Vk.compareOp := RenderState.stencilTestFunc staticState;
       Vk.compareMask := 255; Vk.writeMask := 255; Vk.reference := 255 |} in
  {| Vk.depthTestEnable := RenderState.depthTestEnable staticState;
     Vk.depthWriteEnable := RenderState.depthWriteEnable staticState && negb forceNoZWrite;
     Vk.depthCompareOp := RenderState.depthTestFunc staticState;
     Vk.depthBoundsTestEnable := RenderState.depthBoundsEnable staticState;
     Vk.stencilTestEnable := RenderState.stencilTestEnable staticState;
     Vk.front := stencilFront;
     Vk.back := stencilFront |}.

(* Lines 405-414: the assignments of the [if (!hasDepth)] block. *)
Definition depthStencilWithoutDepth (ds : Vk.VkPipelineDepthStencilStateCreateInfo)
  : Vk.VkPipelineDepthStencilStateCreateInfo :=
  {| Vk.depthTestEnable := false;
     Vk.depthWriteEnable := false;
     Vk.depthCompareOp := Vk.depthCompareOp ds;
     Vk.depthBoundsTestEnable := false;
     Vk.stencilTestEnable := false;
     Vk.front := Vk.front ds;
     Vk.back := Vk.back ds |}.

Definition rasterWithoutDepth (r : Vk.VkPipelineRasterizationStateCreateInfo)
  : Vk.VkPipelineRasterizationStateCreateInfo :=
  {| Vk.depthClampEnable := false;
     Vk.rasterizerDiscardEnable := Vk.rasterizerDiscardEnable r;
     Vk.polygonMode := Vk.polygonMode r;
     Vk.cullMode := Vk.cullMode r;
     Vk.frontFace := Vk.frontFace r;
     Vk.depthBiasEnable := false;
     Vk.conservativeRasterChained := Vk.conservativeRasterChained r |}.

Definition ctor (cfg : Config) (cache : Z) (l : GraphicsPipelineLayout)
    (info : GraphicsPipelineCreationInfo) : outcome (GraphicsPipeline * list Event) :=
  let csd := info_scratch info in
  let staticState := info_staticState info in
  (* deal with render pass dependencies *)
  let rp := resolvePass info in
  let refEvents :=
    match info_nativeRP info with
    | Some r => [EvAddPipelineCompileRef (rpId r)]
    | None => []
    end in
  let raster0 := rasterState cfg info (Vk.cullMode (raster csd)) in
  (* multisample state *)
  let forcedSamplerCount := RenderState.getForcedSamplerCount staticState in
  rasterizationSamples ←
    (if forcedSamplerCount =? 0 then Done (sampleCount rp)
     else checkSampleCount cfg (RenderState.getForcedSamplerCount staticState)
            (uint8 (rpColorTargetMask rp)) (if hasDepth rp then 1 else 0));
  let alphaToCoverageEnable := RenderState.alphaToCoverage staticState in
  _ ← G_ASSERT (negb alphaToCoverageEnable
                || (alphaToCoverageEnable
                    && (Z.land rasterizationSamples Vk.VK_SAMPLE_COUNT_1_BIT =? 0)))
               msg_alpha_to_coverage;
  let depthStencil0 := depthStencilState info (forceNoZWrite rp) in
  (* colour blend attachments *)
  let '(attachmentCount, states) :=
    colorAttachments cfg l info (rpColorTargetMask rp) (attachmentStates csd) in
  let csd' :=
    {| vkCache := cache;
       nativeRP := info_nativeRP info;
       raster := if negb (hasDepth rp) then rasterWithoutDepth raster0 else raster0;
       multisample :=
         {| Vk.rasterizationSamples := rasterizationSamples;
            Vk.sampleShadingEnable := false;
            Vk.alphaToCoverageEnable := alphaToCoverageEnable;
            Vk.alphaToOneEnable := false |};
       depthStencil :=
         if negb (hasDepth rp) then depthStencilWithoutDepth depthStencil0 else depthStencil0;
       attachmentStates := states;
       colorBlendState :=
         {| Vk.logicOpEnable := false;
            Vk.logicOp := Vk.VK_LOGIC_OP_COPY;
            Vk.attachmentCount := attachmentCount |};
       gpci :=
         {| Vk.flags := Vk.VK_PIPELINE_CREATE_ALLOW_DERIVATIVES_BIT;
            Vk.layout := layoutHandle l;
            Vk.renderPass := renderPassHandle rp;
            Vk.subpass := subpass (info_varDsc info);
            Vk.basePipelineHandle := Vk.VK_NULL_HANDLE;
            Vk.basePipelineIndex := 0 |};
       parentPipe := info_parentPipeline info;
       allocated := allocated csd;
       progIdx := progIdx csd;
       varIdx := varIdx csd;
       varTotal := varTotal csd |} in
  Done ({| layout := l;
           dynStateMask := info_dynStateMask info;
           handle := Vk.VK_NULL_HANDLE;
           compileScratch := Some csd' |},
        refEvents).

(** *** GraphicsPipeline::createPipelineObject and GraphicsPipeline::compile
        (main_pipelines.cpp, lines 466-539)

    Graphics pipelines refer to each other through [parentPipe], so they
    live in a store indexed by address. *)

Record World := {
  pipes : gmap nat GraphicsPipeline;
  trace : list Event
}.

(** Modelled from the spec: the base pipeline class, with [getHandle],
    [getCompiledHandle], [checkCompiled], [setHandle] and
    [setCompiledHandle], is declared outside these sources.  A pipeline
    owns "a native pipeline object handle (initially null/compiling)" and is
    compiled once that handle is valid: both getters read the handle, both
    setters store it. *)
Definition getHandle (p : GraphicsPipeline) : Z := handle p.
Definition getCompiledHandle (p : GraphicsPipeline) : Z := handle p.
Definition checkCompiled (p : GraphicsPipeline) : bool := negb (Vk.is_null (getCompiledHandle p)).

Definition deref (pipes : gmap nat GraphicsPipeline) (a : nat) : outcome GraphicsPipeline :=
  match pipes !! a with
  | Some p => Done p
  | None => Fatal NullDeref
  end.

(* Lines 527-532: the create-info handed to the native call. *)
Definition derivativeCreateInfo (pipes : gmap nat GraphicsPipeline)
    (csd : GraphicsPipelineCompileScratchData) : outcome Vk.VkGraphicsPipelineCreateInfo :=
  match parentPipe csd with
  | None => Done (gpci csd)
  | Some a =>
      parent ← deref pipes a;
      if negb (Vk.is_null (getCompiledHandle parent))
      then Done {| Vk.flags := Z.lor (Vk.flags (gpci csd)) Vk.VK_PIPELINE_CREATE_DERIVATIVE_BIT;
                   Vk.layout := Vk.layout (gpci csd);
                   Vk.renderPass := Vk.renderPass (gpci csd);
                   Vk.subpass := Vk.subpass (gpci csd);
                   Vk.basePipelineHandle := getHandle parent;
                   Vk.basePipelineIndex := -1 |}
      else Done (gpci csd)
  end.

Definition set_gpci (csd : GraphicsPipelineCompileScratchData)
    (ci : Vk.VkGraphicsPipelineCreateInfo) : GraphicsPipelineCompileScratchData :=
  {| vkCache := vkCache csd; nativeRP := nativeRP csd; raster := raster csd;
     multisample := multisample csd; depthStencil := depthStencil csd;
     attachmentStates := attachmentStates csd; colorBlendState := colorBlendState csd;
     gpci := ci; parentPipe := parentPipe csd; allocated := allocated csd;
     progIdx := progIdx csd; varIdx := varIdx csd; varTotal := varTotal csd |}.

(* Returns the handle, the scratch with its create-info as the native call
   saw it, and the native call made. *)
Definition createPipelineObject (drv : Driver) (pipes : gmap nat GraphicsPipeline)
    (csd : GraphicsPipelineCompileScratchData)
  : outcome (Z * GraphicsPipelineCompileScratchData * list Event) :=
  ci ← derivativeCreateInfo pipes csd;
  let '(result, ret) := vkCreateGraphicsPipelines drv (vkCache csd) ci in
  _ ← Vk.VULKAN_EXIT_ON_FAIL result;
  Done (ret, set_gpci csd ci, [EvCreateGraphicsPipelines (vkCache csd) ci]).

Definition msg_gfx_not_compiled : string :=
  "vulkan: pipeline [gfx:%u:%u(%u)] not compiled but result was ok".
Definition msg_gfx_compiled : string :=
  "vulkan: pipeline [gfx:%u:%u(%u)] compiled in %u us".

Definition compile (cfg : Config) (drv : Driver) (this : nat) (w : World) : outcome World :=
  self ← deref (pipes w) this;
  match compileScratch self with
  | None => Fatal NullDeref
  | Some csd0 =>
      '(retHandle, csd, created) ← createPipelineObject drv (pipes w) csd0;
      let logged :=
        if Vk.is_null retHandle
        then [EvLogerr msg_gfx_not_compiled [progIdx csd; varIdx csd; varTotal csd]]
        else if negb (VULKAN_LOG_PIPELINE_ACTIVITY cfg <? 1)
                || ((PIPELINE_COMPILATION_LONG_THRESHOLD cfg <? compilationTime drv)
                    && negb (allocated csd))
        then [EvDebug msg_gfx_compiled
                [progIdx csd; varIdx csd; varTotal csd; compilationTime drv]]
        else [] in
      let released :=
        match nativeRP csd with
        | Some rp => [EvReleasePipelineCompileRef (rpId rp)]
        | None => []
        end in
      (* setCompiledHandle(retHandle) when the scratch was heap allocated,
         setHandle(retHandle) otherwise; then compileScratch = nullptr *)
      let deleted := if allocated csd then [EvDeleteScratch] else [] in
      let self' :=
        {| layout := layout self; dynStateMask := dynStateMask self;
           handle := retHandle; compileScratch := None |} in
      Done {| pipes := <[this := self']> (pipes w);
              trace := trace w ++ created ++ logged ++ released ++ deleted |}
  end.

(* GraphicsPipeline::bind (lines 461-464). *)
Definition bind (this : nat) (cmd_buffer : Z) (w : World) : outcome World :=
  self ← deref (pipes w) this;
  Done {| pipes := pipes w;
          trace := trace w ++
            [EvCmdBindPipeline cmd_buffer Vk.VK_PIPELINE_BIND_POINT_GRAPHICS (getHandle self)] |}.

End Graphics.

(** ** Program identifiers

    [ProgramID] is an opaque tagged value; each pipeline kind brings a
    [ProgramType] that recognises the identifiers of its namespace and maps
    them to dense storage indexes.  Both are declared outside these
    sources, so a [ProgramType] is carried as a record of its three static
    functions. *)

Record ProgramID := { get : Z }.

Record ProgramType := {
  checkID : ProgramID -> bool;
  getIndexFromID : ProgramID -> Z;       (* LinearStorageIndex *)
  makeID : Z -> ProgramID
}.

(** ** Compute pipeline *)

Module Compute.

(* A compute pipeline layout object: its address, the description it was
   created from and its native handle.  Layout objects never change after
   construction, so a [LayoutType *] is the object itself. *)
Record ComputePipelineLayout := {
  layoutAddr : nat;
  layoutHeader : list Z;
  layoutHandle : Z
}.

Record ComputePipelineCompileScratchData := {
  allocated : bool;
  vkModule : Z;
  vkLayout : Z;
  vkCache : Z;
  progIdx : Z
}.

Record ComputePipeline := {
  layout : ComputePipelineLayout;
  handle : Z;                 (* VK_NULL_HANDLE until compiled *)
  compileScratch : option ComputePipelineCompileScratchData
}.

Record CreationInfo := {
  info_layout : list Z;       (* info.layout, the layout creation description *)
  sci_module : Z;             (* get_device().makeVkModule(info.sci) *)
  allowAsyncCompile : bool
}.

(* Compute pipelines are shared between their storage slot, the command
   recording code and the background compiler: they live in a store indexed
   by address.  [pipelineCompiler] is the background compiler's queue of
   pipelines waiting for their compilation, oldest first. *)
Record World := {
  pipes : gmap nat ComputePipeline;
  pipelineCompiler : list nat;
  trace : list Event
}.

Definition deref (w : World) (a : nat) : outcome ComputePipeline :=
  match pipes w !! a with
  | Some p => Done p
  | None => Fatal NullDeref
  end.

(** Modelled from the spec: the base pipeline class is declared outside
    these sources (see [Graphics.getHandle]): the getters read the handle,
    the setters store it, and a pipeline is compiled once its handle is
    not null. *)
Definition getHandle (p : ComputePipeline) : Z := handle p.
Definition getCompiledHandle (p : ComputePipeline) : Z := handle p.
Definition checkCompiled (p : ComputePipeline) : bool := negb (Vk.is_null (getCompiledHandle p)).

(* ComputePipeline::pendingCompilation (line 155). *)
Definition pendingCompilation (p : ComputePipeline) : bool := negb (checkCompiled p).

Definition msg_not_compiled : string :=
  "vulkan: pipeline [compute:%u] not compiled but result was ok (%u)".
Definition msg_compiled : string :=
  "vulkan: pipeline [compute:%u] compiled in %u us".

(** *** ComputePipeline::compile (lines 81-153)

    Built without VULKAN_LOAD_SHADER_EXTENDED_DEBUG_DATA: the blocks under
    that switch only add names to log lines and native objects. *)
Definition compile (cfg : Config) (drv : Driver) (this : nat) (w : World) : outcome World :=
  self ← deref w this;
  match compileScratch self with
  | None => Fatal NullDeref
  | Some csd =>
      let '(result, retHandle) :=
        vkCreateComputePipelines drv (vkCache csd) (vkModule csd) (layoutHandle (layout self)) in
      let created :=
        [EvCreateComputePipelines (vkCache csd) (vkModule csd) (layoutHandle (layout self))] in
      let nullButOk := Vk.is_null retHandle && Vk.VULKAN_OK result in
      let complained := if nullButOk then [EvDebug msg_not_compiled [progIdx csd; result]] else [] in
      let compileResult := if nullButOk then Vk.VK_ERROR_UNKNOWN else result in
      _ ← Vk.VULKAN_EXIT_ON_FAIL compileResult;
      let logged :=
        if negb (VULKAN_LOG_PIPELINE_ACTIVITY cfg <? 1)
           || ((PIPELINE_COMPILATION_LONG_THRESHOLD cfg <? compilationTime drv)
               && negb (allocated csd))
        then [EvDebug msg_compiled [progIdx csd; compilationTime drv]]
        else [] in
      let destroyed := [EvDestroyShaderModule (vkModule csd)] in
      let deleted := if allocated csd then [EvDeleteScratch] else [] in
      let self' := {| layout := layout self; handle := retHandle; compileScratch := None |} in
      Done {| pipes := <[this := self']> (pipes w);
              pipelineCompiler := pipelineCompiler w;
              trace := trace w ++ created ++ complained ++ logged ++ destroyed ++ deleted |}
  end.

(** *** Background compiler queue *)

(** Modelled from the spec: the pipeline compiler is not part of these
    sources.  "enqueue(pipeline) accepts ownership of the compile request
    without blocking the caller". *)
Definition queue (this : nat) (w : World) : World :=
  {| pipes := pipes w;
     pipelineCompiler := pipelineCompiler w ++ [this];
     trace := trace w ++ [EvQueue this] |}.

Definition set_queue (q : list nat) (w : World) : World :=
  {| pipes := pipes w; pipelineCompiler := q; trace := trace w |}.

(** Modelled from the spec: the background compiler "accepts pipelines for
    asynchronous compilation, compiles them off the critical submission
    path": one step compiles the oldest queued pipeline; [None] when there
    is nothing to do. *)
Definition compilerStep (cfg : Config) (drv : Driver) (w : World) : option (outcome World) :=
  match pipelineCompiler w with
  | [] => None
  | a :: rest => Some (compile cfg drv a (set_queue rest w))
  end.

(** Modelled from the spec: "waitFor(pipeline) blocks the calling execution
    context until that specific pipeline's compilation has completed (and
    only that one - it must not require draining the entire queue)".  While
    the caller is blocked only the compiler runs, so the wait is the
    compiler's progress up to the moment the awaited pipeline is compiled;
    a wait that no queued compilation can end does not return ([Blocked]). *)
Fixpoint waitLoop (cfg : Config) (drv : Driver) (this : nat) (q : list nat) (w : World)
  : outcome World :=
  self ← deref w this;
  if pendingCompilation self
  then match q with
       | [] => Fatal Blocked
       | a :: rest =>
           w' ← compile cfg drv a (set_queue rest w);
           waitLoop cfg drv this rest w'
       end
  else Done w.

(** Modelled from the spec: [waitFor], as above, entered from the caller. *)
Definition waitFor (cfg : Config) (drv : Driver) (this : nat) (w : World) : outcome World :=
  waitLoop cfg drv this (pipelineCompiler w)
    {| pipes := pipes w; pipelineCompiler := pipelineCompiler w;
       trace := trace w ++ [EvWaitFor this] |}.

(** *** ComputePipeline::ComputePipeline (lines 49-69)

    [this] is the address at which the new object is being constructed. *)
Definition ctor (cfg : Config) (drv : Driver) (this : nat) (prog : ProgramID) (cache : Z)
    (l : ComputePipelineLayout) (info : CreationInfo) (w : World) : outcome World :=
  let scratch :=
    {| allocated := allowAsyncCompile info;
       vkModule := sci_module info;
       vkLayout := layoutHandle l;
       vkCache := cache;
       progIdx := get prog |} in
  let self := {| layout := l; handle := Vk.VK_NULL_HANDLE; compileScratch := Some scratch |} in
  let w1 := {| pipes := <[this := self]> (pipes w);
               pipelineCompiler := pipelineCompiler w;
               trace := trace w |} in
  if allowAsyncCompile info
  then Done (queue this w1)
  else compile cfg drv this w1.

(** *** ComputePipeline::bind (lines 71-79) *)
Definition bind (cfg : Config) (drv : Driver) (this : nat) (cmd_buffer : Z) (w : World)
  : outcome World :=
  self ← deref w this;
  w1 ← (if negb (checkCompiled self) then waitFor cfg drv this w else Done w);
  self1 ← deref w1 this;
  Done {| pipes := pipes w1;
          pipelineCompiler := pipelineCompiler w1;
          trace := trace w1 ++
            [EvCmdBindPipeline cmd_buffer Vk.VK_PIPELINE_BIND_POINT_COMPUTE (getHandle self1)] |}.

End Compute.

(** ** PipelineManagerStorage<PipelineType> (manager.h, lines 15-118)

    The template reaches its pipeline kind only through the member types
    and operations gathered in [PipelineTraits]: the kind's [ProgramType],
    the layout description inside a creation info, [LayoutType::matches],
    and the two [new] expressions, which allocate and construct an object in
    the surrounding world [W] and return the pointer to it.
    [getLayout] is the base pipeline class's accessor of the layout pointer
    the pipeline was constructed with. *)

Module Storage.

Record PipelineTraits (W LayoutType LayoutCreationInfo PipelineType CreationInfo : Type) := {
  programType : ProgramType;
  info_layout : CreationInfo -> LayoutCreationInfo;
  matches : LayoutType -> LayoutCreationInfo -> bool;
  newLayout : LayoutCreationInfo -> W -> LayoutType * W;
  newPipeline : ProgramID -> Z -> LayoutType -> CreationInfo -> W -> outcome (PipelineType * W);
  getLayout : W -> PipelineType -> option LayoutType
}.
Arguments programType {W LayoutType LayoutCreationInfo PipelineType CreationInfo} _.
Arguments info_layout {W LayoutType LayoutCreationInfo PipelineType CreationInfo} _ _.
Arguments matches {W LayoutType LayoutCreationInfo PipelineType CreationInfo} _ _ _.
Arguments newLayout {W LayoutType LayoutCreationInfo PipelineType CreationInfo} _ _ _.
Arguments newPipeline {W LayoutType LayoutCreationInfo PipelineType CreationInfo} _ _ _ _ _ _.
Arguments getLayout {W LayoutType LayoutCreationInfo PipelineType CreationInfo} _ _ _.

(* Tab<LayoutType *> layouts; Tab<PipelineType *> pipelines, a null slot is [None]. *)
Record PipelineManagerStorage (LayoutType PipelineType : Type) := {
  layouts : list LayoutType;
  pipelines : list (option PipelineType)
}.
Arguments layouts {LayoutType PipelineType} _.
Arguments pipelines {LayoutType PipelineType} _.

Definition msg_checkID : string := "ProgramType::checkID(program)".
Definition msg_slot_empty : string := "!pipelines[index]".
Definition msg_ret : string := "ret".

Section PipelineManagerStorage.

Context {W LayoutType LayoutCreationInfo PipelineType CreationInfo : Type}.

#[local] Abbreviation Storage := (PipelineManagerStorage LayoutType PipelineType).
#[local] Abbreviation Traits :=
  (PipelineTraits W LayoutType LayoutCreationInfo PipelineType CreationInfo).

(* pipelines[index]: element access, fatal outside the array. *)
Definition at_index (st : Storage) (index : Z) : outcome (option PipelineType) :=
  if index <? 0 then Fatal OutOfRange
  else match pipelines st !! Z.to_nat index with
       | Some p => Done p
       | None => Fatal OutOfRange
       end.

(* pipelines[index] = p, for an index inside the array. *)
Definition set_index (st : Storage) (index : Z) (p : option PipelineType) : Storage :=
  {| layouts := layouts st; pipelines := <[Z.to_nat index := p]> (pipelines st) |}.

(* Lines 24-35. *)
Definition findOrAddLayout (T : Traits) (st : Storage) (layoutInfo : LayoutCreationInfo) (w : W)
  : LayoutType * Storage * W :=
  match List.find (fun layout => matches T layout layoutInfo) (layouts st) with
  | Some layout => (layout, st, w)
  | None =>
      let '(ret, w') := newLayout T layoutInfo w in
      (ret, {| layouts := layouts st ++ [ret]; pipelines := pipelines st |}, w')
  end.

(* Lines 37-45. *)
Definition ensureSpaceForIndex (st : Storage) (index : Z) : Storage :=
  let size := Z.of_nat (length (pipelines st)) in
  let storageExtend := if size <=? index then index - size + 1 else 0 in
  if negb (storageExtend =? 0)
  then {| layouts := layouts st;
          pipelines := pipelines st ++ replicate (Z.to_nat storageExtend) None |}
  else st.

(* Lines 74-85. *)
Definition add (T : Traits) (st : Storage) (program : ProgramID) (cache : Z)
    (info : CreationInfo) (w : W) : outcome (Storage * W) :=
  _ ← G_ASSERT (checkID (programType T) program) msg_checkID;
  let '(layout, st1, w1) := findOrAddLayout T st (info_layout T info) w in
  let index := getIndexFromID (programType T) program in
  let st2 := ensureSpaceForIndex st1 index in
  old ← at_index st2 index;
  _ ← G_ASSERT (negb (bool_decide (is_Some old))) msg_slot_empty;
  '(p, w2) ← newPipeline T program cache layout info w1;
  Done (set_index st2 index (Some p), w2).

(* Lines 88-95: take object from storage and replace with nullptr. *)
Definition takeOut (st : Storage) (index : Z) : outcome (PipelineType * Storage) :=
  ret ← at_index st index;
  let st' := set_index st index None in
  match ret with
  | Some p => Done (p, st')
  | None => Fatal (AssertFailed msg_ret)
  end.

(* Lines 106-111. *)
Definition get (pt : ProgramType) (st : Storage) (program : ProgramID) : outcome PipelineType :=
  _ ← G_ASSERT (checkID pt program) msg_checkID;
  slot ← at_index st (getIndexFromID pt program);
  match slot with
  | Some p => Done p
  | None => Fatal NullDeref
  end.

(* Lines 113-117. *)
Definition valid (pt : ProgramType) (st : Storage) (program : ProgramID) : bool :=
  let index := getIndexFromID pt program in
  checkID pt program
  && (0 <=? index)
  && (index <? Z.of_nat (length (pipelines st)))
  && match pipelines st !! Z.to_nat index with
     | Some (Some _) => true      (* pipelines[index] != nullptr *)
     | _ => false
     end.

(* A caller's sequence of storage calls. *)
Inductive StorageCall : Type :=
| CallAdd (program : ProgramID) (cache : Z) (info : CreationInfo)
| CallTakeOut (index : Z).

Definition call (T : Traits) (c : StorageCall) (st : Storage) (w : W) : outcome (Storage * W) :=
  match c with
  | CallAdd program cache info => add T st program cache info w
  | CallTakeOut index => '(_, st') ← takeOut st index; Done (st', w)
  end.

Fixpoint calls (T : Traits) (cs : list StorageCall) (st : Storage) (w : W)
  : outcome (Storage * W) :=
  match cs with
  | [] => Done (st, w)
  | c :: cs' => '(st', w') ← call T c st w; calls T cs' st' w'
  end.

End PipelineManagerStorage.

End Storage.

(** ** PipelineManager (manager.h, lines 120-215) *)

Module Manager.

Import Storage.

Record PipelineManager (GL G CL C RL R : Type) := {
  graphics : PipelineManagerStorage GL G;     (* VariatedGraphicsPipeline *)
  compute : PipelineManagerStorage CL C;      (* ComputePipeline *)
  raytrace : PipelineManagerStorage RL R;     (* RaytracePipeline, under D3D_HAS_RAY_TRACING *)
  asyncCompileAllowed : bool
}.
Arguments graphics {GL G CL C RL R} _.
Arguments compute {GL G CL C RL R} _.
Arguments raytrace {GL G CL C RL R} _.
Arguments asyncCompileAllowed {GL G CL C RL R} _.

(* The ProgramType of each pipeline kind. *)
Record ProgramTypes := {
  GraphicsProgram : ProgramType;
  ComputeProgram : ProgramType;
  RaytraceProgram : ProgramType
}.

(* [func]: one operator() overload per pipeline type.  Each receives the
   reference to the stored pipeline and acts on whatever state [S] the
   functional object can reach. *)
Record Visitor (G C R S : Type) := {
  onVariatedGraphics : G -> S -> S;
  onCompute : C -> S -> S;
  onRaytrace : R -> S -> S
}.
Arguments onVariatedGraphics {G C R S} _ _ _.
Arguments onCompute {G C R S} _ _ _.
Arguments onRaytrace {G C R S} _ _ _.

Section PipelineManager.

Context {GL G CL C RL R S : Type}.

(* PROCESS_PIPELINE_STORAGE_ENTRY(Type), lines 174-184: [Some] is the
   macro's return, [None] falls through to the next entry. *)
Definition processEntry {L P : Type} (pt : ProgramType) (storage : PipelineManagerStorage L P)
    (program : ProgramID) (func : P -> S -> S) (s : S) : option (outcome (bool * S)) :=
  if checkID pt program
  then if negb (valid pt storage program)
       then Some (Done (false, s))
       else Some (p ← get pt storage program; Done (true, func p s))
  else None.

(* Lines 171-196. *)
Definition visit (cfg : Config) (pts : ProgramTypes) (m : PipelineManager GL G CL C RL R)
    (program : ProgramID) (func : Visitor G C R S) (s : S) : outcome (bool * S) :=
  match processEntry (GraphicsProgram pts) (graphics m) program (onVariatedGraphics func) s with
  | Some r => r
  | None =>
  match processEntry (ComputeProgram pts) (compute m) program (onCompute func) s with
  | Some r => r
  | None =>
  match (if D3D_HAS_RAY_TRACING cfg
         then processEntry (RaytraceProgram pts) (raytrace m) program (onRaytrace func) s
         else None) with
  | Some r => r
  | None => Done (false, s)
  end end end.

Definition setAsyncCompile (m : PipelineManager GL G CL C RL R) (allowed : bool)
  : PipelineManager GL G CL C RL R :=
  {| graphics := graphics m; compute := compute m; raytrace := raytrace m;
     asyncCompileAllowed := allowed |}.

Definition asyncCompileEnabled (m : PipelineManager GL G CL C RL R) : bool :=
  asyncCompileAllowed m.

End PipelineManager.

End Manager.

(** * Vocabulary of the properties *)

Module GraphicsSpec.

Import Graphics.

(* The sample count the constructor settles on (lines 297-299). *)
Definition chosenSamples (cfg : Config) (info : GraphicsPipelineCreationInfo) : outcome Z :=
  let rp := resolvePass info in
  let forced := RenderState.getForcedSamplerCount (info_staticState info) in
  if forced =? 0 then Done (sampleCount rp)
  else checkSampleCount cfg forced (uint8 (rpColorTargetMask rp)) (if hasDepth rp then 1 else 0).

(* Number of bits needed to write [m]: index of the highest set bit plus
   one, and 0 for 0. *)
Definition bit_length (m : Z) : nat :=
  if m =? 0 then 0%nat else S (Z.to_nat (Z.log2 m)).

(* Render targets [i .. i+k-1] that are multisample resolve attachments,
   and those that are not. *)
Definition resolveSlots (info : GraphicsPipelineCreationInfo) (i k : nat) : nat :=
  length (filter (fun j => isResolveAttachment info j = true) (seq i k)).

Definition keptSlots (info : GraphicsPipelineCreationInfo) (i k : nat) : nat :=
  length (filter (fun j => isResolveAttachment info j = false) (seq i k)).

End GraphicsSpec.

Module ComputeSpec.

Import Compute.

(* The pipeline at address [a] is waiting for its compilation: no handle
   yet, and the scratch the compilation will read. *)
Definition pending_with_scratch (w : World) (a : nat) : Prop :=
  exists p csd,
    pipes w !! a = Some p /\ handle p = Vk.VK_NULL_HANDLE /\ compileScratch p = Some csd.

(* The background compiler's queue and the pipelines agree: the queued
   pipelines are exactly the pending ones, each queued once. *)
Record consistent (w : World) : Prop := {
  queue_nodup : NoDup (pipelineCompiler w);
  queue_pending : forall a, a ∈ pipelineCompiler w -> pending_with_scratch w a;
  pending_queued : forall a p,
    pipes w !! a = Some p -> handle p = Vk.VK_NULL_HANDLE -> a ∈ pipelineCompiler w
}.

(* Up to [k] steps of the background compiler. *)
Fixpoint compilerSteps (cfg : Config) (drv : Driver) (k : nat) (w : World) : outcome World :=
  match k with
  | O => Done w
  | S k' =>
      match compilerStep cfg drv w with
      | None => Done w
      | Some r => w' ← r; compilerSteps cfg drv k' w'
      end
  end.

Definition is_bind (e : Event) : bool :=
  match e with
  | EvCmdBindPipeline _ _ _ => true
  | _ => false
  end.

End ComputeSpec.

Module ManagerSpec.

Import Manager.

(* A visitor that only counts how often it is invoked. *)
Definition callCounter {G C R : Type} : Visitor G C R nat :=
  {| onVariatedGraphics := fun _ n => S n;
     onCompute := fun _ n => S n;
     onRaytrace := fun _ n => S n |}.

End ManagerSpec.

(** * Concrete configurations *)

Module Scenarios.

Import Graphics.

(* A desktop device that supports 1 and 2 samples without attachments. *)
Definition cfg : Config :=
  {| MAX_SIMRT := 8;
     NumIndependentBlendParameters := 4;
     TARGET_ANDROID := false;
     hasConservativeRasterizationEXT := false;
     framebufferNoAttachmentsSampleCounts := 3;
     VULKAN_LOG_PIPELINE_ACTIVITY := 0;
     PIPELINE_COMPILATION_LONG_THRESHOLD := 1000;
     D3D_HAS_RAY_TRACING := true |}.

Definition opaqueBlend : RenderState.BlendParams :=
  {| RenderState.blendEnable := false;
     RenderState.blendSrcFactor := 1; RenderState.blendDstFactor := 0;
     RenderState.blendOp := 0;
     RenderState.blendSeparateAlphaEnable := false;
     RenderState.blendSrcAlphaFactor := 1; RenderState.blendDstAlphaFactor := 0;
     RenderState.blendOpAlpha := 0 |}.

(* A static state that asks for every depth and stencil feature. *)
Definition depthHungry (forced : Z) : RenderState.StaticState :=
  {| RenderState.depthClipEnable := false;
     RenderState.cullMode := 2;
     RenderState.conservativeRasterEnable := false;
     RenderState.getForcedSamplerCount := forced;
     RenderState.alphaToCoverage := false;
     RenderState.depthTestEnable := true;
     RenderState.depthWriteEnable := true;
     RenderState.depthTestFunc := 4;
     RenderState.depthBoundsEnable := true;
     RenderState.stencilTestEnable := true;
     RenderState.stencilTestOpStencilFail := 0;
     RenderState.stencilTestOpPass := 0;
     RenderState.stencilTestOpDepthFail := 0;
     RenderState.stencilTestFunc := 7;
     RenderState.indenpendentBlendEnabled := false;
     RenderState.blendStates := replicate 4 opaqueBlend;
     RenderState.colorMask := 4294967295 |}.

Definition blankAttachment : Vk.VkPipelineColorBlendAttachmentState :=
  {| Vk.blendEnable := false; Vk.srcColorBlendFactor := 0; Vk.dstColorBlendFactor := 0;
     Vk.colorBlendOp := 0; Vk.srcAlphaBlendFactor := 0; Vk.dstAlphaBlendFactor := 0;
     Vk.alphaBlendOp := 0; Vk.colorWriteMask := 0 |}.

Definition blankStencil : Vk.VkStencilOpState :=
  {| Vk.failOp := 0; Vk.passOp := 0; Vk.depthFailOp := 0; Vk.compareOp := 0;
     Vk.compareMask := 0; Vk.writeMask := 0; Vk.reference := 0 |}.

(* A zero-filled scratch, as handed to the constructor. *)
Definition blankScratch (parent : option nat) (heap : bool) : GraphicsPipelineCompileScratchData :=
  {| vkCache := 0;
     nativeRP := None;
     raster := {| Vk.depthClampEnable := false; Vk.rasterizerDiscardEnable := false;
                  Vk.polygonMode := 0; Vk.cullMode := 0; Vk.frontFace := 0;
                  Vk.depthBiasEnable := false; Vk.conservativeRasterChained := false |};
     multisample := {| Vk.rasterizationSamples := 0; Vk.sampleShadingEnable := false;
                       Vk.alphaToCoverageEnable := false; Vk.alphaToOneEnable := false |};
     depthStencil := {| Vk.depthTestEnable := false; Vk.depthWriteEnable := false;
                        Vk.depthCompareOp := 0; Vk.depthBoundsTestEnable := false;
                        Vk.stencilTestEnable := false;
                        Vk.front := blankStencil; Vk.back := blankStencil |};
     attachmentStates := replicate 8 blankAttachment;
     colorBlendState := {| Vk.logicOpEnable := false; Vk.logicOp := 0;
                           Vk.attachmentCount := 0 |};
     gpci := {| Vk.flags := 0; Vk.layout := 0; Vk.renderPass := 0; Vk.subpass := 0;
                Vk.basePipelineHandle := 0; Vk.basePipelineIndex := 0 |};
     parentPipe := parent;
     allocated := heap;
     progIdx := 7; varIdx := 0; varTotal := 1 |}.

Definition someLayout : GraphicsPipelineLayout :=
  {| layoutHandle := 501; fsOutputMask := 255; hasTC := false |}.

(* A pipeline for a legacy (class described) render pass. *)
Definition legacyInfo (samples : list Z) (depth : DepthState) (mask forced : Z)
    (parent : option nat) : GraphicsPipelineCreationInfo :=
  {| info_dynStateMask := 0;
     info_scratch := blankScratch None false;
     info_nativeRP := None;
     info_varDsc := {| subpass := 0;
                       rpClass := {| colorSamples := samples; depthState := depth;
                                     colorTargetMask := mask |};
                       polygonLine := 0; topology := 3 |};
     info_staticState := depthHungry forced;
     info_passHandle := 900;
     info_parentPipeline := parent |}.

Definition singleSampled : list Z := replicate 8 1.
(* Render target 0 has four samples; render target 1 is its resolve target. *)
Definition msaaWithResolve : list Z := 4 :: replicate 7 1.


(* A driver whose creation calls report success and write a null handle,
   and one that writes handle 77. *)
Definition nullDriver : Driver :=
  {| vkCreateGraphicsPipelines := fun _ _ => (Vk.VK_SUCCESS, Vk.VK_NULL_HANDLE);
     vkCreateComputePipelines := fun _ _ _ => (Vk.VK_SUCCESS, Vk.VK_NULL_HANDLE);
     compilationTime := 10 |}.

Definition goodDriver : Driver :=
  {| vkCreateGraphicsPipelines := fun _ _ => (Vk.VK_SUCCESS, 77);
     vkCreateComputePipelines := fun _ _ _ => (Vk.VK_SUCCESS, 77);
     compilationTime := 10 |}.

(* A heap allocated scratch with the create-info of a constructed pipeline. *)
Definition builtScratch (parent : option nat) : GraphicsPipelineCompileScratchData :=
  set_gpci (blankScratch parent true)
    {| Vk.flags := Vk.VK_PIPELINE_CREATE_ALLOW_DERIVATIVES_BIT; Vk.layout := 501;
       Vk.renderPass := 900; Vk.subpass := 0;
       Vk.basePipelineHandle := Vk.VK_NULL_HANDLE; Vk.basePipelineIndex := 0 |}.

(* A graphics pipeline as the constructor leaves it, and one already compiled. *)
Definition pendingPipeline (parent : option nat) : GraphicsPipeline :=
  {| layout := someLayout; dynStateMask := 0; handle := Vk.VK_NULL_HANDLE;
     compileScratch := Some (builtScratch parent) |}.

Definition compiledPipeline (h : Z) : GraphicsPipeline :=
  {| layout := someLayout; dynStateMask := 0; handle := h; compileScratch := None |}.

(* Address 1: a pending pipeline whose parent, at address 2, has the given state. *)
Definition familyWorld (parent : GraphicsPipeline) : World :=
  {| pipes := <[1%nat := pendingPipeline (Some 2%nat)]> (<[2%nat := parent]> ∅);
     trace := [] |}.


(* Program identifiers that carry their namespace in the two low bits
   and their storage index above them. *)
Definition taggedProgram (tag : Z) : ProgramType :=
  {| checkID := fun id => get id mod 4 =? tag;
     getIndexFromID := fun id => get id / 4;
     makeID := fun index => {| get := index * 4 + tag |} |}.

Definition programTypes : Manager.ProgramTypes :=
  {| Manager.GraphicsProgram := taggedProgram 0;
     Manager.ComputeProgram := taggedProgram 1;
     Manager.RaytraceProgram := taggedProgram 2 |}.

(* The world of a compute pipeline storage: the pipelines and the
   background compiler, and the next free address of the allocator. *)
Record ComputeBackend := {
  world : Compute.World;
  heapTop : nat
}.

Definition computeTraits (drv : Driver)
  : Storage.PipelineTraits ComputeBackend Compute.ComputePipelineLayout (list Z)
      nat Compute.CreationInfo :=
  {| Storage.programType := taggedProgram 1;
     Storage.info_layout := Compute.info_layout;
     Storage.matches := fun l header => bool_decide (Compute.layoutHeader l = header);
     Storage.newLayout := fun header b =>
       ({| Compute.layoutAddr := heapTop b;
           Compute.layoutHeader := header;
           Compute.layoutHandle := 1000 + Z.of_nat (heapTop b) |},
        {| world := world b; heapTop := S (heapTop b) |});
     Storage.newPipeline := fun program cache l info b =>
       w' ← Compute.ctor cfg drv (heapTop b) program cache l info (world b);
       Done (heapTop b, {| world := w'; heapTop := S (heapTop b) |});
     Storage.getLayout := fun b p => Compute.layout <$> Compute.pipes (world b) !! p |}.

Definition emptyBackend : ComputeBackend :=
  {| world := {| Compute.pipes := ∅; Compute.pipelineCompiler := []; Compute.trace := [] |};
     heapTop := 0 |}.

Definition emptyStorage {L P : Type} : Storage.PipelineManagerStorage L P :=
  {| Storage.layouts := []; Storage.pipelines := [] |}.

(* A compute storage with pipeline 40 in slot 0 and pipeline 41 in slot 2. *)
Definition computeStorage : Storage.PipelineManagerStorage Compute.ComputePipelineLayout nat :=
  {| Storage.layouts := []; Storage.pipelines := [Some 40%nat; None; Some 41%nat] |}.

Definition computeInfo (header : list Z) (async : bool) : Compute.CreationInfo :=
  {| Compute.info_layout := header; Compute.sci_module := 300;
     Compute.allowAsyncCompile := async |}.

(* A manager whose compute storage holds pipeline 40 in slot 0 and
   pipeline 41 in slot 2. *)
Definition someManager : Manager.PipelineManager unit nat unit nat unit nat :=
  {| Manager.graphics := emptyStorage;
     Manager.compute := {| Storage.layouts := [tt];
                           Storage.pipelines := [Some 40%nat; None; Some 41%nat] |};
     Manager.raytrace := emptyStorage;
     Manager.asyncCompileAllowed := false |}.

(* A visitor that records which pipeline it was given. *)
Definition recorder : Manager.Visitor nat nat nat (list (string * nat)) :=
  {| Manager.onVariatedGraphics := fun p s => ("graphics"%string, p) :: s;
     Manager.onCompute := fun p s => ("compute"%string, p) :: s;
     Manager.onRaytrace := fun p s => ("raytrace"%string, p) :: s |}.

End Scenarios.

(** * The rest of the two files *)

(** ** GraphicsPipelineDynamicStateMask::from (main_pipelines.cpp, lines 541-582) *)

Module DynamicStateMask.

(* The four one-bit members the function assigns. *)
Record GraphicsPipelineDynamicStateMask := {
  hasDepthBias : bool;
  hasDepthBoundsTest : bool;
  hasStencilTest : bool;
  hasBlendConstants : bool
}.

(* VkBlendFactor *)
Definition VK_BLEND_FACTOR_CONSTANT_COLOR : Z := 10.
Definition VK_BLEND_FACTOR_ONE_MINUS_CONSTANT_ALPHA : Z := 13.

Definition isConstantFactor (bf : Z) : bool :=
  (VK_BLEND_FACTOR_CONSTANT_COLOR <=? bf) && (bf <=? VK_BLEND_FACTOR_ONE_MINUS_CONSTANT_ALPHA).

(* Lines 569-580: the body of the loop for one blend state; [true] is the
   assignment followed by [break]. *)
Definition needsBlendConstants (b : RenderState.BlendParams) : bool :=
  RenderState.blendEnable b
  && (isConstantFactor (RenderState.blendSrcFactor b)
      || isConstantFactor (RenderState.blendDstFactor b)).

(* Lines 567-581: [n] counts the values of [i] still below blendStateToCheck. *)
Fixpoint scanBlendStates (states : list RenderState.BlendParams) (n i : nat) : bool :=
  match n with
  | O => false
  | S n' =>
      if needsBlendConstants (states !!! i) then true
      else scanBlendStates states n' (S i)
  end.

(* [previous] is the mask object before the call: the depth bounds and
   stencil members are only ever set, not cleared, when there is depth. *)
Definition from (cfg : Config) (previous : GraphicsPipelineDynamicStateMask)
    (rsSt : RenderState.StaticState) (desc : Graphics.GraphicsPipelineVariantDescription)
    (native_rp : option RenderPassResource) : GraphicsPipelineDynamicStateMask :=
  let noDepth :=
    bool_decide (depthState (Graphics.rpClass desc) = NO_DEPTH)
    || match native_rp with
       | Some rp => negb (hasDepthAtSubpass rp (Graphics.subpass desc))
       | None => false
       end in
  let blendStateToCheck :=
    if RenderState.indenpendentBlendEnabled rsSt
    then NumIndependentBlendParameters cfg else 1%nat in
  let blendConstants := scanBlendStates (RenderState.blendStates rsSt) blendStateToCheck 0 in
  if noDepth
  then {| hasDepthBias := false;
          hasDepthBoundsTest := false;
          hasStencilTest := false;
          hasBlendConstants := blendConstants |}
  else {| hasDepthBias := true;
          hasDepthBoundsTest :=
            if RenderState.depthBoundsEnable rsSt then true else hasDepthBoundsTest previous;
          hasStencilTest :=
            if RenderState.stencilTestEnable rsSt then true else hasStencilTest previous;
          hasBlendConstants := blendConstants |}.

(* A mask object with all members cleared. *)
Definition cleared : GraphicsPipelineDynamicStateMask :=
  {| hasDepthBias := false; hasDepthBoundsTest := false;
     hasStencilTest := false; hasBlendConstants := false |}.

End DynamicStateMask.

(** ** ComputePipeline::onDelayedCleanupFinish<CLEANUP_DESTROY>
       (main_pipelines.cpp, lines 38-45)

    [shutdown] belongs to the base pipeline class and is not part of these
    sources: the function returns the object as [shutdown] receives it,
    and the world after [delete this]. *)

Module ComputeCleanup.

Import Compute.

Definition onDelayedCleanupFinish (cfg : Config) (drv : Driver) (this : nat) (w : World)
  : outcome (ComputePipeline * World) :=
  self ← deref w this;
  w1 ← (if negb (checkCompiled self) then waitFor cfg drv this w else Done w);
  self1 ← deref w1 this;
  Done (self1, {| pipes := delete this (pipes w1);
                  pipelineCompiler := pipelineCompiler w1;
                  trace := trace w1 |}).

End ComputeCleanup.

(** ** PipelineManagerStorage: enumeration and unloading
       (manager.h, lines 47-72 and 97-104) *)

Module StorageWalk.

Import Storage.

Section Walk.

Context {LayoutType PipelineType S : Type}.

(* Lines 59-65: [i] is the index of the first slot of [slots]. *)
Fixpoint enumerateFrom (pt : ProgramType) (slots : list (option PipelineType)) (i : nat)
    (callback : PipelineType -> ProgramID -> S -> S) (s : S) : S :=
  match slots with
  | [] => s
  | slot :: rest =>
      enumerateFrom pt rest (Datatypes.S i) callback
        match slot with
        | Some p => callback p (makeID pt (Z.of_nat i)) s
        | None => s
        end
  end.

Definition enumerate (pt : ProgramType) (st : PipelineManagerStorage LayoutType PipelineType)
    (callback : PipelineType -> ProgramID -> S -> S) (s : S) : S :=
  enumerateFrom pt (pipelines st) 0 callback s.

(* Lines 67-72. *)
Definition enumerateLayouts (st : PipelineManagerStorage LayoutType PipelineType)
    (clb : LayoutType -> S -> S) (s : S) : S :=
  foldl (fun acc l => clb l acc) s (layouts st).

(* Lines 47-53: [i->shutdown(device)] for every element that is not null,
   and for the null ones too when the array is declared tightly packed. *)
Fixpoint shutdownArray {X : Type} (tightlyPacked : bool) (shutdown : X -> S -> S)
    (arr : list (option X)) (s : S) : outcome S :=
  match arr with
  | [] => Done s
  | i :: rest =>
      match i with
      | Some x => shutdownArray tightlyPacked shutdown rest (shutdown x s)
      | None =>
          if tightlyPacked then Fatal NullDeref
          else shutdownArray tightlyPacked shutdown rest s
      end
  end.

(* Lines 97-104.  [clear_all_ptr_items_and_shrink] deletes the objects and
   empties the array. *)
Definition unload (shutdownPipeline : PipelineType -> S -> S)
    (shutdownLayout : LayoutType -> S -> S)
    (st : PipelineManagerStorage LayoutType PipelineType) (s : S)
  : outcome (PipelineManagerStorage LayoutType PipelineType * S) :=
  s1 ← shutdownArray false shutdownPipeline (pipelines st) s;
  s2 ← shutdownArray true shutdownLayout (Some <$> layouts st) s1;
  Done ({| layouts := []; pipelines := [] |}, s2).

End Walk.

(* The pipelines a storage holds, with the identifier [enumerate] gives each. *)
Definition stored {LayoutType PipelineType : Type} (pt : ProgramType)
    (st : PipelineManagerStorage LayoutType PipelineType) : list (PipelineType * ProgramID) :=
  enumerate pt st (fun p id acc => acc ++ [(p, id)]) [].

(* The ProgramType's [makeID] and [getIndexFromID] agree on storage indexes. *)
Definition indexes_round_trip (pt : ProgramType) : Prop :=
  forall i, 0 <= i ->
    checkID pt (makeID pt i) = true /\ getIndexFromID pt (makeID pt i) = i.

End StorageWalk.

(** ** PipelineManager: access by pipeline kind (manager.h, lines 148-164) *)

Module ManagerAccess.

Import Storage Manager.

Section Access.

Context {GL G CL C RL R : Type}.

(* get<ComputePipeline>(id) and enumerate<ComputePipeline>(callback) *)
Definition getCompute (pts : ProgramTypes) (m : PipelineManager GL G CL C RL R)
    (id : ProgramID) : outcome C :=
  get (ComputeProgram pts) (compute m) id.

Definition enumerateCompute {S : Type} (pts : ProgramTypes)
    (m : PipelineManager GL G CL C RL R) (callback : C -> ProgramID -> S -> S) (s : S) : S :=
  StorageWalk.enumerate (ComputeProgram pts) (compute m) callback s.

(* get<VariatedGraphicsPipeline>(id) *)
Definition getGraphics (pts : ProgramTypes) (m : PipelineManager GL G CL C RL R)
    (id : ProgramID) : outcome G :=
  get (GraphicsProgram pts) (graphics m) id.

End Access.

End ManagerAccess.

(** ** More concrete configurations *)

Module Scenarios2.

Import Graphics.

(* A blend state that blends with the constant colour. *)
Definition constantBlend : RenderState.BlendParams :=
  {| RenderState.blendEnable := true;
     RenderState.blendSrcFactor := 10; RenderState.blendDstFactor := 0;
     RenderState.blendOp := 0;
     RenderState.blendSeparateAlphaEnable := false;
     RenderState.blendSrcAlphaFactor := 1; RenderState.blendDstAlphaFactor := 0;
     RenderState.blendOpAlpha := 0 |}.

(* The static state of [Scenarios.depthHungry] with other blend states,
   alpha-to-coverage and independent blending chosen. *)
Definition staticWith (blends : list RenderState.BlendParams) (independent a2c : bool)
  : RenderState.StaticState :=
  let base := Scenarios.depthHungry 0 in
  {| RenderState.depthClipEnable := RenderState.depthClipEnable base;
     RenderState.cullMode := RenderState.cullMode base;
     RenderState.conservativeRasterEnable := RenderState.conservativeRasterEnable base;
     RenderState.getForcedSamplerCount := 0;
     RenderState.alphaToCoverage := a2c;
     RenderState.depthTestEnable := RenderState.depthTestEnable base;
     RenderState.depthWriteEnable := RenderState.depthWriteEnable base;
     RenderState.depthTestFunc := RenderState.depthTestFunc base;
     RenderState.depthBoundsEnable := RenderState.depthBoundsEnable base;
     RenderState.stencilTestEnable := RenderState.stencilTestEnable base;
     RenderState.stencilTestOpStencilFail := RenderState.stencilTestOpStencilFail base;
     RenderState.stencilTestOpPass := RenderState.stencilTestOpPass base;
     RenderState.stencilTestOpDepthFail := RenderState.stencilTestOpDepthFail base;
     RenderState.stencilTestFunc := RenderState.stencilTestFunc base;
     RenderState.indenpendentBlendEnabled := independent;
     RenderState.blendStates := blends;
     RenderState.colorMask := RenderState.colorMask base |}.

(* A native render pass with the given depth presence and colour mask. *)
Definition nativePass (depth : bool) (mask samples : Z) : RenderPassResource :=
  {| rpId := 3; rpGetHandle := 950;
     getMSAASamples := fun _ => samples;
     hasDepthAtSubpass := fun _ => depth;
     getColorWriteMaskAtSubpass := fun _ => mask |}.

Definition nativeInfo (rp : RenderPassResource) (st : RenderState.StaticState)
  : GraphicsPipelineCreationInfo :=
  {| info_dynStateMask := 0;
     info_scratch := Scenarios.blankScratch None true;
     info_nativeRP := Some rp;
     info_varDsc := {| subpass := 0;
                       rpClass := {| colorSamples := Scenarios.singleSampled;
                                     depthState := RW_DEPTH; colorTargetMask := 0 |};
                       polygonLine := 0; topology := 3 |};
     info_staticState := st;
     info_passHandle := 900;
     info_parentPipeline := None |}.

(* A layout whose fragment shader writes outputs 0 only. *)
Definition oneOutputLayout : GraphicsPipelineLayout :=
  {| layoutHandle := 502; fsOutputMask := 1; hasTC := false |}.

End Scenarios2.

(** * Properties *)

(** ** Fatal contracts: elementary facts *)

Lemma bind_Done_inv {A B} (m : outcome A) (k : A -> outcome B) (b : B) :
  (m ≫= k) = Done b -> exists a, m = Done a /\ k a = Done b.
Proof. destruct m as [a|f]; simpl; [eauto | discriminate]. Qed.

(** ** Forced sample counts *)

Section SampleCount.

Variable cfg : Config.

Lemma sampleCountFlag_id (count : Z) : sampleCountFlag count = count.
Proof.
  unfold sampleCountFlag.
  repeat (case_match; [apply Z.eqb_eq in H; subst; reflexivity | clear H]).
  reflexivity.
Qed.

Lemma checkSampleCount_le1 (count colorMask hasDepth : Z) :
  count <= 1 ->
  checkSampleCount cfg count colorMask hasDepth = Done Vk.VK_SAMPLE_COUNT_1_BIT.
Proof.
  intros Hle. unfold checkSampleCount.
  destruct (Z.leb_spec count 1) as [_|Hgt]; [reflexivity | lia].
Qed.

Lemma checkSampleCount_gt1 (count colorMask hasDepth : Z) :
  1 < count ->
  checkSampleCount cfg count colorMask hasDepth =
    if Z.land (framebufferNoAttachmentsSampleCounts cfg) count =? 0
    then Fatal (AssertFailed msg_sample_count_unsupported)
    else if (hasDepth =? 0) && (colorMask =? 0)
         then Done count
         else Fatal (AssertFailed msg_forced_msaa_attachments).
Proof.
  intros Hgt. unfold checkSampleCount.
  destruct (Z.leb_spec count 1) as [Hle|_]; [lia |].
  rewrite sampleCountFlag_id.
  destruct (Z.land _ count =? 0); simpl; [reflexivity |].
  destruct ((hasDepth =? 0) && (colorMask =? 0)); reflexivity.
Qed.

Lemma land_pow2_testbit (s k : Z) :
  0 <= k -> Z.testbit s k = false -> Z.land s (2 ^ k) = 0.
Proof.
  intros Hk Hbit. apply Z.bits_inj'. intros n Hn.
  rewrite Z.land_spec, Z.bits_0.
  destruct (Z.eq_dec n k) as [->|Hne].
  - rewrite Hbit. reflexivity.
  - rewrite Z.pow2_bits_false by lia. apply andb_false_r.
Qed.

End SampleCount.

(** ** GraphicsPipeline constructor *)

Section GraphicsCtor.

Import Graphics GraphicsSpec.

Variable cfg : Config.

Lemma ctor_Done_inv cache l info p evs :
  ctor cfg cache l info = Done (p, evs) ->
  exists csd samples,
    compileScratch p = Some csd
    /\ chosenSamples cfg info = Done samples
    /\ Vk.rasterizationSamples (multisample csd) = samples
    /\ Vk.attachmentCount (colorBlendState csd)
       = fst (colorAttachments cfg l info (rpColorTargetMask (resolvePass info))
                (attachmentStates (info_scratch info)))
    /\ (hasDepth (resolvePass info) = false ->
        Vk.depthTestEnable (depthStencil csd) = false
        /\ Vk.depthWriteEnable (depthStencil csd) = false
        /\ Vk.depthBoundsTestEnable (depthStencil csd) = false
        /\ Vk.stencilTestEnable (depthStencil csd) = false
        /\ Vk.depthBiasEnable (raster csd) = false
        /\ Vk.depthClampEnable (raster csd) = false)
    /\ gpci csd = {| Vk.flags := Vk.VK_PIPELINE_CREATE_ALLOW_DERIVATIVES_BIT;
                     Vk.layout := layoutHandle l;
                     Vk.renderPass := renderPassHandle (resolvePass info);
                     Vk.subpass := subpass (info_varDsc info);
                     Vk.basePipelineHandle := Vk.VK_NULL_HANDLE;
                     Vk.basePipelineIndex := 0 |}
    /\ parentPipe csd = info_parentPipeline info
    /\ handle p = Vk.VK_NULL_HANDLE.
Proof.
  unfold ctor. intros H.
  apply bind_Done_inv in H as (samples & Hs & H).
  apply bind_Done_inv in H as ([] & Ha & H).
  destruct (colorAttachments _ _ _ _ _) as [cnt states] eqn:Hc.
  injection H as <- <-.
  eexists; exists samples. split; [reflexivity |].
  split; [exact Hs |]. simpl.
  repeat split; try reflexivity; rewrite H; reflexivity.
Qed.

(* The constructor fails only through one of its three assertions. *)
Lemma ctor_Fatal_inv cache l info f :
  ctor cfg cache l info = Fatal f ->
  chosenSamples cfg info = Fatal f \/ f = AssertFailed msg_alpha_to_coverage.
Proof.
  unfold ctor. fold (chosenSamples cfg info).
  destruct (chosenSamples cfg info) as [samples|f'] eqn:Hs; simpl.
  - destruct (G_ASSERT _ _) as [[]|f'] eqn:Ha; simpl.
    + destruct (colorAttachments _ _ _ _ _); discriminate.
    + unfold G_ASSERT in Ha. case_match; [discriminate |].
      injection Ha as <-. intros [= <-]. right. reflexivity.
  - intros [= <-]. left. reflexivity.
Qed.

Lemma ctor_Fatal_samples cache l info f :
  chosenSamples cfg info = Fatal f -> ctor cfg cache l info = Fatal f.
Proof.
  intros Hs. unfold ctor. fold (chosenSamples cfg info). rewrite Hs. reflexivity.
Qed.

(** *** The attachment loop *)

Lemma bit_length_shiftr (m : Z) :
  0 < m -> bit_length m = S (bit_length (Z.shiftr m 1)).
Proof.
  intros Hm. unfold bit_length.
  destruct (Z.eqb_spec m 0) as [->|_]; [lia |].
  destruct (Z.eq_dec m 1) as [->|Hne]; [reflexivity |].
  assert (Hlog : 1 <= Z.log2 m) by (apply Z.log2_le_pow2; simpl; lia).
  assert (Hs : Z.log2 (Z.shiftr m 1) = Z.log2 m - 1)
    by (rewrite Z.log2_shiftr by lia; lia).
  destruct (Z.eqb_spec (Z.shiftr m 1) 0) as [H0|_].
  - rewrite Z.shiftr_div_pow2 in H0 by lia. change (2 ^ 1) with 2 in H0.
    assert (m < 2) by (apply Z.div_small_iff in H0; lia). lia.
  - rewrite Hs. f_equal. lia.
Qed.

Lemma keptSlots_S info i k :
  keptSlots info i (S k)
  = ((if isResolveAttachment info i then 0 else 1) + keptSlots info (S i) k)%nat.
Proof.
  unfold keptSlots. simpl seq. rewrite filter_cons.
  destruct (isResolveAttachment info i); repeat case_decide; simpl; congruence.
Qed.

Lemma kept_plus_resolve info i k :
  (keptSlots info i k + resolveSlots info i k = k)%nat.
Proof.
  unfold keptSlots, resolveSlots. revert i.
  induction k as [|k IH]; intros i; [reflexivity |].
  simpl seq. rewrite !filter_cons. specialize (IH (S i)).
  destruct (isResolveAttachment info i); repeat case_decide; simpl; try congruence; lia.
Qed.

Lemma fillAttachments_count info n : forall i rpMask swMask cnt states,
  0 <= rpMask ->
  fst (fillAttachments cfg info n i rpMask swMask cnt states)
  = (cnt + keptSlots info i (n `min` bit_length rpMask))%nat.
Proof.
  induction n as [|n IH]; intros i rpMask swMask cnt states Hm; cbn [fillAttachments].
  - unfold keptSlots. simpl. lia.
  - destruct (Z.eqb_spec rpMask 0) as [->|Hne].
    + change (bit_length 0) with 0%nat. rewrite Nat.min_0_r.
      unfold keptSlots. simpl. lia.
    + assert (Hpos : 0 < rpMask) by lia.
      rewrite (bit_length_shiftr rpMask Hpos), <- Nat.succ_min_distr, keptSlots_S.
      assert (Hs : 0 <= Z.shiftr rpMask 1) by (apply Z.shiftr_nonneg; lia).
      destruct (isResolveAttachment info i); rewrite IH by exact Hs; lia.
Qed.

Lemma uint8_range (x : Z) : 0 <= uint8 x < 256.
Proof. unfold uint8. apply Z.mod_pos_bound. lia. Qed.

Lemma bit_length_uint8 (x : Z) : (bit_length (uint8 x) <= 8)%nat.
Proof.
  pose proof (uint8_range x) as Hr. unfold bit_length.
  destruct (Z.eqb_spec (uint8 x) 0); [lia |].
  assert (Z.log2 (uint8 x) < 8) by (apply Z.log2_lt_pow2; simpl; lia).
  pose proof (Z.log2_nonneg (uint8 x)). lia.
Qed.

Lemma no_resolve_with_native_pass info i k :
  is_Some (info_nativeRP info) -> resolveSlots info i k = 0%nat.
Proof.
  intros Hrp. unfold resolveSlots.
  assert (Hno : forall j, isResolveAttachment info j = false).
  { intros j. unfold isResolveAttachment. rewrite bool_decide_eq_true_2 by exact Hrp.
    simpl. apply andb_false_r. }
  induction (seq i k) as [|j js IH]; [reflexivity |].
  rewrite filter_cons. case_decide; [rewrite Hno in *; discriminate | exact IH].
Qed.

End GraphicsCtor.

Section SingleSampled.

Import Graphics GraphicsSpec.

Lemma no_resolve_single_sampled info i k :
  Forall (fun s => s <= 1) (colorSamples (rpClass (info_varDsc info))) ->
  resolveSlots info i k = 0%nat.
Proof.
  intros Hall. unfold resolveSlots.
  assert (Hno : forall j, isResolveAttachment info j = false).
  { intros j. unfold isResolveAttachment.
    set (samples := colorSamples (rpClass (info_varDsc info))) in *.
    assert (Hle : samples !!! (j - 1)%nat <= 1).
    { rewrite list_lookup_total_alt.
      destruct (samples !! (j - 1)%nat) as [s|] eqn:Hs; simpl.
      - exact (proj1 (Forall_lookup _ _) Hall _ _ Hs).
      - unfold inhabitant, Z.inhabited. lia. }
    destruct (Z.ltb_spec 1 (samples !!! (j - 1)%nat)); [lia |].
    rewrite andb_false_r. reflexivity. }
  induction (seq i k) as [|j js IH]; [reflexivity |].
  rewrite filter_cons. case_decide; [rewrite Hno in *; discriminate | exact IH].
Qed.

End SingleSampled.

(** C10.  A forced sample count of one or less makes [checkSampleCount]
    return the one-sample count at once, whatever the colour mask, the depth
    flag and the device's supported sample counts are: neither of its two
    assertions can fail.  Consequently a pipeline construction with such a
    forced count can only fail through the constructor's own
    alpha-to-coverage assertion, never through [checkSampleCount]. *)
Theorem checkSampleCount_single_sample_returns (cfg : Config) (count colorMask hasDepth : Z) :
  count <= 1 ->
  checkSampleCount cfg count colorMask hasDepth = Done Vk.VK_SAMPLE_COUNT_1_BIT
  /\ forall cache l info f,
       RenderState.getForcedSamplerCount (Graphics.info_staticState info) = count ->
       Graphics.ctor cfg cache l info = Fatal f ->
       f = AssertFailed Graphics.msg_alpha_to_coverage.
Proof.
  intros Hle. split; [apply checkSampleCount_le1; exact Hle |].
  intros cache l info f Hforced Hfatal.
  apply ctor_Fatal_inv in Hfatal as [Hs | ->]; [exfalso | reflexivity].
  unfold GraphicsSpec.chosenSamples in Hs. rewrite Hforced in Hs.
  destruct (count =? 0); [discriminate |].
  rewrite checkSampleCount_le1 in Hs by exact Hle. discriminate.
Qed.

Lemma checkSampleCount_single_sample_returns_witness :
  checkSampleCount Scenarios.cfg 1 15 1 = Done Vk.VK_SAMPLE_COUNT_1_BIT.
Proof.
  apply (checkSampleCount_single_sample_returns Scenarios.cfg 1 15 1). lia.
Defined.

(** C8.  With a forced sample count greater than one [checkSampleCount]
    takes the fatal assertion path, with no fallback value, whenever the
    translated sample count flag shares no bit with the device's
    framebufferNoAttachmentsSampleCounts mask (for a count [2^k]: whenever
    bit [k] of the mask is clear), and whenever the depth flag or the
    colour mask it is given is non-zero; the pipeline constructor, which
    passes its depth presence and its colour-target mask as 8-bit values,
    then fails with that assertion. *)
Theorem checkSampleCount_forced_asserts (cfg : Config) (count colorMask hasDepth : Z) :
  1 < count ->
  (Z.land (framebufferNoAttachmentsSampleCounts cfg) (sampleCountFlag count) = 0 ->
   checkSampleCount cfg count colorMask hasDepth
   = Fatal (AssertFailed msg_sample_count_unsupported))
  /\ (forall k, 0 <= k -> count = 2 ^ k ->
      Z.testbit (framebufferNoAttachmentsSampleCounts cfg) k = false ->
      checkSampleCount cfg count colorMask hasDepth
      = Fatal (AssertFailed msg_sample_count_unsupported))
  /\ (hasDepth <> 0 \/ colorMask <> 0 ->
      exists msg, checkSampleCount cfg count colorMask hasDepth = Fatal (AssertFailed msg))
  /\ (Z.land (framebufferNoAttachmentsSampleCounts cfg) (sampleCountFlag count) <> 0 ->
      hasDepth <> 0 \/ colorMask <> 0 ->
      checkSampleCount cfg count colorMask hasDepth
      = Fatal (AssertFailed msg_forced_msaa_attachments))
  /\ (forall cache l info,
      RenderState.getForcedSamplerCount (Graphics.info_staticState info) = count ->
      Z.land (framebufferNoAttachmentsSampleCounts cfg) (sampleCountFlag count) = 0
      \/ Graphics.hasDepth (Graphics.resolvePass info) = true
      \/ Graphics.uint8 (Graphics.rpColorTargetMask (Graphics.resolvePass info)) <> 0 ->
      exists msg, Graphics.ctor cfg cache l info = Fatal (AssertFailed msg)).
Proof.
  intros Hgt.
  assert (Hunsupported : forall cm hd,
    Z.land (framebufferNoAttachmentsSampleCounts cfg) (sampleCountFlag count) = 0 ->
    checkSampleCount cfg count cm hd = Fatal (AssertFailed msg_sample_count_unsupported)).
  { intros cm hd Hland. rewrite sampleCountFlag_id in Hland.
    rewrite checkSampleCount_gt1 by exact Hgt. rewrite Hland. reflexivity. }
  assert (Hattached : forall cm hd,
    Z.land (framebufferNoAttachmentsSampleCounts cfg) (sampleCountFlag count) <> 0 ->
    hd <> 0 \/ cm <> 0 ->
    checkSampleCount cfg count cm hd = Fatal (AssertFailed msg_forced_msaa_attachments)).
  { intros cm hd Hland Hatt. rewrite sampleCountFlag_id in Hland.
    rewrite checkSampleCount_gt1 by exact Hgt.
    destruct (Z.eqb_spec (Z.land (framebufferNoAttachmentsSampleCounts cfg) count) 0);
      [contradiction |].
    destruct (Z.eqb_spec hd 0), (Z.eqb_spec cm 0); simpl; try reflexivity.
    destruct Hatt; contradiction. }
  assert (Hany : forall cm hd,
    Z.land (framebufferNoAttachmentsSampleCounts cfg) (sampleCountFlag count) = 0
    \/ hd <> 0 \/ cm <> 0 ->
    exists msg, checkSampleCount cfg count cm hd = Fatal (AssertFailed msg)).
  { intros cm hd Hcase.
    destruct (Z.eq_dec (Z.land (framebufferNoAttachmentsSampleCounts cfg)
                               (sampleCountFlag count)) 0) as [H0|Hn0].
    - eexists. apply Hunsupported. exact H0.
    - destruct Hcase as [H0|Hatt]; [contradiction |].
      eexists. apply Hattached; assumption. }
  split; [apply Hunsupported |].
  split.
  { intros k Hk -> Hbit. apply Hunsupported.
    rewrite sampleCountFlag_id. apply land_pow2_testbit; assumption. }
  split; [intros Hatt; apply Hany; right; exact Hatt |].
  split; [apply Hattached |].
  intros cache l info Hforced Hcase.
  set (rp := Graphics.resolvePass info) in *.
  destruct (Hany (Graphics.uint8 (Graphics.rpColorTargetMask rp))
                 (if Graphics.hasDepth rp then 1 else 0)) as [msg Hmsg].
  { destruct Hcase as [H0 | [Hd | Hm]]; [left; exact H0 | right; left | right; right; exact Hm].
    rewrite Hd. lia. }
  exists msg. apply ctor_Fatal_samples.
  unfold GraphicsSpec.chosenSamples. fold rp. rewrite Hforced.
  destruct (Z.eqb_spec count 0); [lia | exact Hmsg].
Qed.

Lemma checkSampleCount_forced_asserts_witness :
  checkSampleCount Scenarios.cfg 4 0 0 = Fatal (AssertFailed msg_sample_count_unsupported).
Proof.
  apply (proj1 (checkSampleCount_forced_asserts Scenarios.cfg 4 0 0 ltac:(lia))).
  reflexivity.
Defined.

(** C5.  When the render pass the pipeline is built for has no depth
    attachment, the create-info the constructor leaves in the scratch has
    depthTestEnable, depthWriteEnable, depthBoundsTestEnable,
    stencilTestEnable and depthBiasEnable all false (and depthClampEnable
    with them), whatever the static render state asks for. *)
Theorem no_depth_attachment_disables_depth_state (cfg : Config) (cache : Z)
    (l : Graphics.GraphicsPipelineLayout) (info : Graphics.GraphicsPipelineCreationInfo)
    (p : Graphics.GraphicsPipeline) (evs : list Event) :
  Graphics.hasDepth (Graphics.resolvePass info) = false ->
  Graphics.ctor cfg cache l info = Done (p, evs) ->
  exists csd,
    Graphics.compileScratch p = Some csd
    /\ Vk.depthTestEnable (Graphics.depthStencil csd) = false
    /\ Vk.depthWriteEnable (Graphics.depthStencil csd) = false
    /\ Vk.depthBoundsTestEnable (Graphics.depthStencil csd) = false
    /\ Vk.stencilTestEnable (Graphics.depthStencil csd) = false
    /\ Vk.depthBiasEnable (Graphics.raster csd) = false
    /\ Vk.depthClampEnable (Graphics.raster csd) = false.
Proof.
  intros Hnodepth Hctor.
  apply ctor_Done_inv in Hctor as (csd & samples & Hcsd & _ & _ & _ & Hdepth & _).
  exists csd. split; [exact Hcsd | exact (Hdepth Hnodepth)].
Qed.

Lemma no_depth_attachment_disables_depth_state_witness :
  exists p evs csd,
    Graphics.ctor Scenarios.cfg 0 Scenarios.someLayout
      (Scenarios.legacyInfo Scenarios.singleSampled NO_DEPTH 1 0 None) = Done (p, evs)
    /\ RenderState.depthTestEnable (Scenarios.depthHungry 0) = true
    /\ Graphics.compileScratch p = Some csd
    /\ Vk.depthTestEnable (Graphics.depthStencil csd) = false
    /\ Vk.depthWriteEnable (Graphics.depthStencil csd) = false
    /\ Vk.depthBoundsTestEnable (Graphics.depthStencil csd) = false
    /\ Vk.stencilTestEnable (Graphics.depthStencil csd) = false
    /\ Vk.depthBiasEnable (Graphics.raster csd) = false
    /\ Vk.depthClampEnable (Graphics.raster csd) = false.
Proof.
  destruct (Graphics.ctor Scenarios.cfg 0 Scenarios.someLayout
              (Scenarios.legacyInfo Scenarios.singleSampled NO_DEPTH 1 0 None))
    as [[p evs]|f] eqn:Hctor; [| vm_compute in Hctor; discriminate].
  destruct (no_depth_attachment_disables_depth_state Scenarios.cfg 0 Scenarios.someLayout
              (Scenarios.legacyInfo Scenarios.singleSampled NO_DEPTH 1 0 None) p evs
              eq_refl Hctor)
    as (csd & Hcsd & Hrest).
  exists p, evs, csd. split; [reflexivity |]. split; [reflexivity |].
  split; [exact Hcsd | exact Hrest].
Defined.

(** C4, as stated, fails: for a legacy render pass whose render target 0 is
    multisampled, render target 1 is its resolve attachment and gets no
    blend attachment.  With colour-target mask 0b11 the highest set bit is
    bit 1, yet the constructor writes attachmentCount = 1, not 2. *)
Lemma attachmentCount_skips_resolve_slot :
  exists p evs csd,
    Graphics.ctor Scenarios.cfg 0 Scenarios.someLayout
      (Scenarios.legacyInfo Scenarios.msaaWithResolve RW_DEPTH 3 0 None) = Done (p, evs)
    /\ Graphics.compileScratch p = Some csd
    /\ Graphics.rpColorTargetMask
         (Graphics.resolvePass (Scenarios.legacyInfo Scenarios.msaaWithResolve RW_DEPTH 3 0 None))
       = 3
    /\ Z.log2 3 + 1 = 2
    /\ Vk.attachmentCount (Graphics.colorBlendState csd) = 1%nat.
Proof.
  do 3 eexists. split; [vm_compute; reflexivity |].
  split; [reflexivity |]. split; [reflexivity |]. split; reflexivity.
Qed.

(** C4, amended.  For a construction whose colour-target mask, narrowed to
    the 8 bits the attachment loop works on, is non-zero, the loop visits
    the render targets 0 .. top, where top is the index of the highest set
    bit of the mask, and gives each of them a blend attachment except the
    multisample resolve targets of a legacy render pass (target i > 0 with
    colorSamples[i-1] > 1 and no native render pass): the attachment count
    plus the number of those resolve targets is top + 1.  With a native
    render pass, or with no multisampled colour target, the count is exactly
    top + 1 (mask 0b1001 gives 4), not the number of set bits. *)
Theorem attachmentCount_highest_bit (cfg : Config) (cache : Z)
    (l : Graphics.GraphicsPipelineLayout) (info : Graphics.GraphicsPipelineCreationInfo)
    (p : Graphics.GraphicsPipeline) (evs : list Event)
    (csd : Graphics.GraphicsPipelineCompileScratchData) :
  (8 <= MAX_SIMRT cfg)%nat ->
  Graphics.ctor cfg cache l info = Done (p, evs) ->
  Graphics.compileScratch p = Some csd ->
  Graphics.uint8 (Graphics.rpColorTargetMask (Graphics.resolvePass info)) <> 0 ->
  let top := Z.to_nat (Z.log2 (Graphics.uint8 (Graphics.rpColorTargetMask
                                                  (Graphics.resolvePass info)))) in
  (Vk.attachmentCount (Graphics.colorBlendState csd)
   + GraphicsSpec.resolveSlots info 0 (S top) = S top)%nat
  /\ (is_Some (Graphics.info_nativeRP info)
      \/ Forall (fun s => s <= 1)
           (colorSamples (Graphics.rpClass (Graphics.info_varDsc info))) ->
      Vk.attachmentCount (Graphics.colorBlendState csd) = S top).
Proof.
  intros Hmax Hctor Hcsd Hmask top.
  apply ctor_Done_inv in Hctor as (csd' & samples & Hcsd' & _ & _ & Hcount & _).
  rewrite Hcsd in Hcsd'. injection Hcsd' as <-.
  set (mask32 := Graphics.rpColorTargetMask (Graphics.resolvePass info)) in *.
  assert (Hlen : GraphicsSpec.bit_length (Graphics.uint8 mask32) = S top).
  { unfold GraphicsSpec.bit_length.
    destruct (Z.eqb_spec (Graphics.uint8 mask32) 0); [contradiction | reflexivity]. }
  assert (Hkept : Vk.attachmentCount (Graphics.colorBlendState csd)
                  = GraphicsSpec.keptSlots info 0 (S top)).
  { rewrite Hcount. unfold Graphics.colorAttachments.
    destruct (Z.eqb_spec mask32 0) as [H0|_].
    - exfalso. apply Hmask. rewrite H0. reflexivity.
    - simpl negb. cbv iota.
      rewrite fillAttachments_count by apply uint8_range.
      rewrite Hlen. pose proof (bit_length_uint8 mask32) as H8. rewrite Hlen in H8.
      rewrite Nat.min_r by lia. reflexivity. }
  pose proof (kept_plus_resolve info 0 (S top)) as Hsum.
  split; [lia |].
  intros [Hnative | Hsingle].
  - rewrite (no_resolve_with_native_pass info 0 (S top) Hnative) in Hsum. lia.
  - rewrite (no_resolve_single_sampled info 0 (S top) Hsingle) in Hsum. lia.
Qed.

Lemma attachmentCount_highest_bit_witness :
  exists p evs csd,
    Graphics.ctor Scenarios.cfg 0 Scenarios.someLayout
      (Scenarios.legacyInfo Scenarios.singleSampled RW_DEPTH 9 0 None) = Done (p, evs)
    /\ Graphics.compileScratch p = Some csd
    /\ Vk.attachmentCount (Graphics.colorBlendState csd) = 4%nat.
Proof.
  destruct (Graphics.ctor Scenarios.cfg 0 Scenarios.someLayout
              (Scenarios.legacyInfo Scenarios.singleSampled RW_DEPTH 9 0 None))
    as [[p evs]|f] eqn:Hctor; [| vm_compute in Hctor; discriminate].
  destruct (Graphics.compileScratch p) as [csd|] eqn:Hcsd;
    [| vm_compute in Hctor; injection Hctor as <- _; discriminate].
  exists p, evs, csd. split; [reflexivity |]. split; [exact Hcsd |].
  refine (proj2 (attachmentCount_highest_bit Scenarios.cfg 0 Scenarios.someLayout
                   (Scenarios.legacyInfo Scenarios.singleSampled RW_DEPTH 9 0 None)
                   p evs csd _ Hctor Hcsd _) _).
  - vm_compute. lia.
  - vm_compute. discriminate.
  - right. vm_compute. repeat constructor; discriminate.
Defined.

(** ** GraphicsPipeline::compile *)

Section GraphicsCompile.

Import Graphics.

Variables (cfg : Config) (drv : Driver).

Lemma set_gpci_same csd : set_gpci csd (gpci csd) = csd.
Proof. destruct csd; reflexivity. Qed.

Lemma createPipelineObject_with pipes csd ci result ret :
  derivativeCreateInfo pipes csd = Done ci ->
  vkCreateGraphicsPipelines drv (vkCache csd) ci = (result, ret) ->
  createPipelineObject drv pipes csd
  = if Vk.VULKAN_FAIL result then Fatal (ExitOnFail result)
    else Done (ret, set_gpci csd ci, [EvCreateGraphicsPipelines (vkCache csd) ci]).
Proof.
  intros Hci Hnative. unfold createPipelineObject.
  rewrite Hci. simpl. rewrite Hnative. unfold Vk.VULKAN_EXIT_ON_FAIL.
  destruct (Vk.VULKAN_FAIL result); reflexivity.
Qed.

Lemma derivativeCreateInfo_parent pipes csd a parent :
  parentPipe csd = Some a -> pipes !! a = Some parent ->
  derivativeCreateInfo pipes csd
  = if Vk.is_null (getCompiledHandle parent) then Done (gpci csd)
    else Done {| Vk.flags := Z.lor (Vk.flags (gpci csd)) Vk.VK_PIPELINE_CREATE_DERIVATIVE_BIT;
                 Vk.layout := Vk.layout (gpci csd);
                 Vk.renderPass := Vk.renderPass (gpci csd);
                 Vk.subpass := Vk.subpass (gpci csd);
                 Vk.basePipelineHandle := getHandle parent;
                 Vk.basePipelineIndex := -1 |}.
Proof.
  intros Hp Ha. unfold derivativeCreateInfo, deref. rewrite Hp, Ha. simpl.
  destruct (Vk.is_null (getCompiledHandle parent)); reflexivity.
Qed.

Lemma land_lor_absorb (f d : Z) : Z.land (Z.lor f d) d = d.
Proof.
  apply Z.bits_inj'. intros n Hn. rewrite Z.land_spec, Z.lor_spec.
  destruct (Z.testbit f n), (Z.testbit d n); reflexivity.
Qed.

Lemma is_null_spec (h : Z) : Vk.is_null h = true <-> h = Vk.VK_NULL_HANDLE.
Proof. unfold Vk.is_null. apply Z.eqb_eq. Qed.

End GraphicsCompile.

(** C3, as stated, fails: when the native creation call reports success but
    writes a null handle, [compile] returns normally and the pipeline is left
    with the null handle and no scratch. *)
Lemma compile_null_handle_not_fatal :
  vkCreateGraphicsPipelines Scenarios.nullDriver 0
    (Graphics.gpci (Scenarios.builtScratch None)) = (Vk.VK_SUCCESS, Vk.VK_NULL_HANDLE)
  /\ exists w',
       Graphics.compile Scenarios.cfg Scenarios.nullDriver 1
         {| Graphics.pipes := {[ 1%nat := Scenarios.pendingPipeline None ]};
            Graphics.trace := [] |} = Done w'
       /\ Graphics.pipes w' !! 1%nat
          = Some {| Graphics.layout := Scenarios.someLayout; Graphics.dynStateMask := 0;
                    Graphics.handle := Vk.VK_NULL_HANDLE; Graphics.compileScratch := None |}.
Proof.
  split; [reflexivity |].
  eexists. split.
  - unfold Graphics.compile, Graphics.deref. cbn [Graphics.pipes].
    rewrite lookup_singleton_eq. reflexivity.
  - cbn [Graphics.pipes]. rewrite lookup_insert_eq. reflexivity.
Qed.

(** C3, amended.  In a graphics pipeline [compile] whose native creation
    call writes a null handle: if the call reports a failing result the
    fatal exit path is taken; if it reports success the condition is logged
    as an error with the program index, the variant index and the variant
    total, the compile then completes as any other (native render pass
    reference released, scratch deleted when heap allocated and detached),
    and the null handle is what the pipeline holds afterwards. *)
Theorem compile_null_handle_logged (cfg : Config) (drv : Driver) (this : nat)
    (w : Graphics.World) (self : Graphics.GraphicsPipeline)
    (csd : Graphics.GraphicsPipelineCompileScratchData)
    (ci : Vk.VkGraphicsPipelineCreateInfo) (result : Z) :
  Graphics.pipes w !! this = Some self ->
  Graphics.compileScratch self = Some csd ->
  Graphics.derivativeCreateInfo (Graphics.pipes w) csd = Done ci ->
  vkCreateGraphicsPipelines drv (Graphics.vkCache csd) ci = (result, Vk.VK_NULL_HANDLE) ->
  (Vk.VULKAN_FAIL result = true ->
   Graphics.compile cfg drv this w = Fatal (ExitOnFail result))
  /\ (Vk.VULKAN_FAIL result = false ->
      Graphics.compile cfg drv this w
      = Done {| Graphics.pipes :=
                  <[this := {| Graphics.layout := Graphics.layout self;
                               Graphics.dynStateMask := Graphics.dynStateMask self;
                               Graphics.handle := Vk.VK_NULL_HANDLE;
                               Graphics.compileScratch := None |}]> (Graphics.pipes w);
                Graphics.trace :=
                  Graphics.trace w
                  ++ [EvCreateGraphicsPipelines (Graphics.vkCache csd) ci]
                  ++ [EvLogerr Graphics.msg_gfx_not_compiled
                        [Graphics.progIdx csd; Graphics.varIdx csd; Graphics.varTotal csd]]
                  ++ match Graphics.nativeRP csd with
                     | Some rp => [EvReleasePipelineCompileRef (rpId rp)]
                     | None => []
                     end
                  ++ (if Graphics.allocated csd then [EvDeleteScratch] else []) |}).
Proof.
  intros Hself Hcsd Hci Hnative.
  unfold Graphics.compile, Graphics.deref. rewrite Hself. simpl. rewrite Hcsd.
  rewrite (createPipelineObject_with drv _ _ _ _ _ Hci Hnative).
  split; intros Hres; rewrite Hres; reflexivity.
Qed.

Lemma compile_null_handle_logged_witness :
  Graphics.compile Scenarios.cfg Scenarios.nullDriver 1
    {| Graphics.pipes := {[ 1%nat := Scenarios.pendingPipeline None ]}; Graphics.trace := [] |}
  = Done {| Graphics.pipes :=
              <[1%nat := Scenarios.compiledPipeline Vk.VK_NULL_HANDLE]>
                {[ 1%nat := Scenarios.pendingPipeline None ]};
            Graphics.trace :=
              [EvCreateGraphicsPipelines 0 (Graphics.gpci (Scenarios.builtScratch None));
               EvLogerr Graphics.msg_gfx_not_compiled [7; 0; 1];
               EvDeleteScratch] |}.
Proof.
  refine (proj2 (compile_null_handle_logged Scenarios.cfg Scenarios.nullDriver 1
                   {| Graphics.pipes := {[ 1%nat := Scenarios.pendingPipeline None ]};
                      Graphics.trace := [] |}
                   (Scenarios.pendingPipeline None) (Scenarios.builtScratch None)
                   (Graphics.gpci (Scenarios.builtScratch None)) Vk.VK_SUCCESS
                   _ _ _ _) _).
  - apply lookup_singleton_eq.
  - reflexivity.
  - reflexivity.
  - reflexivity.
  - reflexivity.
Defined.

(** C6.  When [createPipelineObject] runs for a pipeline with a designated
    parent: if the parent's compiled handle is non-null, the create-info
    given to the native call has the derivative flag added to its flags,
    basePipelineIndex -1 and the parent's handle as basePipelineHandle; if
    the parent's compiled handle is still null, the create-info is given
    unchanged (so without the derivative flag when it comes from the
    constructor), and the call succeeds or fails exactly as the native
    creation does: a pending parent is never an error. *)
Theorem createPipelineObject_derivative (drv : Driver)
    (pipes : gmap nat Graphics.GraphicsPipeline)
    (csd : Graphics.GraphicsPipelineCompileScratchData)
    (a : nat) (parent : Graphics.GraphicsPipeline) :
  Graphics.parentPipe csd = Some a ->
  pipes !! a = Some parent ->
  (Graphics.getCompiledHandle parent <> Vk.VK_NULL_HANDLE ->
   exists ci,
     Graphics.derivativeCreateInfo pipes csd = Done ci
     /\ Vk.flags ci = Z.lor (Vk.flags (Graphics.gpci csd)) Vk.VK_PIPELINE_CREATE_DERIVATIVE_BIT
     /\ Z.land (Vk.flags ci) Vk.VK_PIPELINE_CREATE_DERIVATIVE_BIT
        = Vk.VK_PIPELINE_CREATE_DERIVATIVE_BIT
     /\ Vk.basePipelineIndex ci = -1
     /\ Vk.basePipelineHandle ci = Graphics.getHandle parent
     /\ Vk.basePipelineHandle ci = Graphics.getCompiledHandle parent
     /\ forall result ret,
          vkCreateGraphicsPipelines drv (Graphics.vkCache csd) ci = (result, ret) ->
          Vk.VULKAN_FAIL result = false ->
          Graphics.createPipelineObject drv pipes csd
          = Done (ret, Graphics.set_gpci csd ci,
                  [EvCreateGraphicsPipelines (Graphics.vkCache csd) ci]))
  /\ (Graphics.getCompiledHandle parent = Vk.VK_NULL_HANDLE ->
      Graphics.derivativeCreateInfo pipes csd = Done (Graphics.gpci csd)
      /\ (Vk.flags (Graphics.gpci csd) = Vk.VK_PIPELINE_CREATE_ALLOW_DERIVATIVES_BIT ->
          Z.land (Vk.flags (Graphics.gpci csd)) Vk.VK_PIPELINE_CREATE_DERIVATIVE_BIT = 0)
      /\ forall result ret,
           vkCreateGraphicsPipelines drv (Graphics.vkCache csd) (Graphics.gpci csd)
           = (result, ret) ->
           Vk.VULKAN_FAIL result = false ->
           Graphics.createPipelineObject drv pipes csd
           = Done (ret, csd,
                   [EvCreateGraphicsPipelines (Graphics.vkCache csd) (Graphics.gpci csd)])).
Proof.
  intros Hparent Ha.
  pose proof (derivativeCreateInfo_parent pipes csd a parent Hparent Ha) as Hci.
  split; intros Hhandle.
  - destruct (Vk.is_null (Graphics.getCompiledHandle parent)) eqn:Hnull.
    { apply is_null_spec in Hnull. contradiction. }
    eexists. split; [exact Hci |]. cbn [Vk.flags Vk.basePipelineIndex Vk.basePipelineHandle].
    split; [reflexivity |].
    split.
    { apply land_lor_absorb. }
    split; [reflexivity |]. split; [reflexivity |]. split; [reflexivity |].
    intros result ret Hnative Hok.
    rewrite (createPipelineObject_with drv _ _ _ _ _ Hci Hnative), Hok. reflexivity.
  - assert (Hnull : Vk.is_null (Graphics.getCompiledHandle parent) = true)
      by (apply is_null_spec; exact Hhandle).
    rewrite Hnull in Hci. split; [exact Hci |].
    split; [intros ->; reflexivity |].
    intros result ret Hnative Hok.
    rewrite (createPipelineObject_with drv _ _ _ _ _ Hci Hnative), Hok, set_gpci_same.
    reflexivity.
Qed.

Lemma createPipelineObject_derivative_witness :
  exists ci,
    Graphics.derivativeCreateInfo
      (Graphics.pipes (Scenarios.familyWorld (Scenarios.compiledPipeline 55)))
      (Scenarios.builtScratch (Some 2%nat)) = Done ci
    /\ Vk.flags ci = 6
    /\ Vk.basePipelineIndex ci = -1
    /\ Vk.basePipelineHandle ci = 55.
Proof.
  destruct (proj1 (createPipelineObject_derivative Scenarios.goodDriver
                     (Graphics.pipes (Scenarios.familyWorld (Scenarios.compiledPipeline 55)))
                     (Scenarios.builtScratch (Some 2%nat)) 2%nat (Scenarios.compiledPipeline 55)
                     eq_refl eq_refl))
    as (ci & Hci & Hflags & _ & Hindex & Hhandle & _).
  - discriminate.
  - exists ci. repeat split; assumption.
Defined.

(** ** Pipeline storage *)

Section StorageFacts.

Import Storage.

Context {W LayoutType LayoutCreationInfo PipelineType CreationInfo : Type}.
Variable T : PipelineTraits W LayoutType LayoutCreationInfo PipelineType CreationInfo.

#[local] Abbreviation Store := (PipelineManagerStorage LayoutType PipelineType).

Lemma at_index_lookup (st : Store) (index : Z) (slot : option PipelineType) :
  0 <= index -> pipelines st !! Z.to_nat index = Some slot -> at_index st index = Done slot.
Proof.
  intros Hi Hl. unfold at_index.
  destruct (Z.ltb_spec index 0); [lia |]. rewrite Hl. reflexivity.
Qed.

Lemma at_index_Done (st : Store) (index : Z) (slot : option PipelineType) :
  at_index st index = Done slot ->
  0 <= index /\ pipelines st !! Z.to_nat index = Some slot.
Proof.
  unfold at_index. destruct (Z.ltb_spec index 0); [discriminate |].
  destruct (pipelines st !! Z.to_nat index) eqn:Hl; [| discriminate].
  intros [= ->]. split; [lia | reflexivity].
Qed.

Lemma ensureSpace_layouts (st : Store) index :
  layouts (ensureSpaceForIndex st index) = layouts st.
Proof. unfold ensureSpaceForIndex. case_match; reflexivity. Qed.

Lemma ensureSpace_in_range (st : Store) index :
  (Z.to_nat index < length (pipelines st))%nat ->
  ensureSpaceForIndex st index = st.
Proof.
  intros Hlt. unfold ensureSpaceForIndex.
  destruct (Z.leb_spec (Z.of_nat (length (pipelines st))) index); [lia |]. reflexivity.
Qed.

Lemma findOrAddLayout_pipelines (st : Store) info w :
  pipelines (findOrAddLayout T st info w).1.2 = pipelines st.
Proof.
  unfold findOrAddLayout. destruct (find _ _); [reflexivity |].
  destruct (newLayout T info w). reflexivity.
Qed.

Lemma findOrAddLayout_extends (st : Store) info w :
  exists ext, layouts (findOrAddLayout T st info w).1.2 = layouts st ++ ext.
Proof.
  unfold findOrAddLayout. destruct (find _ _).
  - exists []. simpl. rewrite app_nil_r. reflexivity.
  - destruct (newLayout T info w). eexists. reflexivity.
Qed.

Lemma find_app_Some {A} (f : A -> bool) (l ext : list A) (x : A) :
  find f l = Some x -> find f (l ++ ext) = Some x.
Proof.
  induction l as [|a l IH]; simpl; [discriminate |].
  destruct (f a); [trivial | exact IH].
Qed.

Lemma find_app_None {A} (f : A -> bool) (l : list A) (x : A) :
  find f l = None -> f x = true -> find f (l ++ [x]) = Some x.
Proof.
  induction l as [|a l IH]; simpl; intros Hn Hx.
  - rewrite Hx. reflexivity.
  - destruct (f a); [discriminate | auto].
Qed.

Hypothesis matches_new :
  forall info w, matches T (newLayout T info w).1 info = true.

Lemma findOrAddLayout_first_match (st : Store) info w :
  find (fun layout => matches T layout info) (layouts (findOrAddLayout T st info w).1.2)
  = Some (findOrAddLayout T st info w).1.1.
Proof.
  unfold findOrAddLayout.
  destruct (find _ (layouts st)) as [l|] eqn:Hf; simpl; [exact Hf |].
  pose proof (matches_new info w) as Hm.
  destruct (newLayout T info w) as [ret w']. simpl in *.
  apply find_app_None; assumption.
Qed.

Lemma findOrAddLayout_found (st : Store) info w l :
  find (fun layout => matches T layout info) (layouts st) = Some l ->
  findOrAddLayout T st info w = (l, st, w).
Proof. intros Hf. unfold findOrAddLayout. rewrite Hf. reflexivity. Qed.


Lemma add_Done_inv (st st' : Store) program cache info w w' :
  add T st program cache info w = Done (st', w') ->
  let index := getIndexFromID (programType T) program in
  exists layout st1 w1 p,
    findOrAddLayout T st (info_layout T info) w = (layout, st1, w1)
    /\ newPipeline T program cache layout info w1 = Done (p, w')
    /\ checkID (programType T) program = true
    /\ 0 <= index
    /\ pipelines (ensureSpaceForIndex st1 index) !! Z.to_nat index = Some None
    /\ st' = set_index (ensureSpaceForIndex st1 index) index (Some p).
Proof.
  intros H; intros index; unfold add in H.
  apply bind_Done_inv in H as ([] & Hid & H).
  destruct (findOrAddLayout T st (info_layout T info) w) as [[layout st1] w1] eqn:Hf.
  apply bind_Done_inv in H as (old & Hold & H).
  apply bind_Done_inv in H as ([] & Hempty & H).
  apply bind_Done_inv in H as ([p w2] & Hnew & H).
  injection H as <- <-.
  apply at_index_Done in Hold as [Hi Hold].
  exists layout, st1, w1, p. split; [reflexivity |]. split; [exact Hnew |].
  split. { unfold G_ASSERT in Hid. destruct (checkID _ _); [reflexivity | discriminate]. }
  split; [exact Hi |]. split; [| reflexivity].
  destruct old as [q|]; [| exact Hold].
  unfold G_ASSERT in Hempty. rewrite bool_decide_eq_true_2 in Hempty by eauto. discriminate.
Qed.

Lemma add_layouts (st st' : Store) program cache info w w' :
  add T st program cache info w = Done (st', w') ->
  exists ext, layouts st' = layouts st ++ ext.
Proof.
  intros H. apply add_Done_inv in H as (layout & st1 & w1 & p & Hf & _ & _ & _ & _ & ->).
  pose proof (findOrAddLayout_extends st (info_layout T info) w) as [ext Hext].
  rewrite Hf in Hext. exists ext. simpl. rewrite ensureSpace_layouts. exact Hext.
Qed.

Lemma takeOut_Done_inv (st st' : Store) index p :
  takeOut st index = Done (p, st') ->
  0 <= index /\ pipelines st !! Z.to_nat index = Some (Some p)
  /\ st' = set_index st index None.
Proof.
  unfold takeOut. intros H. apply bind_Done_inv in H as (ret & Hret & H).
  apply at_index_Done in Hret as [Hi Hret].
  destruct ret as [q|]; [| discriminate]. injection H as <- <-. auto.
Qed.

Lemma calls_layouts cs : forall (st st' : Store) w w',
  calls T cs st w = Done (st', w') ->
  exists ext, layouts st' = layouts st ++ ext.
Proof.
  induction cs as [|c cs IH]; intros st st' w w' H; simpl in H.
  - injection H as <- <-. exists []. rewrite app_nil_r. reflexivity.
  - apply bind_Done_inv in H as ([st1 w1] & Hc & H).
    apply IH in H as [ext2 H2]. destruct c as [program cache info | index]; simpl in Hc.
    + apply add_layouts in Hc as [ext1 H1]. exists (ext1 ++ ext2).
      rewrite H2, H1, app_assoc. reflexivity.
    + apply bind_Done_inv in Hc as ([p st1'] & Ht & Hc). injection Hc as <- <-.
      apply takeOut_Done_inv in Ht as (_ & _ & ->). exists ext2. exact H2.
Qed.

End StorageFacts.

Section StorageLive.

Import Storage.

Context {LayoutType PipelineType : Type}.

#[local] Abbreviation Slots := (PipelineManagerStorage LayoutType PipelineType).

Lemma valid_true_inv (pt : ProgramType) (st : Slots) program :
  valid pt st program = true ->
  exists p, checkID pt program = true
    /\ 0 <= getIndexFromID pt program
    /\ pipelines st !! Z.to_nat (getIndexFromID pt program) = Some (Some p).
Proof.
  unfold valid. intros H.
  apply andb_prop in H as [H Hslot]. apply andb_prop in H as [H _].
  apply andb_prop in H as [Hid Hge].
  destruct (pipelines st !! Z.to_nat (getIndexFromID pt program)) as [[p|]|] eqn:Hl;
    try discriminate.
  exists p. split; [exact Hid |]. split; [lia | reflexivity].
Qed.

Lemma valid_get (pt : ProgramType) (st : Slots) program :
  valid pt st program = true ->
  exists p, pipelines st !! Z.to_nat (getIndexFromID pt program) = Some (Some p)
    /\ get pt st program = Done p.
Proof.
  intros H. apply valid_true_inv in H as (p & Hid & Hge & Hl).
  exists p. split; [exact Hl |].
  unfold get. rewrite Hid. simpl.
  rewrite (at_index_lookup st _ _ Hge Hl). reflexivity.
Qed.

Lemma valid_null_slot (pt : ProgramType) (st : Slots) program :
  pipelines st !! Z.to_nat (getIndexFromID pt program) = Some None ->
  valid pt st program = false.
Proof. intros Hl. unfold valid. rewrite Hl. apply andb_false_r. Qed.

End StorageLive.

(** ** Compute pipeline and the background compiler *)

Section ComputeFacts.

Import Compute ComputeSpec.

Variables (cfg : Config) (drv : Driver).

(* What a compilation that returns has done. *)
Lemma compile_Done_inv this w w' :
  compile cfg drv this w = Done w' ->
  exists self csd h evs,
    pipes w !! this = Some self
    /\ compileScratch self = Some csd
    /\ h <> Vk.VK_NULL_HANDLE
    /\ pipes w' = <[this := {| layout := layout self; handle := h;
                               compileScratch := None |}]> (pipes w)
    /\ pipelineCompiler w' = pipelineCompiler w
    /\ trace w' = trace w ++ evs
    /\ Forall (fun e => is_bind e = false) evs.
Proof.
  unfold compile, deref. intros H.
  destruct (pipes w !! this) as [self|] eqn:Hself; [| discriminate]. simpl in H.
  destruct (compileScratch self) as [csd|] eqn:Hcsd; [| discriminate].
  destruct (vkCreateComputePipelines drv _ _ _) as [result h] eqn:Hnative.
  apply bind_Done_inv in H as ([] & Hexit & H). injection H as <-.
  exists self, csd, h. eexists.
  split; [reflexivity |]. split; [exact Hcsd |].
  split.
  { intros ->. unfold Vk.VULKAN_EXIT_ON_FAIL, Vk.VULKAN_FAIL, Vk.VULKAN_OK in Hexit.
    change (Vk.is_null Vk.VK_NULL_HANDLE) with true in Hexit. simpl in Hexit.
    destruct (Z.leb_spec 0 result); simpl in Hexit; [discriminate |].
    destruct (Z.ltb_spec result 0); [discriminate | lia]. }
  split; [reflexivity |]. split; [reflexivity |].
  split; [cbn [trace]; reflexivity |].
  repeat (apply Forall_app; split); repeat case_match;
    repeat constructor.
Qed.

(* A compilation fails only by the fatal exit on a failing result. *)
Lemma compile_Fatal_inv this w self csd f :
  pipes w !! this = Some self -> compileScratch self = Some csd ->
  compile cfg drv this w = Fatal f ->
  exists r, f = ExitOnFail r /\ Vk.VULKAN_FAIL r = true.
Proof.
  unfold compile, deref. intros -> H. simpl. rewrite H.
  destruct (vkCreateComputePipelines drv _ _ _) as [result h].
  unfold Vk.VULKAN_EXIT_ON_FAIL.
  match goal with |- context [Vk.VULKAN_FAIL ?r] => destruct (Vk.VULKAN_FAIL r) eqn:Hr end;
    simpl; [| discriminate].
  intros [= <-]. eexists. split; [reflexivity | exact Hr].
Qed.


Lemma consistent_trace w evs :
  consistent w ->
  consistent {| pipes := pipes w; pipelineCompiler := pipelineCompiler w;
                trace := trace w ++ evs |}.
Proof. intros [Hnd Hq Hp]. split; assumption. Qed.

(* One step of the background compiler keeps queue and pipelines in
   agreement, and can only fail by the fatal exit. *)
Lemma step_consistent a rest w :
  consistent w -> pipelineCompiler w = a :: rest ->
  (exists r, compile cfg drv a (set_queue rest w) = Fatal (ExitOnFail r)
             /\ Vk.VULKAN_FAIL r = true)
  \/ (exists w' evs,
        compile cfg drv a (set_queue rest w) = Done w'
        /\ consistent w'
        /\ pipelineCompiler w' = rest
        /\ (forall b, is_Some (pipes w !! b) -> is_Some (pipes w' !! b))
        /\ (forall b, b <> a -> pipes w' !! b = pipes w !! b)
        /\ trace w' = trace w ++ evs
        /\ Forall (fun e => is_bind e = false) evs).
Proof.
  intros [Hnd Hq Hp] Hqueue. rewrite Hqueue in *.
  destruct (Hq a) as (self & csd & Hself & Hnull & Hcsd); [left |].
  destruct (compile cfg drv a (set_queue rest w)) as [w'|f] eqn:Hc.
  - right. apply compile_Done_inv in Hc
      as (self' & csd' & h & evs & Hself' & _ & Hh & Hpipes & Hqueue' & Htrace & Hevs).
    cbn [set_queue pipes pipelineCompiler trace] in *.
    apply NoDup_cons in Hnd as [Hnotin Hnd].
    exists w', evs. split; [reflexivity |].
    assert (Hother : forall b, b <> a -> pipes w' !! b = pipes w !! b)
      by (intros b Hb; rewrite Hpipes; apply lookup_insert_ne; congruence).
    split; [| split; [exact Hqueue' | split; [| split; [exact Hother | split; assumption]]]].
    + split.
      * rewrite Hqueue'. exact Hnd.
      * intros b Hb. rewrite Hqueue' in Hb.
        assert (b <> a) by (intros ->; contradiction).
        destruct (Hq b) as (p & c & Hpb & Hpn & Hpc); [right; exact Hb |].
        exists p, c. rewrite Hother by assumption. auto.
      * intros b p Hb Hbn. rewrite Hqueue'.
        destruct (decide (b = a)) as [->|Hne].
        -- rewrite Hpipes, lookup_insert_eq in Hb. injection Hb as <-.
           simpl in Hbn. contradiction.
        -- rewrite Hother in Hb by exact Hne.
           specialize (Hp b p Hb Hbn). apply elem_of_cons in Hp as [->|Hin];
             [contradiction | exact Hin].
    + intros b [p Hb]. destruct (decide (b = a)) as [->|Hne].
      * rewrite Hpipes, lookup_insert_eq. eauto.
      * rewrite Hother by exact Hne. eauto.
  - left. destruct (compile_Fatal_inv a (set_queue rest w) self csd f Hself Hcsd Hc)
      as (r & -> & Hr).
    exists r. split; [reflexivity | exact Hr].
Qed.

Lemma pending_handle (p : ComputePipeline) :
  pendingCompilation p = true <-> handle p = Vk.VK_NULL_HANDLE.
Proof.
  unfold pendingCompilation, checkCompiled, getCompiledHandle, Vk.is_null.
  rewrite negb_involutive. apply Z.eqb_eq.
Qed.

Lemma waitLoop_compiles this : forall q w,
  consistent w -> pipelineCompiler w = q -> is_Some (pipes w !! this) ->
  (exists r, waitLoop cfg drv this q w = Fatal (ExitOnFail r) /\ Vk.VULKAN_FAIL r = true)
  \/ (exists w' evs,
        waitLoop cfg drv this q w = Done w'
        /\ consistent w'
        /\ (exists p, pipes w' !! this = Some p /\ handle p <> Vk.VK_NULL_HANDLE)
        /\ trace w' = trace w ++ evs
        /\ Forall (fun e => is_bind e = false) evs).
Proof.
  induction q as [|a rest IH]; intros w Hw Hq [self Hself].
  - right. exists w, []. cbn [waitLoop]. unfold deref. rewrite Hself. simpl.
    destruct (pendingCompilation self) eqn:Hpend.
    + apply pending_handle in Hpend.
      pose proof (pending_queued w Hw this self Hself Hpend) as Hin.
      rewrite Hq in Hin. apply elem_of_nil in Hin. contradiction.
    + split; [reflexivity |]. split; [exact Hw |].
      split; [| split; [rewrite app_nil_r; reflexivity | constructor]].
      exists self. split; [first [exact Hself | reflexivity] |]. intros Hn.
      apply pending_handle in Hn. congruence.
  - cbn [waitLoop]. unfold deref. rewrite Hself. simpl.
    destruct (pendingCompilation self) eqn:Hpend.
    + destruct (step_consistent a rest w Hw Hq)
        as [(r & Hc & Hr) | (w1 & evs1 & Hc & Hw1 & Hq1 & Hkeep & _ & Htr1 & Hev1)].
      * left. exists r. rewrite Hc. split; [reflexivity | exact Hr].
      * rewrite Hc. simpl.
        destruct (IH w1 Hw1 Hq1 (Hkeep this (ex_intro _ self Hself)))
          as [(r & Hl & Hr) | (w2 & evs2 & Hl & Hw2 & Hdone & Htr2 & Hev2)].
        -- left. exists r. split; assumption.
        -- right. exists w2, (evs1 ++ evs2). split; [exact Hl |]. split; [exact Hw2 |].
           split; [exact Hdone |].
           split; [rewrite Htr2, Htr1, app_assoc; reflexivity |].
           apply Forall_app; split; assumption.
    + right. exists w, []. split; [reflexivity |]. split; [exact Hw |].
      split; [| split; [rewrite app_nil_r; reflexivity | constructor]].
      exists self. split; [first [exact Hself | reflexivity] |]. intros Hn.
      apply pending_handle in Hn. congruence.
Qed.


Lemma ctor_consistent this prog cache l info w w' :
  consistent w -> pipes w !! this = None ->
  ctor cfg drv this prog cache l info w = Done w' ->
  consistent w' /\ exists p, pipes w' !! this = Some p /\ layout p = l.
Proof.
  intros [Hnd Hq Hp] Hfresh. unfold ctor.
  assert (Hnotin : this ∉ pipelineCompiler w).
  { intros Hin. destruct (Hq this Hin) as (p & _ & Hl & _). congruence. }
  destruct (allowAsyncCompile info).
  - intros [= <-]. unfold queue. cbn [pipes pipelineCompiler trace]. split.
    + split; cbn [pipes pipelineCompiler].
      * apply NoDup_app. split; [exact Hnd |]. split; [| apply NoDup_singleton].
        intros b Hb Hb'. apply list_elem_of_singleton in Hb'. subst b. contradiction.
      * intros b Hb. apply elem_of_app in Hb as [Hb | Hb].
        -- destruct (Hq b Hb) as (p & c & Hpb & Hpn & Hpc).
           exists p, c. cbn [pipes].
           rewrite lookup_insert_ne by (intros ->; contradiction). auto.
        -- apply list_elem_of_singleton in Hb. subst b.
           eexists; eexists. cbn [pipes]. rewrite lookup_insert_eq. split; [reflexivity |].
           split; reflexivity.
      * intros b p Hb Hbn. apply elem_of_app.
        destruct (decide (b = this)) as [->|Hne].
        -- right. apply list_elem_of_singleton. reflexivity.
        -- left. cbn [pipes] in Hb. rewrite lookup_insert_ne in Hb by congruence.
           eapply Hp; eassumption.
    + eexists. cbn [pipes]. rewrite lookup_insert_eq. split; reflexivity.
  - intros Hc. apply compile_Done_inv in Hc
      as (self & csd & h & evs & Hself & _ & Hh & Hpipes & Hqueue & _ & _).
    cbn [pipes pipelineCompiler] in *. rewrite lookup_insert_eq in Hself.
    injection Hself as <-. cbn [layout] in Hpipes. split.
    + split.
      * rewrite Hqueue. exact Hnd.
      * intros b Hb. rewrite Hqueue in Hb.
        destruct (Hq b Hb) as (p & c & Hpb & Hpn & Hpc).
        exists p, c. rewrite Hpipes, !lookup_insert_ne by (intros ->; contradiction). auto.
      * intros b p Hb Hbn. rewrite Hqueue. rewrite Hpipes in Hb.
        destruct (decide (b = this)) as [->|Hne].
        -- rewrite lookup_insert_eq in Hb. injection Hb as <-. simpl in Hbn. contradiction.
        -- rewrite !lookup_insert_ne in Hb by congruence. eapply Hp; eassumption.
    + eexists. rewrite Hpipes, lookup_insert_eq. split; reflexivity.
Qed.

Lemma compilerSteps_consistent k : forall w w',
  consistent w -> compilerSteps cfg drv k w = Done w' ->
  consistent w' /\ forall b, is_Some (pipes w !! b) -> is_Some (pipes w' !! b).
Proof.
  induction k as [|k IH]; intros w w' Hw; cbn [compilerSteps].
  - intros [= <-]. auto.
  - unfold compilerStep. destruct (pipelineCompiler w) as [|a rest] eqn:Hq.
    + intros [= <-]. auto.
    + destruct (step_consistent a rest w Hw Hq)
        as [(r & Hc & _) | (w1 & evs & Hc & Hw1 & _ & Hkeep & _)]; rewrite Hc; simpl.
      * discriminate.
      * intros Hsteps. destruct (IH w1 w' Hw1 Hsteps) as [Hw' Hkeep'].
        split; [exact Hw' | auto].
Qed.

(* [bind] on a pipeline of a consistent world: a fatal exit of a
   compilation it waited for, or one native bind, of a non-null handle. *)
Lemma bind_consistent this cmd w self :
  consistent w -> pipes w !! this = Some self ->
  (exists r, bind cfg drv this cmd w = Fatal (ExitOnFail r) /\ Vk.VULKAN_FAIL r = true
             /\ handle self = Vk.VK_NULL_HANDLE)
  \/ (exists w' h before,
        bind cfg drv this cmd w = Done w'
        /\ h <> Vk.VK_NULL_HANDLE
        /\ handle <$> pipes w' !! this = Some h
        /\ trace w' = trace w ++ before
                      ++ [EvCmdBindPipeline cmd Vk.VK_PIPELINE_BIND_POINT_COMPUTE h]
        /\ Forall (fun e => is_bind e = false) before
        /\ (handle self = Vk.VK_NULL_HANDLE ->
            exists rest, before = EvWaitFor this :: rest)
        /\ (handle self <> Vk.VK_NULL_HANDLE -> before = [] /\ h = handle self)).
Proof.
  intros Hw Hself. unfold bind, deref. rewrite Hself. simpl.
  destruct (checkCompiled self) eqn:Hcompiled; simpl.
  - right. rewrite Hself. simpl.
    assert (Hh : handle self <> Vk.VK_NULL_HANDLE).
    { intros Hn. apply pending_handle in Hn. unfold pendingCompilation in Hn.
      rewrite Hcompiled in Hn. discriminate. }
    exists {| pipes := pipes w; pipelineCompiler := pipelineCompiler w;
              trace := trace w ++ [EvCmdBindPipeline cmd Vk.VK_PIPELINE_BIND_POINT_COMPUTE
                                     (getHandle self)] |}, (handle self), [].
    split; [reflexivity |]. split; [exact Hh |]. cbn [pipes trace].
    split; [rewrite Hself; reflexivity |]. split; [reflexivity |].
    split; [constructor |]. split; [intros; contradiction | auto].
  - assert (Hn : handle self = Vk.VK_NULL_HANDLE).
    { apply pending_handle. unfold pendingCompilation. rewrite Hcompiled. reflexivity. }
    unfold waitFor.
    set (w0 := {| pipes := pipes w; pipelineCompiler := pipelineCompiler w;
                  trace := trace w ++ [EvWaitFor this] |}).
    destruct (waitLoop_compiles this (pipelineCompiler w) w0)
      as [(r & Hl & Hr) | (w1 & evs & Hl & Hw1 & (p & Hp & Hh) & Htr & Hev)].
    + apply consistent_trace. exact Hw.
    + reflexivity.
    + exists self. exact Hself.
    + left. exists r. rewrite Hl. split; [reflexivity | split; [exact Hr | exact Hn]].
    + right. rewrite Hl. simpl. rewrite Hp. simpl.
      eexists. exists (handle p), (EvWaitFor this :: evs).
      split; [reflexivity |]. split; [exact Hh |]. cbn [pipes trace].
      split; [rewrite Hp; reflexivity |].
      split.
      { rewrite Htr. subst w0. cbn [trace]. rewrite <- !app_assoc. reflexivity. }
      split; [constructor; [reflexivity | exact Hev] |].
      split; [intros _; eexists; reflexivity | intros; contradiction].
Qed.


Lemma ctor_layout this prog cache l info w w' :
  ctor cfg drv this prog cache l info w = Done w' ->
  layout <$> pipes w' !! this = Some l.
Proof.
  unfold ctor. destruct (allowAsyncCompile info).
  - intros [= <-]. unfold queue. cbn [pipes]. rewrite lookup_insert_eq. reflexivity.
  - intros Hc. apply compile_Done_inv in Hc
      as (self & csd & h & evs & Hself & _ & _ & Hpipes & _).
    cbn [pipes] in *. rewrite lookup_insert_eq in Hself. injection Hself as <-.
    rewrite Hpipes, lookup_insert_eq. reflexivity.
Qed.

Lemma ctor_async_pending this prog cache l info w w' :
  allowAsyncCompile info = true ->
  ctor cfg drv this prog cache l info w = Done w' ->
  handle <$> pipes w' !! this = Some Vk.VK_NULL_HANDLE
  /\ pipelineCompiler w' = pipelineCompiler w ++ [this].
Proof.
  intros Hasync. unfold ctor. rewrite Hasync. intros [= <-].
  unfold queue. cbn [pipes pipelineCompiler]. rewrite lookup_insert_eq. split; reflexivity.
Qed.

Lemma consistent_empty evs :
  consistent {| pipes := ∅; pipelineCompiler := []; trace := evs |}.
Proof.
  split; cbn [pipes pipelineCompiler].
  - constructor.
  - intros a Ha. apply elem_of_nil in Ha. contradiction.
  - intros a p Ha. rewrite lookup_empty in Ha. discriminate.
Qed.

End ComputeFacts.

(** C1.  A compute pipeline constructed with asynchronous compilation
    enabled is left pending, with a null handle, in the background
    compiler's queue.  Whatever progress the compiler has made since, [bind]
    issues the native bind call at most once and never with a null handle:
    on a pipeline that is still pending it first waits for that pipeline
    (the wait precedes everything else [bind] does) and binds the handle the
    compilation produced; on a compiled pipeline it binds the handle at
    once.  The only other outcome is the fatal exit of a compilation that
    [bind] had to wait for, and then no bind call is issued at all. *)
Theorem bind_never_binds_null_handle (cfg : Config) (drv : Driver) (w0 w1 w2 : Compute.World)
    (this : nat) (prog : ProgramID) (cache : Z) (l : Compute.ComputePipelineLayout)
    (info : Compute.CreationInfo) (k : nat) (cmd : Z) :
  ComputeSpec.consistent w0 ->
  Compute.pipes w0 !! this = None ->
  Compute.allowAsyncCompile info = true ->
  Compute.ctor cfg drv this prog cache l info w0 = Done w1 ->
  ComputeSpec.compilerSteps cfg drv k w1 = Done w2 ->
  Compute.handle <$> Compute.pipes w1 !! this = Some Vk.VK_NULL_HANDLE
  /\ exists self,
       Compute.pipes w2 !! this = Some self
       /\ ((exists r, Compute.bind cfg drv this cmd w2 = Fatal (ExitOnFail r)
                      /\ Vk.VULKAN_FAIL r = true
                      /\ Compute.handle self = Vk.VK_NULL_HANDLE)
           \/ (exists w3 h before,
                 Compute.bind cfg drv this cmd w2 = Done w3
                 /\ h <> Vk.VK_NULL_HANDLE
                 /\ Compute.handle <$> Compute.pipes w3 !! this = Some h
                 /\ Compute.trace w3
                    = Compute.trace w2 ++ before
                      ++ [EvCmdBindPipeline cmd Vk.VK_PIPELINE_BIND_POINT_COMPUTE h]
                 /\ Forall (fun e => ComputeSpec.is_bind e = false) before
                 /\ (Compute.handle self = Vk.VK_NULL_HANDLE ->
                     exists rest, before = EvWaitFor this :: rest)
                 /\ (Compute.handle self <> Vk.VK_NULL_HANDLE ->
                     before = [] /\ h = Compute.handle self))).
Proof.
  intros Hw0 Hfresh Hasync Hctor Hsteps.
  split; [exact (proj1 (ctor_async_pending cfg drv _ _ _ _ _ _ _ Hasync Hctor)) |].
  destruct (ctor_consistent cfg drv _ _ _ _ _ _ _ Hw0 Hfresh Hctor) as [Hw1 (p & Hp & _)].
  destruct (compilerSteps_consistent cfg drv k w1 w2 Hw1 Hsteps) as [Hw2 Hkeep].
  destruct (Hkeep this (ex_intro _ p Hp)) as [self Hself].
  exists self. split; [exact Hself |].
  exact (bind_consistent cfg drv this cmd w2 self Hw2 Hself).
Qed.

Lemma bind_never_binds_null_handle_witness :
  exists w1 w3,
    Compute.ctor Scenarios.cfg Scenarios.goodDriver 0 {| get := 1 |} 0
      {| Compute.layoutAddr := 9; Compute.layoutHeader := [1; 2]; Compute.layoutHandle := 1009 |}
      (Scenarios.computeInfo [1; 2] true) (Scenarios.world Scenarios.emptyBackend) = Done w1
    /\ Compute.bind Scenarios.cfg Scenarios.goodDriver 0 5 w1 = Done w3
    /\ Compute.trace w3
       = [EvQueue 0; EvWaitFor 0; EvCreateComputePipelines 0 300 1009;
          EvDestroyShaderModule 300; EvDeleteScratch;
          EvCmdBindPipeline 5 Vk.VK_PIPELINE_BIND_POINT_COMPUTE 77].
Proof.
  destruct (Compute.ctor Scenarios.cfg Scenarios.goodDriver 0 {| get := 1 |} 0
              {| Compute.layoutAddr := 9; Compute.layoutHeader := [1; 2];
                 Compute.layoutHandle := 1009 |}
              (Scenarios.computeInfo [1; 2] true) (Scenarios.world Scenarios.emptyBackend))
    as [w1|f] eqn:Hctor; [| vm_compute in Hctor; discriminate].
  destruct (bind_never_binds_null_handle Scenarios.cfg Scenarios.goodDriver
              (Scenarios.world Scenarios.emptyBackend) w1 w1 0 {| get := 1 |} 0
              {| Compute.layoutAddr := 9; Compute.layoutHeader := [1; 2];
                 Compute.layoutHandle := 1009 |}
              (Scenarios.computeInfo [1; 2] true) 0 5
              (consistent_empty []) eq_refl eq_refl Hctor eq_refl)
    as (_ & self & _ & [(r & Hfatal & _) | (w3 & h & before & Hbind & _)]).
  - vm_compute in Hctor. injection Hctor as <-. vm_compute in Hfatal. discriminate.
  - exists w1, w3. split; [reflexivity |]. split; [exact Hbind |].
    vm_compute in Hctor. injection Hctor as <-.
    vm_compute in Hbind. injection Hbind as <-. reflexivity.
Defined.

(** C7.  For a slot that holds a live pipeline, [takeOut] returns that
    pipeline and leaves the slot null, every other slot and the layouts
    untouched; [valid] then answers false for any program identifier of
    that index; and a following [add] under the same identifier passes the
    empty-slot assertion: it goes on to construct the new pipeline and, when
    the constructor returns, stores it in that slot, again leaving the other
    slots alone. *)
Theorem takeOut_valid_add {W LayoutType LayoutCreationInfo PipelineType CreationInfo : Type}
    (T : Storage.PipelineTraits W LayoutType LayoutCreationInfo PipelineType CreationInfo)
    (st : Storage.PipelineManagerStorage LayoutType PipelineType)
    (program : ProgramID) (p : PipelineType) :
  let index := getIndexFromID (Storage.programType T) program in
  0 <= index ->
  Storage.pipelines st !! Z.to_nat index = Some (Some p) ->
  exists st',
    Storage.takeOut st index = Done (p, st')
    /\ Storage.pipelines st' = <[Z.to_nat index := None]> (Storage.pipelines st)
    /\ Storage.pipelines st' !! Z.to_nat index = Some None
    /\ (forall j, j <> Z.to_nat index ->
        Storage.pipelines st' !! j = Storage.pipelines st !! j)
    /\ Storage.layouts st' = Storage.layouts st
    /\ Storage.valid (Storage.programType T) st' program = false
    /\ (checkID (Storage.programType T) program = true ->
        forall cache info w layout st1 w1,
          Storage.findOrAddLayout T st' (Storage.info_layout T info) w = (layout, st1, w1) ->
          Storage.add T st' program cache info w
          = match Storage.newPipeline T program cache layout info w1 with
            | Done (p', w2) =>
                Done ({| Storage.layouts := Storage.layouts st1;
                         Storage.pipelines :=
                           <[Z.to_nat index := Some p']> (Storage.pipelines st') |}, w2)
            | Fatal f => Fatal f
            end).
Proof.
  intros index Hindex Hlive.
  assert (Hlt : (Z.to_nat index < length (Storage.pipelines st))%nat)
    by (eapply lookup_lt_Some; exact Hlive).
  exists (Storage.set_index st index None).
  split.
  { unfold Storage.takeOut. rewrite (at_index_lookup st index _ Hindex Hlive). reflexivity. }
  split; [reflexivity |].
  assert (Hnull : Storage.pipelines (Storage.set_index st index None) !! Z.to_nat index
                  = Some None)
    by (apply list_lookup_insert_eq; exact Hlt).
  split; [exact Hnull |].
  split. { intros j Hj. apply list_lookup_insert_ne. congruence. }
  split; [reflexivity |].
  split; [apply valid_null_slot; exact Hnull |].
  intros Hid cache info w layout st1 w1 Hfind.
  unfold Storage.add. rewrite Hid. simpl. rewrite Hfind. fold index.
  pose proof (findOrAddLayout_pipelines T (Storage.set_index st index None)
                (Storage.info_layout T info) w) as Hpipes.
  rewrite Hfind in Hpipes. simpl in Hpipes.
  assert (Hlt1 : (Z.to_nat index < length (Storage.pipelines st1))%nat)
    by (rewrite Hpipes, length_insert; exact Hlt).
  rewrite (ensureSpace_in_range st1 index Hlt1).
  assert (Hnull1 : Storage.pipelines st1 !! Z.to_nat index = Some None)
    by (rewrite Hpipes; exact Hnull).
  rewrite (at_index_lookup st1 index _ Hindex Hnull1). simpl.
  destruct (Storage.newPipeline T program cache layout info w1) as [[p' w2]|f]; simpl;
    [| reflexivity].
  unfold Storage.set_index. rewrite Hpipes. reflexivity.
Qed.

Lemma takeOut_valid_add_witness :
  exists st' st'' b'',
    Storage.takeOut Scenarios.computeStorage 2 = Done (41%nat, st')
    /\ Storage.valid (Scenarios.taggedProgram 1) st' {| get := 9 |} = false
    /\ Storage.add (Scenarios.computeTraits Scenarios.goodDriver) st' {| get := 9 |} 0
         (Scenarios.computeInfo [1; 2] false) Scenarios.emptyBackend = Done (st'', b'')
    /\ Storage.pipelines st'' = [Some 40%nat; None; Some 1%nat].
Proof.
  destruct (takeOut_valid_add (Scenarios.computeTraits Scenarios.goodDriver)
              Scenarios.computeStorage {| get := 9 |} 41%nat
              ltac:(vm_compute; discriminate) eq_refl)
    as (st' & Htake & _ & _ & _ & _ & Hvalid & Hadd).
  vm_compute in Htake. injection Htake as <-.
  specialize (Hadd eq_refl 0 (Scenarios.computeInfo [1; 2] false) Scenarios.emptyBackend
                _ _ _ eq_refl).
  do 3 eexists. split; [reflexivity |]. split; [exact Hvalid |].
  split; [etransitivity; [exact Hadd | vm_compute; reflexivity] |]. reflexivity.
Defined.

Section SharedLayout.

Import Storage.

Context {W LayoutType LayoutCreationInfo PipelineType CreationInfo : Type}.
Variable T : PipelineTraits W LayoutType LayoutCreationInfo PipelineType CreationInfo.

(* What a successful [add] leaves behind: the new pipeline in its slot,
   and the layout it was given as first match of its description. *)
Lemma add_Done_layout st st' program cache info w w' :
  (forall header w0, matches T (newLayout T header w0).1 header = true) ->
  add T st program cache info w = Done (st', w') ->
  exists layout p w1,
    pipelines st' !! Z.to_nat (getIndexFromID (programType T) program) = Some (Some p)
    /\ newPipeline T program cache layout info w1 = Done (p, w')
    /\ find (fun candidate => matches T candidate (info_layout T info)) (layouts st')
       = Some layout
    /\ (forall existing,
        find (fun candidate => matches T candidate (info_layout T info)) (layouts st)
        = Some existing ->
        layout = existing /\ layouts st' = layouts st)
    /\ (find (fun candidate => matches T candidate (info_layout T info)) (layouts st) = None ->
        layouts st' = layouts st ++ [layout]).
Proof.
  intros Hnew H.
  apply add_Done_inv in H as (layout & st1 & w1 & p & Hf & Hctor & _ & _ & Hslot & ->).
  exists layout, p, w1.
  split.
  { cbn [set_index pipelines]. apply list_lookup_insert_eq.
    eapply lookup_lt_Some. exact Hslot. }
  split; [exact Hctor |].
  cbn [set_index layouts]. rewrite ensureSpace_layouts.
  pose proof (findOrAddLayout_first_match T Hnew st (info_layout T info) w) as Hfirst.
  rewrite Hf in Hfirst. simpl in Hfirst.
  split; [exact Hfirst |].
  split.
  - intros existing Hex.
    rewrite (findOrAddLayout_found T st _ w existing Hex) in Hf.
    injection Hf as <- <- <-. auto.
  - intros Hnone. unfold findOrAddLayout in Hf. rewrite Hnone in Hf.
    destruct (newLayout T (info_layout T info) w) as [ret w0].
    injection Hf as <- <- <-. reflexivity.
Qed.

End SharedLayout.

(** C2.  Two [add] calls into one storage whose creation infos carry equal
    layout descriptions give their pipelines one and the same layout
    object, whichever of the two comes first and whatever [add] and
    [takeOut] calls lie between them: [findOrAddLayout] returns the first
    layout of the list that matches, and appends a new layout only when none
    does (so the second call appends nothing).  Assumed of the pipeline
    kind: a newly constructed layout matches the description it was made
    from, and a newly constructed pipeline refers to the layout it was
    given. *)
Theorem equal_descriptions_share_layout
    {W LayoutType LayoutCreationInfo PipelineType CreationInfo : Type}
    (T : Storage.PipelineTraits W LayoutType LayoutCreationInfo PipelineType CreationInfo)
    (st0 st1 st2 st3 : Storage.PipelineManagerStorage LayoutType PipelineType)
    (w0 w1 w2 w3 : W) (program1 program2 : ProgramID) (cache1 cache2 : Z)
    (info1 info2 : CreationInfo) (between : list Storage.StorageCall) :
  (forall header w, Storage.matches T (Storage.newLayout T header w).1 header = true) ->
  (forall program cache layout info w p w',
     Storage.newPipeline T program cache layout info w = Done (p, w') ->
     Storage.getLayout T w' p = Some layout) ->
  Storage.info_layout T info1 = Storage.info_layout T info2 ->
  Storage.add T st0 program1 cache1 info1 w0 = Done (st1, w1) ->
  Storage.calls T between st1 w1 = Done (st2, w2) ->
  Storage.add T st2 program2 cache2 info2 w2 = Done (st3, w3) ->
  exists p1 p2 layout,
    Storage.pipelines st1 !! Z.to_nat (getIndexFromID (Storage.programType T) program1)
    = Some (Some p1)
    /\ Storage.pipelines st3 !! Z.to_nat (getIndexFromID (Storage.programType T) program2)
       = Some (Some p2)
    /\ Storage.getLayout T w1 p1 = Some layout
    /\ Storage.getLayout T w3 p2 = Some layout
    /\ Storage.layouts st3 = Storage.layouts st2
    /\ (Storage.layouts st1 = Storage.layouts st0
        \/ Storage.layouts st1 = Storage.layouts st0 ++ [layout]
           /\ List.find (fun candidate => Storage.matches T candidate (Storage.info_layout T info1))
                (Storage.layouts st0) = None).
Proof.
  intros Hnew Hkeeps Hsame Hadd1 Hbetween Hadd2.
  destruct (add_Done_layout T _ _ _ _ _ _ _ Hnew Hadd1)
    as (layout & p1 & wa & Hslot1 & Hctor1 & Hfirst1 & Hfound1 & Hfresh1).
  destruct (add_Done_layout T _ _ _ _ _ _ _ Hnew Hadd2)
    as (layout2 & p2 & wb & Hslot2 & Hctor2 & _ & Hfound2 & _).
  destruct (calls_layouts T between _ _ _ _ Hbetween) as [ext Hext].
  assert (Hstill : List.find (fun candidate =>
                      Storage.matches T candidate (Storage.info_layout T info2))
                     (Storage.layouts st2) = Some layout).
  { rewrite <- Hsame, Hext. apply find_app_Some. exact Hfirst1. }
  destruct (Hfound2 layout Hstill) as [-> Hsame_layouts].
  exists p1, p2, layout.
  split; [exact Hslot1 |]. split; [exact Hslot2 |].
  split; [exact (Hkeeps _ _ _ _ _ _ _ Hctor1) |].
  split; [exact (Hkeeps _ _ _ _ _ _ _ Hctor2) |].
  split; [exact Hsame_layouts |].
  destruct (List.find (fun candidate =>
              Storage.matches T candidate (Storage.info_layout T info1))
             (Storage.layouts st0)) as [existing|] eqn:Hold.
  - left. exact (proj2 (Hfound1 existing eq_refl)).
  - right. split; [exact (Hfresh1 eq_refl) | reflexivity].
Qed.

Section ComputeStorage.

Variable drv : Driver.

Lemma computeTraits_matches_new header b :
  Storage.matches (Scenarios.computeTraits drv)
    (Storage.newLayout (Scenarios.computeTraits drv) header b).1 header = true.
Proof. simpl. apply bool_decide_eq_true_2. reflexivity. Qed.

Lemma computeTraits_keeps_layout program cache layout info b p b' :
  Storage.newPipeline (Scenarios.computeTraits drv) program cache layout info b = Done (p, b') ->
  Storage.getLayout (Scenarios.computeTraits drv) b' p = Some layout.
Proof.
  simpl. intros H. apply bind_Done_inv in H as (w' & Hctor & H).
  injection H as <- <-. cbn [Scenarios.world].
  exact (ctor_layout Scenarios.cfg drv _ _ _ _ _ _ _ Hctor).
Qed.

End ComputeStorage.

Lemma equal_descriptions_share_layout_witness :
  exists st1 b1 st2 b2 st3 b3 layout,
    Storage.add (Scenarios.computeTraits Scenarios.goodDriver) Scenarios.emptyStorage
      {| get := 9 |} 0 (Scenarios.computeInfo [1; 2] true) Scenarios.emptyBackend = Done (st1, b1)
    /\ Storage.calls (Scenarios.computeTraits Scenarios.goodDriver)
         [Storage.CallAdd {| get := 1 |} 0 (Scenarios.computeInfo [3] false);
          Storage.CallTakeOut 2] st1 b1
       = Done (st2, b2)
    /\ Storage.add (Scenarios.computeTraits Scenarios.goodDriver) st2
         {| get := 13 |} 0 (Scenarios.computeInfo [1; 2] false) b2 = Done (st3, b3)
    /\ Storage.pipelines st3 = [Some 3%nat; None; None; Some 4%nat]
    /\ Storage.getLayout (Scenarios.computeTraits Scenarios.goodDriver) b1 1%nat = Some layout
    /\ Storage.getLayout (Scenarios.computeTraits Scenarios.goodDriver) b3 4%nat = Some layout
    /\ Compute.layoutAddr layout = 0%nat
    /\ length (Storage.layouts st3) = 2%nat.
Proof.
  destruct (Storage.add (Scenarios.computeTraits Scenarios.goodDriver) Scenarios.emptyStorage
              {| get := 9 |} 0 (Scenarios.computeInfo [1; 2] true) Scenarios.emptyBackend)
    as [[st1 b1]|f] eqn:Hadd1; [| vm_compute in Hadd1; discriminate].
  destruct (Storage.calls (Scenarios.computeTraits Scenarios.goodDriver)
              [Storage.CallAdd {| get := 1 |} 0 (Scenarios.computeInfo [3] false);
               Storage.CallTakeOut 2] st1 b1)
    as [[st2 b2]|f] eqn:Hcalls;
    [| vm_compute in Hadd1; injection Hadd1 as <- <-; vm_compute in Hcalls; discriminate].
  destruct (Storage.add (Scenarios.computeTraits Scenarios.goodDriver) st2
              {| get := 13 |} 0 (Scenarios.computeInfo [1; 2] false) b2)
    as [[st3 b3]|f] eqn:Hadd2;
    [| vm_compute in Hadd1; injection Hadd1 as <- <-;
       vm_compute in Hcalls; injection Hcalls as <- <-;
       vm_compute in Hadd2; discriminate].
  destruct (equal_descriptions_share_layout (Scenarios.computeTraits Scenarios.goodDriver)
              Scenarios.emptyStorage st1 st2 st3 Scenarios.emptyBackend b1 b2 b3
              {| get := 9 |} {| get := 13 |} 0 0
              (Scenarios.computeInfo [1; 2] true) (Scenarios.computeInfo [1; 2] false)
              [Storage.CallAdd {| get := 1 |} 0 (Scenarios.computeInfo [3] false);
               Storage.CallTakeOut 2]
              (computeTraits_matches_new Scenarios.goodDriver)
              (computeTraits_keeps_layout Scenarios.goodDriver)
              eq_refl Hadd1 Hcalls Hadd2)
    as (p1 & p2 & layout & Hslot1 & Hslot2 & Hlayout1 & Hlayout2 & _).
  exists st1, b1, st2, b2, st3, b3, layout.
  split; [reflexivity |]. split; [exact Hcalls |]. split; [exact Hadd2 |].
  vm_compute in Hadd1. injection Hadd1 as <- <-.
  vm_compute in Hcalls. injection Hcalls as <- <-.
  vm_compute in Hadd2. injection Hadd2 as <- <-.
  vm_compute in Hslot1. injection Hslot1 as <-.
  vm_compute in Hslot2. injection Hslot2 as <-.
  split; [reflexivity |]. split; [exact Hlayout1 |]. split; [exact Hlayout2 |].
  vm_compute in Hlayout1. injection Hlayout1 as <-. split; reflexivity.
Defined.

(** ** PipelineManager::visit *)

Section Visit.

Import Storage Manager.

Context {L P St : Type}.

Lemma processEntry_other (pt : ProgramType) (st : PipelineManagerStorage L P)
    program (f : P -> St -> St) (s : St) :
  checkID pt program = false -> processEntry pt st program f s = None.
Proof. intros H. unfold processEntry. rewrite H. reflexivity. Qed.

Lemma processEntry_invalid (pt : ProgramType) (st : PipelineManagerStorage L P)
    program (f : P -> St -> St) (s : St) :
  checkID pt program = true -> valid pt st program = false ->
  processEntry pt st program f s = Some (Done (false, s)).
Proof. intros Hid Hv. unfold processEntry. rewrite Hid, Hv. reflexivity. Qed.

Lemma processEntry_valid (pt : ProgramType) (st : PipelineManagerStorage L P)
    program (f : P -> St -> St) (s : St) :
  valid pt st program = true ->
  exists p, pipelines st !! Z.to_nat (getIndexFromID pt program) = Some (Some p)
    /\ processEntry pt st program f s = Some (Done (true, f p s)).
Proof.
  intros Hv. destruct (valid_get pt st program Hv) as (p & Hl & Hget).
  destruct (valid_true_inv pt st program Hv) as (_ & Hid & _).
  exists p. split; [exact Hl |].
  unfold processEntry. rewrite Hid, Hv, Hget. reflexivity.
Qed.

End Visit.

  (* Whatever the entry does, a counting visitor is advanced at most once,
     and exactly when the entry answers true. *)
Lemma processEntry_counts {L P : Type} (pt : ProgramType)
    (st : Storage.PipelineManagerStorage L P) program (r : outcome (bool * nat)) :
    Manager.processEntry pt st program (fun _ n => S n) 0%nat = Some r ->
    r = Done (false, 0%nat) \/ r = Done (true, 1%nat).
  Proof.
    destruct (checkID pt program) eqn:Hid;
      [| rewrite processEntry_other by exact Hid; discriminate].
    destruct (Storage.valid pt st program) eqn:Hv.
    - destruct (processEntry_valid pt st program (fun _ n => S n) 0%nat Hv)
        as (p & _ & ->).
      intros [= <-]. right. reflexivity.
    - rewrite processEntry_invalid by assumption. intros [= <-]. left. reflexivity.
  Qed.


(** C9.  [visit] invokes [func] at most once.  The storages are tried in
    the order graphics, compute, raytrace (the last only when ray tracing is
    compiled in) and the first whose ProgramType recognises the identifier
    decides: if none does, or if that storage's [valid] is false, the
    result is false and [func] is not invoked; otherwise [func] is invoked
    exactly once, on the pipeline stored in the identifier's slot, and the
    result is true.  [visit] never fails and, having read access only,
    leaves every storage as it is. *)
Theorem visit_dispatch {GL G CL C RL R S : Type} (cfg : Config) (pts : Manager.ProgramTypes)
    (m : Manager.PipelineManager GL G CL C RL R) (program : ProgramID)
    (func : Manager.Visitor G C R S) (s : S) :
  let isG := checkID (Manager.GraphicsProgram pts) program in
  let isC := checkID (Manager.ComputeProgram pts) program in
  let isR := D3D_HAS_RAY_TRACING cfg && checkID (Manager.RaytraceProgram pts) program in
  let slot {L P} (pt : ProgramType) (st : Storage.PipelineManagerStorage L P) :=
    Storage.pipelines st !! Z.to_nat (getIndexFromID pt program) in
  (* no storage owns the identifier *)
  (isG = false -> isC = false -> isR = false ->
   Manager.visit cfg pts m program func s = Done (false, s))
  (* the owning storage has no pipeline for it *)
  /\ (isG = true ->
      Storage.valid (Manager.GraphicsProgram pts) (Manager.graphics m) program = false ->
      Manager.visit cfg pts m program func s = Done (false, s))
  /\ (isG = false -> isC = true ->
      Storage.valid (Manager.ComputeProgram pts) (Manager.compute m) program = false ->
      Manager.visit cfg pts m program func s = Done (false, s))
  /\ (isG = false -> isC = false -> isR = true ->
      Storage.valid (Manager.RaytraceProgram pts) (Manager.raytrace m) program = false ->
      Manager.visit cfg pts m program func s = Done (false, s))
  (* the owning storage has one: func runs once, on it *)
  /\ (isG = true ->
      Storage.valid (Manager.GraphicsProgram pts) (Manager.graphics m) program = true ->
      exists p, slot (Manager.GraphicsProgram pts) (Manager.graphics m) = Some (Some p)
        /\ Manager.visit cfg pts m program func s
           = Done (true, Manager.onVariatedGraphics func p s))
  /\ (isG = false -> isC = true ->
      Storage.valid (Manager.ComputeProgram pts) (Manager.compute m) program = true ->
      exists p, slot (Manager.ComputeProgram pts) (Manager.compute m) = Some (Some p)
        /\ Manager.visit cfg pts m program func s = Done (true, Manager.onCompute func p s))
  /\ (isG = false -> isC = false -> isR = true ->
      Storage.valid (Manager.RaytraceProgram pts) (Manager.raytrace m) program = true ->
      exists p, slot (Manager.RaytraceProgram pts) (Manager.raytrace m) = Some (Some p)
        /\ Manager.visit cfg pts m program func s = Done (true, Manager.onRaytrace func p s))
  (* counted: never more than one invocation, and one exactly when true *)
  /\ (Manager.visit cfg pts m program ManagerSpec.callCounter 0%nat = Done (false, 0%nat)
      \/ Manager.visit cfg pts m program ManagerSpec.callCounter 0%nat = Done (true, 1%nat)).
Proof.
  intros isG isC isR slot. unfold Manager.visit.
  repeat split.
  - intros HG HC HR. rewrite !processEntry_other by assumption.
    subst isR. destruct (D3D_HAS_RAY_TRACING cfg); [| reflexivity].
    simpl in HR. rewrite processEntry_other by exact HR. reflexivity.
  - intros HG Hv. rewrite processEntry_invalid by assumption. reflexivity.
  - intros HG HC Hv. rewrite processEntry_other by exact HG.
    rewrite processEntry_invalid by assumption. reflexivity.
  - intros HG HC HR Hv. rewrite !processEntry_other by assumption.
    subst isR. apply andb_prop in HR as [-> HR].
    rewrite processEntry_invalid by assumption. reflexivity.
  - intros HG Hv.
    destruct (processEntry_valid _ _ _ (Manager.onVariatedGraphics func) s Hv) as (p & Hl & ->).
    exists p. split; [exact Hl | reflexivity].
  - intros HG HC Hv. rewrite processEntry_other by exact HG.
    destruct (processEntry_valid _ _ _ (Manager.onCompute func) s Hv) as (p & Hl & ->).
    exists p. split; [exact Hl | reflexivity].
  - intros HG HC HR Hv. rewrite !processEntry_other by assumption.
    subst isR. apply andb_prop in HR as [-> HR].
    destruct (processEntry_valid _ _ _ (Manager.onRaytrace func) s Hv) as (p & Hl & ->).
    exists p. split; [exact Hl | reflexivity].
  - unfold ManagerSpec.callCounter. cbn [Manager.onVariatedGraphics Manager.onCompute
                                         Manager.onRaytrace].
    destruct (Manager.processEntry (Manager.GraphicsProgram pts) _ _ _ _) as [r|] eqn:HG;
      [exact (processEntry_counts _ _ _ _ HG) |].
    destruct (Manager.processEntry (Manager.ComputeProgram pts) _ _ _ _) as [r|] eqn:HC;
      [exact (processEntry_counts _ _ _ _ HC) |].
    destruct (D3D_HAS_RAY_TRACING cfg); [| left; reflexivity].
    destruct (Manager.processEntry (Manager.RaytraceProgram pts) _ _ _ _) as [r|] eqn:HR;
      [exact (processEntry_counts _ _ _ _ HR) | left; reflexivity].
Qed.

Lemma visit_dispatch_witness :
  Manager.visit Scenarios.cfg Scenarios.programTypes Scenarios.someManager {| get := 9 |}
    Scenarios.recorder []
  = Done (true, [("compute"%string, 41%nat)])
  /\ Manager.visit Scenarios.cfg Scenarios.programTypes Scenarios.someManager {| get := 5 |}
       Scenarios.recorder []
     = Done (false, [])
  /\ Manager.visit Scenarios.cfg Scenarios.programTypes Scenarios.someManager {| get := 3 |}
       Scenarios.recorder []
     = Done (false, []).
Proof.
  pose proof (visit_dispatch Scenarios.cfg Scenarios.programTypes Scenarios.someManager
                {| get := 9 |} Scenarios.recorder [])
    as (_ & _ & _ & _ & _ & Hvalid & _).
  pose proof (visit_dispatch Scenarios.cfg Scenarios.programTypes Scenarios.someManager
                {| get := 5 |} Scenarios.recorder [])
    as (_ & _ & Hinvalid & _).
  pose proof (visit_dispatch Scenarios.cfg Scenarios.programTypes Scenarios.someManager
                {| get := 3 |} Scenarios.recorder [])
    as (Hnone & _).
  split; [| split].
  - destruct (Hvalid eq_refl eq_refl eq_refl) as (p & Hslot & ->).
    vm_compute in Hslot. injection Hslot as <-. reflexivity.
  - exact (Hinvalid eq_refl eq_refl eq_refl).
  - exact (Hnone eq_refl eq_refl eq_refl).
Defined.

(** * Further properties of the two files *)

(** ** Compute pipeline: compilation outcomes, binding, cleanup *)

Section ComputeMore.

Import Compute ComputeSpec.

Variables (cfg : Config) (drv : Driver).

Lemma compile_cases this w self csd result h :
  pipes w !! this = Some self ->
  compileScratch self = Some csd ->
  vkCreateComputePipelines drv (vkCache csd) (vkModule csd) (layoutHandle (layout self))
  = (result, h) ->
  (result < 0 -> compile cfg drv this w = Fatal (ExitOnFail result))
  /\ (0 <= result -> h = Vk.VK_NULL_HANDLE ->
      compile cfg drv this w = Fatal (ExitOnFail Vk.VK_ERROR_UNKNOWN))
  /\ (0 <= result -> h <> Vk.VK_NULL_HANDLE ->
      exists w', compile cfg drv this w = Done w'
        /\ pipes w' = <[this := {| layout := layout self; handle := h;
                                   compileScratch := None |}]> (pipes w)
        /\ pipelineCompiler w' = pipelineCompiler w
        /\ exists logged,
             trace w' = trace w
               ++ [EvCreateComputePipelines (vkCache csd) (vkModule csd)
                     (layoutHandle (layout self))]
               ++ logged
               ++ [EvDestroyShaderModule (vkModule csd)]
               ++ (if allocated csd then [EvDeleteScratch] else [])
             /\ Forall (fun e => exists msg args, e = EvDebug msg args) logged).
Proof.
  intros Hself Hcsd Hnative.
  unfold compile, deref. rewrite Hself. simpl. rewrite Hcsd, Hnative.
  unfold Vk.VULKAN_EXIT_ON_FAIL, Vk.VULKAN_FAIL, Vk.VULKAN_OK, Vk.is_null.
  split; [| split].
  - intros Hneg. destruct (Z.leb_spec 0 result); [lia |].
    rewrite andb_false_r. destruct (Z.ltb_spec result 0); [reflexivity | lia].
  - intros Hok ->. destruct (Z.leb_spec 0 result); [| lia]. reflexivity.
  - intros Hok Hh. destruct (Z.eqb_spec h Vk.VK_NULL_HANDLE); [contradiction |].
    simpl. destruct (Z.ltb_spec result 0); [lia |]. simpl.
    eexists. split; [reflexivity |]. cbn [pipes pipelineCompiler trace].
    split; [reflexivity |]. split; [reflexivity |].
    eexists. split; [reflexivity |].
    case_match; repeat constructor; eauto.
Qed.


Lemma bind_keeps_consistent this cmd w self :
  consistent w -> pipes w !! this = Some self ->
  forall w', bind cfg drv this cmd w = Done w' ->
  consistent w'
  /\ (this ∉ pipelineCompiler w')
  /\ exists self' h,
       pipes w' !! this = Some self' /\ handle self' = h /\ h <> Vk.VK_NULL_HANDLE
       /\ exists before,
            trace w' = trace w ++ before
                       ++ [EvCmdBindPipeline cmd Vk.VK_PIPELINE_BIND_POINT_COMPUTE h].
Proof.
  intros Hw Hself w'. unfold bind, deref. rewrite Hself. simpl.
  assert (Hnotq : forall w1 p, consistent w1 -> pipes w1 !! this = Some p ->
                    handle p <> Vk.VK_NULL_HANDLE -> this ∉ pipelineCompiler w1).
  { intros w1 p Hw1 Hp Hh Hin.
    destruct (queue_pending w1 Hw1 this Hin) as (p' & c & Hp' & Hn & _). congruence. }
  destruct (checkCompiled self) eqn:Hcompiled; simpl.
  - rewrite Hself. simpl. intros [= <-].
    assert (Hh : handle self <> Vk.VK_NULL_HANDLE).
    { intros Hn. apply pending_handle in Hn. unfold pendingCompilation in Hn.
      rewrite Hcompiled in Hn. discriminate. }
    split; [apply consistent_trace; exact Hw |].
    cbn [pipes pipelineCompiler trace].
    split; [exact (Hnotq w self Hw Hself Hh) |].
    exists self, (handle self). repeat split; try assumption.
    exists []. reflexivity.
  - unfold waitFor.
    set (w0 := {| pipes := pipes w; pipelineCompiler := pipelineCompiler w;
                  trace := trace w ++ [EvWaitFor this] |}).
    destruct (waitLoop_compiles cfg drv this (pipelineCompiler w) w0)
      as [(r & Hl & Hr) | (w1 & evs & Hl & Hw1 & (p & Hp & Hh) & Htr & Hev)].
    + apply consistent_trace. exact Hw.
    + reflexivity.
    + exists self. exact Hself.
    + rewrite Hl. discriminate.
    + rewrite Hl. simpl. rewrite Hp. simpl. intros [= <-].
      split; [apply consistent_trace; exact Hw1 |].
      cbn [pipes pipelineCompiler trace].
      split; [exact (Hnotq w1 p Hw1 Hp Hh) |].
      exists p, (handle p). repeat split; try assumption.
      exists (EvWaitFor this :: evs). rewrite Htr. subst w0. cbn [trace].
      rewrite <- !app_assoc. reflexivity.
Qed.

End ComputeMore.

(** X1.  [ComputePipeline::compile] has three outcomes, decided by what the
    native creation call answers: a failing result code exits fatally with
    that code; a successful code with a null handle exits fatally with
    VK_ERROR_UNKNOWN; a successful code with a handle stores the handle,
    drops the scratch, leaves every other pipeline and the compiler queue
    alone and destroys the shader module after the one creation call. *)
Theorem compute_compile_outcomes (cfg : Config) (drv : Driver) (this : nat)
    (w : Compute.World) (self : Compute.ComputePipeline)
    (csd : Compute.ComputePipelineCompileScratchData) (result h : Z) :
  Compute.pipes w !! this = Some self ->
  Compute.compileScratch self = Some csd ->
  vkCreateComputePipelines drv (Compute.vkCache csd) (Compute.vkModule csd)
    (Compute.layoutHandle (Compute.layout self)) = (result, h) ->
  (result < 0 -> Compute.compile cfg drv this w = Fatal (ExitOnFail result))
  /\ (0 <= result -> h = Vk.VK_NULL_HANDLE ->
      Compute.compile cfg drv this w = Fatal (ExitOnFail Vk.VK_ERROR_UNKNOWN))
  /\ (0 <= result -> h <> Vk.VK_NULL_HANDLE ->
      exists w', Compute.compile cfg drv this w = Done w'
        /\ Compute.pipes w'
           = <[this := {| Compute.layout := Compute.layout self; Compute.handle := h;
                          Compute.compileScratch := None |}]> (Compute.pipes w)
        /\ Compute.pipelineCompiler w' = Compute.pipelineCompiler w
        /\ exists logged,
             Compute.trace w' = Compute.trace w
               ++ [EvCreateComputePipelines (Compute.vkCache csd) (Compute.vkModule csd)
                     (Compute.layoutHandle (Compute.layout self))]
               ++ logged
               ++ [EvDestroyShaderModule (Compute.vkModule csd)]
               ++ (if Compute.allocated csd then [EvDeleteScratch] else [])
             /\ Forall (fun e => exists msg args, e = EvDebug msg args) logged).
Proof. exact (compile_cases cfg drv this w self csd result h). Qed.

Lemma compute_compile_outcomes_witness :
  Compute.compile Scenarios.cfg Scenarios.nullDriver 4
    {| Compute.pipes :=
         {[ 4%nat := {| Compute.layout := {| Compute.layoutAddr := 0; Compute.layoutHeader := [];
                                            Compute.layoutHandle := 1000 |};
                        Compute.handle := Vk.VK_NULL_HANDLE;
                        Compute.compileScratch :=
                          Some {| Compute.allocated := true; Compute.vkModule := 300;
                                  Compute.vkLayout := 1000; Compute.vkCache := 0;
                                  Compute.progIdx := 1 |} |} ]};
       Compute.pipelineCompiler := [4%nat];
       Compute.trace := [] |}
  = Fatal (ExitOnFail Vk.VK_ERROR_UNKNOWN).
Proof.
  refine (proj1 (proj2 (compute_compile_outcomes Scenarios.cfg Scenarios.nullDriver 4 _ _ _
                          Vk.VK_SUCCESS Vk.VK_NULL_HANDLE _ _ _)) _ _).
  - apply lookup_singleton_eq.
  - reflexivity.
  - reflexivity.
  - vm_compute. discriminate.
  - reflexivity.
Defined.

(** X2.  A compute pipeline constructed with asynchronous compilation
    disabled is compiled when the constructor returns: it holds a non-null
    handle and no scratch, nothing was queued for the background compiler,
    and [bind] issues the native bind of that handle at once, without
    waiting. *)
Theorem sync_construction_is_compiled (cfg : Config) (drv : Driver) (this : nat)
    (prog : ProgramID) (cache : Z) (l : Compute.ComputePipelineLayout)
    (info : Compute.CreationInfo) (w w' : Compute.World) (cmd : Z) :
  Compute.allowAsyncCompile info = false ->
  Compute.ctor cfg drv this prog cache l info w = Done w' ->
  exists h,
    h <> Vk.VK_NULL_HANDLE
    /\ Compute.pipes w' !! this
       = Some {| Compute.layout := l; Compute.handle := h; Compute.compileScratch := None |}
    /\ Compute.pipelineCompiler w' = Compute.pipelineCompiler w
    /\ Compute.bind cfg drv this cmd w'
       = Done {| Compute.pipes := Compute.pipes w';
                 Compute.pipelineCompiler := Compute.pipelineCompiler w';
                 Compute.trace := Compute.trace w'
                   ++ [EvCmdBindPipeline cmd Vk.VK_PIPELINE_BIND_POINT_COMPUTE h] |}.
Proof.
  intros Hsync Hctor. unfold Compute.ctor in Hctor. rewrite Hsync in Hctor.
  apply compile_Done_inv in Hctor
    as (self & csd & h & evs & Hself & _ & Hh & Hpipes & Hqueue & _ & _).
  cbn [Compute.pipes Compute.pipelineCompiler] in *.
  rewrite lookup_insert_eq in Hself. injection Hself as <-. cbn [Compute.layout] in Hpipes.
  exists h. split; [exact Hh |].
  assert (Hthis : Compute.pipes w' !! this
                  = Some {| Compute.layout := l; Compute.handle := h;
                            Compute.compileScratch := None |})
    by (rewrite Hpipes; apply lookup_insert_eq).
  split; [exact Hthis |]. split; [exact Hqueue |].
  unfold Compute.bind, Compute.deref. rewrite Hthis. simpl.
  unfold Compute.checkCompiled, Compute.getCompiledHandle, Vk.is_null. cbn [Compute.handle].
  destruct (Z.eqb_spec h Vk.VK_NULL_HANDLE); [contradiction |]. simpl.
  rewrite Hthis. reflexivity.
Qed.

Lemma sync_construction_is_compiled_witness :
  exists w',
    Compute.ctor Scenarios.cfg Scenarios.goodDriver 0 {| get := 1 |} 0
      {| Compute.layoutAddr := 9; Compute.layoutHeader := [1; 2]; Compute.layoutHandle := 1009 |}
      (Scenarios.computeInfo [1; 2] false) (Scenarios.world Scenarios.emptyBackend) = Done w'
    /\ Compute.handle <$> Compute.pipes w' !! 0%nat = Some 77
    /\ Compute.pipelineCompiler w' = [].
Proof.
  destruct (Compute.ctor Scenarios.cfg Scenarios.goodDriver 0 {| get := 1 |} 0
              {| Compute.layoutAddr := 9; Compute.layoutHeader := [1; 2];
                 Compute.layoutHandle := 1009 |}
              (Scenarios.computeInfo [1; 2] false) (Scenarios.world Scenarios.emptyBackend))
    as [w'|f] eqn:Hctor; [| vm_compute in Hctor; discriminate].
  destruct (sync_construction_is_compiled Scenarios.cfg Scenarios.goodDriver 0 {| get := 1 |} 0
              {| Compute.layoutAddr := 9; Compute.layoutHeader := [1; 2];
                 Compute.layoutHandle := 1009 |}
              (Scenarios.computeInfo [1; 2] false) (Scenarios.world Scenarios.emptyBackend)
              w' 5 eq_refl Hctor)
    as (h & _ & Hthis & Hqueue & _).
  exists w'. split; [reflexivity |].
  vm_compute in Hctor. injection Hctor as <-.
  split; [reflexivity | exact Hqueue].
Defined.

(** X3.  In a world where the compiler queue and the pipelines agree, a
    [bind] that returns leaves them in agreement, with the bound pipeline
    compiled and no longer queued; a second [bind] of the same pipeline then
    binds the same handle at once, with no wait and no compilation. *)
Theorem second_bind_binds_at_once (cfg : Config) (drv : Driver) (this : nat)
    (cmd1 cmd2 : Z) (w w1 : Compute.World) (self : Compute.ComputePipeline) :
  ComputeSpec.consistent w ->
  Compute.pipes w !! this = Some self ->
  Compute.bind cfg drv this cmd1 w = Done w1 ->
  ComputeSpec.consistent w1
  /\ (this ∉ Compute.pipelineCompiler w1)
  /\ exists h before,
       h <> Vk.VK_NULL_HANDLE
       /\ Compute.trace w1 = Compute.trace w ++ before
            ++ [EvCmdBindPipeline cmd1 Vk.VK_PIPELINE_BIND_POINT_COMPUTE h]
       /\ Compute.bind cfg drv this cmd2 w1
          = Done {| Compute.pipes := Compute.pipes w1;
                    Compute.pipelineCompiler := Compute.pipelineCompiler w1;
                    Compute.trace := Compute.trace w1
                      ++ [EvCmdBindPipeline cmd2 Vk.VK_PIPELINE_BIND_POINT_COMPUTE h] |}.
Proof.
  intros Hw Hself Hbind.
  destruct (bind_keeps_consistent cfg drv this cmd1 w self Hw Hself w1 Hbind)
    as (Hw1 & Hnotin & self' & h & Hself' & Hhandle & Hh & before & Htrace).
  split; [exact Hw1 |]. split; [exact Hnotin |].
  exists h, before. split; [exact Hh |]. split; [exact Htrace |].
  unfold Compute.bind, Compute.deref. rewrite Hself'. simpl.
  unfold Compute.checkCompiled, Compute.getCompiledHandle, Vk.is_null, Compute.getHandle.
  rewrite Hhandle. destruct (Z.eqb_spec h Vk.VK_NULL_HANDLE); [contradiction |]. simpl.
  rewrite Hself'. simpl. rewrite Hhandle. reflexivity.
Qed.

Lemma second_bind_binds_at_once_witness :
  exists w0 w1 w2,
    Compute.ctor Scenarios.cfg Scenarios.goodDriver 0 {| get := 1 |} 0
      {| Compute.layoutAddr := 9; Compute.layoutHeader := [1; 2]; Compute.layoutHandle := 1009 |}
      (Scenarios.computeInfo [1; 2] true) (Scenarios.world Scenarios.emptyBackend) = Done w0
    /\ Compute.bind Scenarios.cfg Scenarios.goodDriver 0 5 w0 = Done w1
    /\ Compute.bind Scenarios.cfg Scenarios.goodDriver 0 6 w1 = Done w2
    /\ Compute.trace w2
       = Compute.trace w1 ++ [EvCmdBindPipeline 6 Vk.VK_PIPELINE_BIND_POINT_COMPUTE 77].
Proof.
  destruct (Compute.ctor Scenarios.cfg Scenarios.goodDriver 0 {| get := 1 |} 0
              {| Compute.layoutAddr := 9; Compute.layoutHeader := [1; 2];
                 Compute.layoutHandle := 1009 |}
              (Scenarios.computeInfo [1; 2] true) (Scenarios.world Scenarios.emptyBackend))
    as [w0|f] eqn:Hctor; [| vm_compute in Hctor; discriminate].
  destruct (Compute.bind Scenarios.cfg Scenarios.goodDriver 0 5 w0) as [w1|f] eqn:Hbind;
    [| vm_compute in Hctor; injection Hctor as <-; vm_compute in Hbind; discriminate].
  destruct (ctor_consistent Scenarios.cfg Scenarios.goodDriver _ _ _ _ _ _ _
              (consistent_empty []) eq_refl Hctor) as [Hw0 (p & Hp & _)].
  destruct (second_bind_binds_at_once Scenarios.cfg Scenarios.goodDriver 0 5 6 w0 w1 p
              Hw0 Hp Hbind) as (_ & _ & h & before & _ & Htrace & Hsecond).
  exists w0, w1. eexists. split; [reflexivity |]. split; [exact Hbind |].
  split; [exact Hsecond |]. cbn [Compute.trace]. do 3 f_equal.
  rewrite app_assoc in Htrace. apply (f_equal last) in Htrace. rewrite last_snoc in Htrace.
  vm_compute in Hctor. injection Hctor as <-.
  vm_compute in Hbind. injection Hbind as <-.
  vm_compute in Htrace. injection Htrace as <-. reflexivity.
Defined.

Section CleanupFacts.

Import Compute ComputeSpec.

Lemma delete_consistent this w p :
  consistent w -> pipes w !! this = Some p -> handle p <> Vk.VK_NULL_HANDLE ->
  consistent {| pipes := delete this (pipes w); pipelineCompiler := pipelineCompiler w;
                trace := trace w |}
  /\ (this ∉ pipelineCompiler w).
Proof.
  intros Hw Hp Hh.
  assert (Hnotin : this ∉ pipelineCompiler w).
  { intros Hin. destruct (queue_pending w Hw this Hin) as (p' & c & Hp' & Hn & _). congruence. }
  split; [| exact Hnotin].
  destruct Hw as [Hnd Hq Hpq]. split; cbn [pipes pipelineCompiler].
  - exact Hnd.
  - intros a Ha. destruct (Hq a Ha) as (q & c & Hqa & Hqn & Hqc).
    exists q, c. cbn [pipes]. rewrite lookup_delete_ne by (intros ->; contradiction). auto.
  - intros a q Ha Hn. destruct (decide (a = this)) as [->|Hne].
    + rewrite lookup_delete_eq in Ha. discriminate.
    + rewrite lookup_delete_ne in Ha by congruence. eapply Hpq; eassumption.
Qed.

End CleanupFacts.

(** X4.  The delayed destruction of a compute pipeline never deletes a
    pipeline whose compilation is still pending: when the pipeline is
    compiled it is shut down and deleted as it is, without any wait;
    when it is pending the function first waits for its compilation, so
    that either a compilation it waited for exits fatally, or the object
    handed to [shutdown] holds a non-null handle.  After the deletion the
    address is gone from the pipelines and is not in the compiler queue,
    which still agrees with the remaining pipelines. *)
Theorem cleanup_waits_for_pending_compilation (cfg : Config) (drv : Driver) (this : nat)
    (w : Compute.World) (self : Compute.ComputePipeline) :
  ComputeSpec.consistent w ->
  Compute.pipes w !! this = Some self ->
  (exists r, ComputeCleanup.onDelayedCleanupFinish cfg drv this w = Fatal (ExitOnFail r)
             /\ Vk.VULKAN_FAIL r = true
             /\ Compute.handle self = Vk.VK_NULL_HANDLE)
  \/ (exists self1 w',
        ComputeCleanup.onDelayedCleanupFinish cfg drv this w = Done (self1, w')
        /\ Compute.handle self1 <> Vk.VK_NULL_HANDLE
        /\ Compute.pipes w' !! this = None
        /\ (this ∉ Compute.pipelineCompiler w')
        /\ ComputeSpec.consistent w'
        /\ (Compute.handle self <> Vk.VK_NULL_HANDLE ->
            self1 = self /\ Compute.trace w' = Compute.trace w
            /\ Compute.pipelineCompiler w' = Compute.pipelineCompiler w)
        /\ (Compute.handle self = Vk.VK_NULL_HANDLE ->
            exists rest, Compute.trace w' = Compute.trace w ++ EvWaitFor this :: rest)).
Proof.
  intros Hw Hself.
  unfold ComputeCleanup.onDelayedCleanupFinish, Compute.deref. rewrite Hself. simpl.
  destruct (Compute.checkCompiled self) eqn:Hcompiled; simpl.
  - right. rewrite Hself. simpl.
    assert (Hh : Compute.handle self <> Vk.VK_NULL_HANDLE).
    { intros Hn. apply pending_handle in Hn. unfold Compute.pendingCompilation in Hn.
      rewrite Hcompiled in Hn. discriminate. }
    destruct (delete_consistent this w self Hw Hself Hh) as [Hw' Hnotin].
    eexists. eexists. split; [reflexivity |]. split; [exact Hh |].
    cbn [Compute.pipes Compute.pipelineCompiler Compute.trace].
    split; [apply lookup_delete_eq |]. split; [exact Hnotin |]. split; [exact Hw' |].
    split; [auto | intros; contradiction].
  - assert (Hn : Compute.handle self = Vk.VK_NULL_HANDLE).
    { apply pending_handle. unfold Compute.pendingCompilation. rewrite Hcompiled. reflexivity. }
    unfold Compute.waitFor.
    set (w0 := {| Compute.pipes := Compute.pipes w;
                  Compute.pipelineCompiler := Compute.pipelineCompiler w;
                  Compute.trace := Compute.trace w ++ [EvWaitFor this] |}).
    destruct (waitLoop_compiles cfg drv this (Compute.pipelineCompiler w) w0)
      as [(r & Hl & Hr) | (w1 & evs & Hl & Hw1 & (p & Hp & Hh) & Htr & _)].
    + apply consistent_trace. exact Hw.
    + reflexivity.
    + exists self. exact Hself.
    + left. exists r. rewrite Hl. auto.
    + right. rewrite Hl. simpl. rewrite Hp. simpl.
      destruct (delete_consistent this w1 p Hw1 Hp Hh) as [Hw' Hnotin].
      eexists. eexists. split; [reflexivity |]. split; [exact Hh |].
      cbn [Compute.pipes Compute.pipelineCompiler Compute.trace].
      split; [apply lookup_delete_eq |]. split; [exact Hnotin |]. split; [exact Hw' |].
      split; [intros; contradiction |].
      intros _. exists evs. rewrite Htr. subst w0. cbn [Compute.trace].
      rewrite <- app_assoc. reflexivity.
Qed.

Lemma cleanup_waits_for_pending_compilation_witness :
  exists w0 self1 w',
    Compute.ctor Scenarios.cfg Scenarios.goodDriver 0 {| get := 1 |} 0
      {| Compute.layoutAddr := 9; Compute.layoutHeader := [1; 2]; Compute.layoutHandle := 1009 |}
      (Scenarios.computeInfo [1; 2] true) (Scenarios.world Scenarios.emptyBackend) = Done w0
    /\ ComputeCleanup.onDelayedCleanupFinish Scenarios.cfg Scenarios.goodDriver 0 w0
       = Done (self1, w')
    /\ Compute.handle self1 = 77
    /\ Compute.pipes w' !! 0%nat = None
    /\ Compute.pipelineCompiler w' = [].
Proof.
  destruct (Compute.ctor Scenarios.cfg Scenarios.goodDriver 0 {| get := 1 |} 0
              {| Compute.layoutAddr := 9; Compute.layoutHeader := [1; 2];
                 Compute.layoutHandle := 1009 |}
              (Scenarios.computeInfo [1; 2] true) (Scenarios.world Scenarios.emptyBackend))
    as [w0|f] eqn:Hctor; [| vm_compute in Hctor; discriminate].
  destruct (ctor_consistent Scenarios.cfg Scenarios.goodDriver _ _ _ _ _ _ _
              (consistent_empty []) eq_refl Hctor) as [Hw0 (p & Hp & _)].
  destruct (cleanup_waits_for_pending_compilation Scenarios.cfg Scenarios.goodDriver 0 w0 p
              Hw0 Hp)
    as [(r & Hfatal & _) | (self1 & w' & Hdone & _ & Hgone & _)].
  - vm_compute in Hctor. injection Hctor as <-. vm_compute in Hfatal. discriminate.
  - exists w0, self1, w'. split; [reflexivity |]. split; [exact Hdone |].
    vm_compute in Hctor. injection Hctor as <-.
    vm_compute in Hdone. injection Hdone as <- <-.
    split; [reflexivity |]. split; [exact Hgone | reflexivity].
Defined.

(** ** Graphics pipeline: what the constructor leaves in the scratch *)

Section AttachmentFacts.

Import Graphics GraphicsSpec.

Variable cfg : Config.

Lemma land_bit0_clear (sw rp : Z) :
  Z.testbit sw 0 = false -> Z.land (Z.land sw rp) 1 = 0.
Proof.
  intros Hbit. change 1 with (Z.ones 1). rewrite Z.land_ones by lia.
  change (2 ^ 1) with 2. rewrite <- Z.bit0_mod, Z.land_spec, Hbit. reflexivity.
Qed.

Lemma land_rgba_range (x : Z) :
  0 <= Z.land x Vk.VK_COLOR_COMPONENT_RGBA_BIT <= 15.
Proof.
  change Vk.VK_COLOR_COMPONENT_RGBA_BIT with (Z.ones 4). rewrite Z.land_ones by lia.
  pose proof (Z.mod_pos_bound x (2 ^ 4) ltac:(lia)). change (2 ^ 4) with 16 in *. lia.
Qed.

Lemma attachmentState_writeMask info i a sw rp :
  (Z.testbit sw 0 = false -> Vk.colorWriteMask (attachmentState cfg info i a sw rp) = 0)
  /\ 0 <= Vk.colorWriteMask (attachmentState cfg info i a sw rp) <= 15.
Proof.
  unfold attachmentState. cbn [Vk.colorWriteMask]. split.
  - intros Hbit. rewrite (land_bit0_clear sw rp Hbit). reflexivity.
  - destruct (negb _); [apply land_rgba_range | lia].
Qed.

Lemma fillAttachments_slots info n : forall i rp sw cnt states cnt' states',
  fillAttachments cfg info n i rp sw cnt states = (cnt', states') ->
  (cnt <= cnt' <= cnt + n)%nat
  /\ length states' = length states
  /\ (forall a, (a < cnt \/ cnt' <= a)%nat -> states' !! a = states !! a)
  /\ (forall a, (cnt <= a < cnt')%nat -> (a < length states)%nat ->
      exists st, states' !! a = Some st
        /\ (Z.testbit sw (Z.of_nat (a - cnt)) = false -> Vk.colorWriteMask st = 0)
        /\ 0 <= Vk.colorWriteMask st <= 15).
Proof.
  induction n as [|n IH]; intros i rp sw cnt states cnt' states' H; cbn [fillAttachments] in H.
  - injection H as <- <-. split; [lia |]. split; [reflexivity |].
    split; [reflexivity | intros a Ha; lia].
  - destruct (rp =? 0).
    { injection H as <- <-. split; [lia |]. split; [reflexivity |].
      split; [reflexivity | intros a Ha; lia]. }
    destruct (isResolveAttachment info i).
    + destruct (IH _ _ _ _ _ _ _ H) as (Hc & Hl & Hframe & Hnew).
      split; [lia |]. split; [exact Hl |]. split; [exact Hframe | exact Hnew].
    + destruct (IH _ _ _ _ _ _ _ H) as (Hc & Hl & Hframe & Hnew).
      rewrite length_insert in Hl.
      split; [lia |]. split; [exact Hl |]. split.
      * intros a Ha. rewrite Hframe by lia. apply list_lookup_insert_ne. lia.
      * intros a Ha Hlen. destruct (decide (a = cnt)) as [->|Hne].
        -- rewrite Hframe by lia. rewrite list_lookup_insert_eq by exact Hlen.
           eexists. split; [reflexivity |]. rewrite Nat.sub_diag.
           apply attachmentState_writeMask.
        -- destruct (Hnew a ltac:(lia) ltac:(rewrite length_insert; exact Hlen))
             as (st & Hst & Hzero & Hrange).
           exists st. split; [exact Hst |]. split; [| exact Hrange].
           intros Hbit. apply Hzero. rewrite Z.shiftr_spec by lia.
           replace (Z.of_nat (a - S cnt) + 1) with (Z.of_nat (a - cnt)) by lia. exact Hbit.
Qed.

Lemma keptSlots_le info i k : (keptSlots info i k <= k)%nat.
Proof. pose proof (kept_plus_resolve info i k). lia. Qed.

(* Everything the constructor leaves in the scratch. *)
Lemma ctor_Done_scratch cache l info p evs :
  ctor cfg cache l info = Done (p, evs) ->
  exists csd samples,
    compileScratch p = Some csd
    /\ layout p = l
    /\ handle p = Vk.VK_NULL_HANDLE
    /\ evs = match info_nativeRP info with
             | Some r => [EvAddPipelineCompileRef (rpId r)]
             | None => []
             end
    /\ chosenSamples cfg info = Done samples
    /\ (RenderState.alphaToCoverage (info_staticState info) = true ->
        Z.land samples Vk.VK_SAMPLE_COUNT_1_BIT = 0)
    /\ multisample csd
       = {| Vk.rasterizationSamples := samples; Vk.sampleShadingEnable := false;
            Vk.alphaToCoverageEnable := RenderState.alphaToCoverage (info_staticState info);
            Vk.alphaToOneEnable := false |}
    /\ vkCache csd = cache
    /\ nativeRP csd = info_nativeRP info
    /\ allocated csd = allocated (info_scratch info)
    /\ (progIdx csd, varIdx csd, varTotal csd)
       = (progIdx (info_scratch info), varIdx (info_scratch info), varTotal (info_scratch info))
    /\ (Vk.attachmentCount (colorBlendState csd), attachmentStates csd)
       = colorAttachments cfg l info (rpColorTargetMask (resolvePass info))
           (attachmentStates (info_scratch info))
    /\ depthStencil csd
       = (if negb (hasDepth (resolvePass info))
          then depthStencilWithoutDepth
                 (depthStencilState info (forceNoZWrite (resolvePass info)))
          else depthStencilState info (forceNoZWrite (resolvePass info)))
    /\ raster csd
       = (if negb (hasDepth (resolvePass info))
          then rasterWithoutDepth
                 (rasterState cfg info (Vk.cullMode (raster (info_scratch info))))
          else rasterState cfg info (Vk.cullMode (raster (info_scratch info)))).
Proof.
  unfold ctor. intros H.
  apply bind_Done_inv in H as (samples & Hs & H).
  apply bind_Done_inv in H as ([] & Ha & H).
  destruct (colorAttachments _ _ _ _ _) as [cnt states] eqn:Hc.
  injection H as <- <-.
  eexists; exists samples. split; [reflexivity |]. cbn.
  split; [reflexivity |]. split; [reflexivity |]. split; [reflexivity |].
  split; [exact Hs |].
  split.
  { intros Ha2c. rewrite Ha2c in Ha. unfold G_ASSERT in Ha. simpl in Ha.
    destruct (Z.eqb_spec (Z.land samples Vk.VK_SAMPLE_COUNT_1_BIT) 0); [assumption | discriminate]. }
  repeat split; reflexivity.
Qed.

End AttachmentFacts.

(** X5.  The blend attachments the constructor writes never enable a
    colour write for an output the fragment shader does not have: in
    attachment slot [a] the colour write mask is 0 whenever bit [a] of the
    shader's 8-bit output mask is clear, and is never more than the four
    RGBA bits.  (The scratch array is assumed to have room for MAX_SIMRT
    states.) *)
Theorem attachment_write_mask_needs_shader_output (cfg : Config) (cache : Z)
    (l : Graphics.GraphicsPipelineLayout) (info : Graphics.GraphicsPipelineCreationInfo)
    (p : Graphics.GraphicsPipeline) (evs : list Event)
    (csd : Graphics.GraphicsPipelineCompileScratchData) (a : nat) :
  (MAX_SIMRT cfg <= length (Graphics.attachmentStates (Graphics.info_scratch info)))%nat ->
  Graphics.ctor cfg cache l info = Done (p, evs) ->
  Graphics.compileScratch p = Some csd ->
  (a < Vk.attachmentCount (Graphics.colorBlendState csd))%nat ->
  exists st,
    Graphics.attachmentStates csd !! a = Some st
    /\ (Z.testbit (Graphics.uint8 (Graphics.fsOutputMask l)) (Z.of_nat a) = false ->
        Vk.colorWriteMask st = 0)
    /\ 0 <= Vk.colorWriteMask st <= 15.
Proof.
  intros Hroom Hctor Hcsd Ha.
  apply ctor_Done_scratch in Hctor as (csd' & samples & Hcsd' & Hrest).
  rewrite Hcsd in Hcsd'. injection Hcsd' as <-.
  destruct Hrest as (_ & _ & _ & _ & _ & _ & _ & _ & _ & _ & Hatt & _).
  unfold Graphics.colorAttachments in Hatt.
  destruct (negb _).
  - symmetry in Hatt. apply fillAttachments_slots in Hatt as (Hc & _ & _ & Hnew).
    destruct (Hnew a ltac:(lia) ltac:(lia)) as (st & Hst & Hzero & Hrange).
    exists st. split; [exact Hst |]. split; [| exact Hrange].
    rewrite Nat.sub_0_r in Hzero. exact Hzero.
  - injection Hatt as Hcount _. lia.
Qed.

Lemma attachment_write_mask_needs_shader_output_witness :
  exists p evs csd st,
    Graphics.ctor Scenarios.cfg 0 Scenarios2.oneOutputLayout
      (Scenarios.legacyInfo Scenarios.singleSampled RW_DEPTH 3 0 None) = Done (p, evs)
    /\ Graphics.compileScratch p = Some csd
    /\ Vk.attachmentCount (Graphics.colorBlendState csd) = 2%nat
    /\ Graphics.attachmentStates csd !! 1%nat = Some st
    /\ Vk.colorWriteMask st = 0.
Proof.
  destruct (Graphics.ctor Scenarios.cfg 0 Scenarios2.oneOutputLayout
              (Scenarios.legacyInfo Scenarios.singleSampled RW_DEPTH 3 0 None))
    as [[p evs]|f] eqn:Hctor; [| vm_compute in Hctor; discriminate].
  destruct (Graphics.compileScratch p) as [csd|] eqn:Hcsd;
    [| vm_compute in Hctor; injection Hctor as <- _; discriminate].
  assert (Hcount : Vk.attachmentCount (Graphics.colorBlendState csd) = 2%nat).
  { vm_compute in Hctor. injection Hctor as <- _. injection Hcsd as <-. reflexivity. }
  destruct (attachment_write_mask_needs_shader_output Scenarios.cfg 0 Scenarios2.oneOutputLayout
              (Scenarios.legacyInfo Scenarios.singleSampled RW_DEPTH 3 0 None) p evs csd 1
              ltac:(vm_compute; lia) Hctor Hcsd ltac:(rewrite Hcount; lia))
    as (st & Hst & Hzero & _).
  exists p, evs, csd, st. split; [reflexivity |]. split; [exact Hcsd |].
  split; [exact Hcount |]. split; [exact Hst |]. apply Hzero. reflexivity.
Defined.

(** X6.  The attachment count the constructor writes is bounded by MAX_SIMRT
    and by 8, the array of attachment states keeps its length, and the
    states from the attachment count on are the ones the scratch held
    before; when the colour-target mask has no bit among its low 8, no
    attachment is written at all. *)
Theorem attachment_count_bounds (cfg : Config) (cache : Z)
    (l : Graphics.GraphicsPipelineLayout) (info : Graphics.GraphicsPipelineCreationInfo)
    (p : Graphics.GraphicsPipeline) (evs : list Event)
    (csd : Graphics.GraphicsPipelineCompileScratchData) :
  Graphics.ctor cfg cache l info = Done (p, evs) ->
  Graphics.compileScratch p = Some csd ->
  let count := Vk.attachmentCount (Graphics.colorBlendState csd) in
  let before := Graphics.attachmentStates (Graphics.info_scratch info) in
  (count <= MAX_SIMRT cfg)%nat
  /\ (count <= 8)%nat
  /\ length (Graphics.attachmentStates csd) = length before
  /\ (forall a, (count <= a)%nat -> Graphics.attachmentStates csd !! a = before !! a)
  /\ (Graphics.uint8 (Graphics.rpColorTargetMask (Graphics.resolvePass info)) = 0 ->
      count = 0%nat /\ Graphics.attachmentStates csd = before).
Proof.
  intros Hctor Hcsd. cbv zeta.
  apply ctor_Done_scratch in Hctor as (csd' & samples & Hcsd' & Hrest).
  rewrite Hcsd in Hcsd'. injection Hcsd' as <-.
  destruct Hrest as (_ & _ & _ & _ & _ & _ & _ & _ & _ & _ & Hatt & _).
  unfold Graphics.colorAttachments in Hatt.
  set (count := Vk.attachmentCount (Graphics.colorBlendState csd)) in *.
  set (before := Graphics.attachmentStates (Graphics.info_scratch info)) in *.
  set (mask := Graphics.rpColorTargetMask (Graphics.resolvePass info)) in *.
  destruct (negb (mask =? 0)).
  - pose proof (fillAttachments_count cfg info (MAX_SIMRT cfg) 0
                  (Graphics.uint8 mask) (Graphics.uint8 (Graphics.fsOutputMask l)) 0 before
                  (proj1 (uint8_range mask))) as Hcount.
    rewrite <- Hatt in Hcount. cbn [fst] in Hcount.
    pose proof (keptSlots_le info 0
                  (MAX_SIMRT cfg `min` GraphicsSpec.bit_length (Graphics.uint8 mask))) as Hle.
    pose proof (bit_length_uint8 mask) as H8.
    symmetry in Hatt. apply fillAttachments_slots in Hatt as (_ & Hlen & Hframe & _).
    split; [lia |]. split; [lia |]. split; [exact Hlen |].
    split; [intros a Ha; apply Hframe; right; exact Ha |].
    intros Hzero. rewrite Hzero in Hcount. change (GraphicsSpec.bit_length 0) with 0%nat in Hcount.
    rewrite Nat.min_0_r in Hcount. change (GraphicsSpec.keptSlots info 0 0) with 0%nat in Hcount.
    split; [lia |].
    apply list_eq. intros a. apply Hframe. right. lia.
  - injection Hatt as Hcount Hstates. rewrite Hstates, Hcount.
    split; [lia |]. split; [lia |]. split; [reflexivity |].
    split; [reflexivity |]. intros _. split; reflexivity.
Qed.

Lemma attachment_count_bounds_witness :
  exists p evs csd,
    Graphics.ctor Scenarios.cfg 0 Scenarios.someLayout
      (Scenarios.legacyInfo Scenarios.singleSampled RW_DEPTH 256 0 None) = Done (p, evs)
    /\ Graphics.compileScratch p = Some csd
    /\ Vk.attachmentCount (Graphics.colorBlendState csd) = 0%nat
    /\ Graphics.attachmentStates csd = replicate 8 Scenarios.blankAttachment.
Proof.
  destruct (Graphics.ctor Scenarios.cfg 0 Scenarios.someLayout
              (Scenarios.legacyInfo Scenarios.singleSampled RW_DEPTH 256 0 None))
    as [[p evs]|f] eqn:Hctor; [| vm_compute in Hctor; discriminate].
  destruct (Graphics.compileScratch p) as [csd|] eqn:Hcsd;
    [| vm_compute in Hctor; injection Hctor as <- _; discriminate].
  destruct (attachment_count_bounds Scenarios.cfg 0 Scenarios.someLayout
              (Scenarios.legacyInfo Scenarios.singleSampled RW_DEPTH 256 0 None) p evs csd
              Hctor Hcsd) as (_ & _ & _ & _ & Hzero).
  exists p, evs, csd. split; [reflexivity |]. split; [exact Hcsd |].
  exact (Hzero eq_refl).
Defined.

(** X7.  Alpha-to-coverage is only ever constructed with multisampling: when
    the static state asks for alpha-to-coverage, a construction that
    returns has it enabled with a rasterization sample count whose
    1-sample bit is clear, and a construction whose sample count has that
    bit set fails with the alpha-to-coverage assertion. *)
Theorem alpha_to_coverage_needs_multisampling (cfg : Config) (cache : Z)
    (l : Graphics.GraphicsPipelineLayout) (info : Graphics.GraphicsPipelineCreationInfo) :
  RenderState.alphaToCoverage (Graphics.info_staticState info) = true ->
  (forall p evs csd,
     Graphics.ctor cfg cache l info = Done (p, evs) ->
     Graphics.compileScratch p = Some csd ->
     Vk.alphaToCoverageEnable (Graphics.multisample csd) = true
     /\ Z.land (Vk.rasterizationSamples (Graphics.multisample csd)) Vk.VK_SAMPLE_COUNT_1_BIT = 0)
  /\ (forall samples,
        GraphicsSpec.chosenSamples cfg info = Done samples ->
        Z.land samples Vk.VK_SAMPLE_COUNT_1_BIT <> 0 ->
        Graphics.ctor cfg cache l info = Fatal (AssertFailed Graphics.msg_alpha_to_coverage)).
Proof.
  intros Ha2c. split.
  - intros p evs csd Hctor Hcsd.
    apply ctor_Done_scratch in Hctor as (csd' & samples & Hcsd' & Hrest).
    rewrite Hcsd in Hcsd'. injection Hcsd' as <-.
    destruct Hrest as (_ & _ & _ & _ & Hland & Hms & _).
    rewrite Hms. cbn. split; [exact Ha2c | exact (Hland Ha2c)].
  - intros samples Hs Hodd. unfold Graphics.ctor.
    fold (GraphicsSpec.chosenSamples cfg info). rewrite Hs. simpl. rewrite Ha2c. simpl.
    destruct (Z.eqb_spec (Z.land samples Vk.VK_SAMPLE_COUNT_1_BIT) 0); [contradiction |].
    reflexivity.
Qed.

Lemma alpha_to_coverage_needs_multisampling_witness :
  Graphics.ctor Scenarios.cfg 0 Scenarios.someLayout
    (Scenarios2.nativeInfo (Scenarios2.nativePass true 1 1)
       (Scenarios2.staticWith [Scenarios.opaqueBlend] false true))
  = Fatal (AssertFailed Graphics.msg_alpha_to_coverage)
  /\ exists p evs,
       Graphics.ctor Scenarios.cfg 0 Scenarios.someLayout
         (Scenarios2.nativeInfo (Scenarios2.nativePass true 1 4)
            (Scenarios2.staticWith [Scenarios.opaqueBlend] false true))
       = Done (p, evs).
Proof.
  split.
  - apply (proj2 (alpha_to_coverage_needs_multisampling Scenarios.cfg 0 Scenarios.someLayout
                    (Scenarios2.nativeInfo (Scenarios2.nativePass true 1 1)
                       (Scenarios2.staticWith [Scenarios.opaqueBlend] false true))
                    eq_refl) 1).
    + reflexivity.
    + discriminate.
  - do 2 eexists. vm_compute. reflexivity.
Defined.

(** X8.  With a depth attachment the static render state decides: depth
    test, depth bounds test and stencil test are enabled exactly as it asks
    and depth bias is enabled; depth write follows it too, except that a
    class-described render pass with read-only depth forces it off. *)
Theorem depth_state_follows_static_state (cfg : Config) (cache : Z)
    (l : Graphics.GraphicsPipelineLayout) (info : Graphics.GraphicsPipelineCreationInfo)
    (p : Graphics.GraphicsPipeline) (evs : list Event)
    (csd : Graphics.GraphicsPipelineCompileScratchData) :
  Graphics.hasDepth (Graphics.resolvePass info) = true ->
  Graphics.ctor cfg cache l info = Done (p, evs) ->
  Graphics.compileScratch p = Some csd ->
  let staticState := Graphics.info_staticState info in
  Vk.depthTestEnable (Graphics.depthStencil csd) = RenderState.depthTestEnable staticState
  /\ Vk.depthBoundsTestEnable (Graphics.depthStencil csd)
     = RenderState.depthBoundsEnable staticState
  /\ Vk.stencilTestEnable (Graphics.depthStencil csd)
     = RenderState.stencilTestEnable staticState
  /\ Vk.depthBiasEnable (Graphics.raster csd) = true
  /\ (Graphics.info_nativeRP info = None ->
      depthState (Graphics.rpClass (Graphics.info_varDsc info)) = RO_DEPTH ->
      Vk.depthWriteEnable (Graphics.depthStencil csd) = false)
  /\ (is_Some (Graphics.info_nativeRP info)
      \/ depthState (Graphics.rpClass (Graphics.info_varDsc info)) = RW_DEPTH ->
      Vk.depthWriteEnable (Graphics.depthStencil csd)
      = RenderState.depthWriteEnable staticState).
Proof.
  intros Hdepth Hctor Hcsd. cbv zeta.
  apply ctor_Done_scratch in Hctor as (csd' & samples & Hcsd' & Hrest).
  rewrite Hcsd in Hcsd'. injection Hcsd' as <-.
  destruct Hrest as (_ & _ & _ & _ & _ & _ & _ & _ & _ & _ & _ & Hds & Hraster).
  rewrite Hdepth in Hds, Hraster. cbn [negb] in Hds, Hraster.
  rewrite Hds, Hraster. cbn.
  repeat split.
  - intros Hlegacy Hro. unfold Graphics.resolvePass. rewrite Hlegacy. cbn.
    rewrite bool_decide_eq_true_2 by exact Hro. apply andb_false_r.
  - intros Hcase. unfold Graphics.resolvePass.
    destruct (Graphics.info_nativeRP info) as [rp|]; cbn.
    + apply andb_true_r.
    + destruct Hcase as [[rp Hrp] | Hrw]; [discriminate |].
      rewrite bool_decide_eq_false_2 by (rewrite Hrw; discriminate). apply andb_true_r.
Qed.

Lemma depth_state_follows_static_state_witness :
  exists p evs csd,
    Graphics.ctor Scenarios.cfg 0 Scenarios.someLayout
      (Scenarios.legacyInfo Scenarios.singleSampled RO_DEPTH 1 0 None) = Done (p, evs)
    /\ Graphics.compileScratch p = Some csd
    /\ RenderState.depthWriteEnable (Scenarios.depthHungry 0) = true
    /\ Vk.depthWriteEnable (Graphics.depthStencil csd) = false
    /\ Vk.depthTestEnable (Graphics.depthStencil csd) = true.
Proof.
  destruct (Graphics.ctor Scenarios.cfg 0 Scenarios.someLayout
              (Scenarios.legacyInfo Scenarios.singleSampled RO_DEPTH 1 0 None))
    as [[p evs]|f] eqn:Hctor; [| vm_compute in Hctor; discriminate].
  destruct (Graphics.compileScratch p) as [csd|] eqn:Hcsd;
    [| vm_compute in Hctor; injection Hctor as <- _; discriminate].
  destruct (depth_state_follows_static_state Scenarios.cfg 0 Scenarios.someLayout
              (Scenarios.legacyInfo Scenarios.singleSampled RO_DEPTH 1 0 None) p evs csd
              eq_refl Hctor Hcsd) as (Htest & _ & _ & _ & Hro & _).
  exists p, evs, csd. split; [reflexivity |]. split; [exact Hcsd |].
  split; [reflexivity |]. split; [exact (Hro eq_refl eq_refl) | exact Htest].
Defined.

(** ** Graphics pipeline: construction, compilation, binding *)

Section GraphicsLifecycle.

Import Graphics.

Variables (cfg : Config) (drv : Driver).

Lemma graphics_compile_Done_inv this w w' :
  compile cfg drv this w = Done w' ->
  exists self csd ci result h,
    pipes w !! this = Some self
    /\ compileScratch self = Some csd
    /\ derivativeCreateInfo (pipes w) csd = Done ci
    /\ vkCreateGraphicsPipelines drv (vkCache csd) ci = (result, h)
    /\ Vk.VULKAN_FAIL result = false
    /\ pipes w' = <[this := {| layout := layout self; dynStateMask := dynStateMask self;
                               handle := h; compileScratch := None |}]> (pipes w)
    /\ exists logged,
         trace w' = trace w
           ++ [EvCreateGraphicsPipelines (vkCache csd) ci]
           ++ logged
           ++ match nativeRP csd with
              | Some rp => [EvReleasePipelineCompileRef (rpId rp)]
              | None => []
              end
           ++ (if allocated csd then [EvDeleteScratch] else [])
         /\ (h = Vk.VK_NULL_HANDLE ->
             logged = [EvLogerr msg_gfx_not_compiled [progIdx csd; varIdx csd; varTotal csd]])
         /\ (h <> Vk.VK_NULL_HANDLE ->
             Forall (fun e => exists msg args, e = EvDebug msg args) logged).
Proof.
  unfold compile, deref. intros H.
  destruct (pipes w !! this) as [self|] eqn:Hself; [| discriminate]. simpl in H.
  destruct (compileScratch self) as [csd|] eqn:Hcsd; [| discriminate].
  unfold createPipelineObject in H.
  destruct (derivativeCreateInfo (pipes w) csd) as [ci|f] eqn:Hci; [| discriminate].
  simpl in H.
  destruct (vkCreateGraphicsPipelines drv (vkCache csd) ci) as [result h] eqn:Hnative.
  unfold Vk.VULKAN_EXIT_ON_FAIL in H.
  destruct (Vk.VULKAN_FAIL result) eqn:Hfail; [discriminate |]. simpl in H.
  injection H as <-.
  exists self, csd, ci, result, h.
  split; [reflexivity |]. split; [exact Hcsd |]. split; [exact Hci |].
  split; [exact Hnative |]. split; [exact Hfail |]. split; [reflexivity |].
  eexists. split; [reflexivity |]. unfold Vk.is_null. split.
  - intros ->. reflexivity.
  - intros Hh. destruct (Z.eqb_spec h Vk.VK_NULL_HANDLE); [contradiction |].
    case_match; repeat constructor; eauto.
Qed.

End GraphicsLifecycle.

(** X9.  A graphics pipeline [compile] that returns is local and one-shot:
    only the compiled pipeline changes (it holds the handle the native call
    wrote and no scratch any more), the native creation was called exactly
    once and before anything else, an error is logged exactly when the
    handle is null, and compiling the same pipeline again is a null
    dereference of the scratch. *)
Theorem graphics_compile_is_local_and_one_shot (cfg : Config) (drv drv' : Driver)
    (this : nat) (w w' : Graphics.World) :
  Graphics.compile cfg drv this w = Done w' ->
  (forall other, other <> this -> Graphics.pipes w' !! other = Graphics.pipes w !! other)
  /\ (exists self', Graphics.pipes w' !! this = Some self'
                    /\ Graphics.compileScratch self' = None)
  /\ (exists cache ci rest,
        Graphics.trace w' = Graphics.trace w ++ EvCreateGraphicsPipelines cache ci :: rest
        /\ Forall (fun e => forall cache' ci', e <> EvCreateGraphicsPipelines cache' ci') rest
        /\ ((exists msg args, EvLogerr msg args ∈ rest)
            <-> Graphics.handle <$> Graphics.pipes w' !! this = Some Vk.VK_NULL_HANDLE))
  /\ Graphics.compile cfg drv' this w' = Fatal NullDeref.
Proof.
  intros Hcompile.
  apply graphics_compile_Done_inv in Hcompile
    as (self & csd & ci & result & h & Hself & Hcsd & Hci & Hnative & Hfail & Hpipes
        & logged & Htrace & Hnull & Hok).
  assert (Hthis : Graphics.pipes w' !! this
                  = Some {| Graphics.layout := Graphics.layout self;
                            Graphics.dynStateMask := Graphics.dynStateMask self;
                            Graphics.handle := h; Graphics.compileScratch := None |})
    by (rewrite Hpipes; apply lookup_insert_eq).
  split; [intros other Hne; rewrite Hpipes; apply lookup_insert_ne; congruence |].
  split; [eexists; split; [exact Hthis | reflexivity] |].
  split.
  - eexists. eexists. eexists. split; [exact Htrace |].
    assert (Htail : Forall (fun e => forall cache' ci', e <> EvCreateGraphicsPipelines cache' ci')
                      (match Graphics.nativeRP csd with
                       | Some rp => [EvReleasePipelineCompileRef (rpId rp)]
                       | None => []
                       end ++ (if Graphics.allocated csd then [EvDeleteScratch] else []))).
    { apply Forall_app. split; repeat case_match; repeat constructor; discriminate. }
    assert (Htail_nolog : forall msg args,
              EvLogerr msg args ∉ (match Graphics.nativeRP csd with
                                   | Some rp => [EvReleasePipelineCompileRef (rpId rp)]
                                   | None => []
                                   end
                                   ++ (if Graphics.allocated csd then [EvDeleteScratch] else []))).
    { intros msg args Hin. apply elem_of_app in Hin as [Hin|Hin]; repeat case_match;
        repeat (apply elem_of_cons in Hin as [Hin|Hin]; [discriminate |]);
        apply elem_of_nil in Hin; contradiction. }
    rewrite Hthis. cbn [fmap option_fmap option_map Graphics.handle].
    destruct (Z.eq_dec h Vk.VK_NULL_HANDLE) as [Hh|Hh].
    + rewrite (Hnull Hh). split.
      * apply Forall_app. split; [repeat constructor; discriminate | exact Htail].
      * split; [intros _; rewrite Hh; reflexivity |].
        intros _. eexists. eexists. apply elem_of_app. left. apply list_elem_of_singleton.
        reflexivity.
    + specialize (Hok Hh). split.
      * apply Forall_app. split; [| exact Htail].
        eapply Forall_impl; [exact Hok |]. intros e (msg & args & ->). discriminate.
      * split; [| intros [= Heq]; contradiction].
        intros (msg & args & Hin). exfalso.
        apply elem_of_app in Hin as [Hin|Hin]; [| exact (Htail_nolog _ _ Hin)].
        rewrite Forall_forall in Hok. destruct (Hok _ Hin) as (m & a & Heq). discriminate.
  - unfold Graphics.compile, Graphics.deref. rewrite Hthis. reflexivity.
Qed.

Lemma graphics_compile_is_local_and_one_shot_witness :
  exists w',
    Graphics.compile Scenarios.cfg Scenarios.goodDriver 1
      (Scenarios.familyWorld (Scenarios.compiledPipeline 55)) = Done w'
    /\ Graphics.pipes w' !! 2%nat = Some (Scenarios.compiledPipeline 55)
    /\ Graphics.compile Scenarios.cfg Scenarios.nullDriver 1 w' = Fatal NullDeref.
Proof.
  destruct (Graphics.compile Scenarios.cfg Scenarios.goodDriver 1
              (Scenarios.familyWorld (Scenarios.compiledPipeline 55)))
    as [w'|f] eqn:Hcompile; [| vm_compute in Hcompile; discriminate].
  destruct (graphics_compile_is_local_and_one_shot Scenarios.cfg Scenarios.goodDriver
              Scenarios.nullDriver 1 _ w' Hcompile) as (Hother & _ & _ & Hagain).
  exists w'. split; [reflexivity |]. split; [| exact Hagain].
  rewrite Hother by discriminate. reflexivity.
Defined.

(** X10.  Construction and compilation fit together: a pipeline built by the
    constructor without a parent is compiled from exactly the create-info
    the constructor wrote (derivatives allowed, not a derivative, no base
    pipeline), with the cache given to the constructor; when the native call
    succeeds with a handle the pipeline ends compiled with that handle, and
    the compile reference the constructor took on a native render pass is
    released by the compilation, once, and on the same render pass. *)
Theorem constructed_pipeline_compiles (cfg : Config) (drv : Driver) (cache : Z)
    (l : Graphics.GraphicsPipelineLayout) (info : Graphics.GraphicsPipelineCreationInfo)
    (p : Graphics.GraphicsPipeline) (evs : list Event) (this : nat) (w : Graphics.World)
    (result h : Z) :
  let ci := {| Vk.flags := Vk.VK_PIPELINE_CREATE_ALLOW_DERIVATIVES_BIT;
               Vk.layout := Graphics.layoutHandle l;
               Vk.renderPass := Graphics.renderPassHandle (Graphics.resolvePass info);
               Vk.subpass := Graphics.subpass (Graphics.info_varDsc info);
               Vk.basePipelineHandle := Vk.VK_NULL_HANDLE;
               Vk.basePipelineIndex := 0 |} in
  Graphics.ctor cfg cache l info = Done (p, evs) ->
  Graphics.info_parentPipeline info = None ->
  Graphics.pipes w !! this = Some p ->
  vkCreateGraphicsPipelines drv cache ci = (result, h) ->
  Vk.VULKAN_FAIL result = false ->
  h <> Vk.VK_NULL_HANDLE ->
  exists w' logged,
    Graphics.compile cfg drv this w = Done w'
    /\ Graphics.pipes w'
       = <[this := {| Graphics.layout := l; Graphics.dynStateMask := Graphics.dynStateMask p;
                      Graphics.handle := h; Graphics.compileScratch := None |}]>
           (Graphics.pipes w)
    /\ evs = match Graphics.info_nativeRP info with
             | Some rp => [EvAddPipelineCompileRef (rpId rp)]
             | None => []
             end
    /\ Graphics.trace w'
       = Graphics.trace w
         ++ [EvCreateGraphicsPipelines cache ci]
         ++ logged
         ++ match Graphics.info_nativeRP info with
            | Some rp => [EvReleasePipelineCompileRef (rpId rp)]
            | None => []
            end
         ++ (if Graphics.allocated (Graphics.info_scratch info) then [EvDeleteScratch] else [])
    /\ Forall (fun e => exists msg args, e = EvDebug msg args) logged.
Proof.
  intros ci Hctor Hparent Hthis Hnative Hfail Hh.
  pose proof (ctor_Done_inv cfg cache l info p evs Hctor)
    as (csd0 & s0 & Hcsd0 & _ & _ & _ & _ & Hgpci & Hpp & _).
  apply ctor_Done_scratch in Hctor as (csd & samples & Hcsd & Hlayout & _ & Hevs & _ & _ & _
                                       & Hcache & Hrp & Halloc & _).
  rewrite Hcsd in Hcsd0. injection Hcsd0 as <-.
  fold ci in Hgpci.
  assert (Hci : Graphics.derivativeCreateInfo (Graphics.pipes w) csd = Done ci).
  { unfold Graphics.derivativeCreateInfo. rewrite Hpp, Hparent, Hgpci. reflexivity. }
  unfold Graphics.compile, Graphics.deref. rewrite Hthis. simpl. rewrite Hcsd.
  rewrite <- Hcache in Hnative.
  rewrite (createPipelineObject_with drv _ _ _ _ _ Hci Hnative), Hfail. simpl.
  unfold Vk.is_null. destruct (Z.eqb_spec h Vk.VK_NULL_HANDLE); [contradiction |].
  eexists. eexists. split; [reflexivity |]. cbn.
  rewrite Hlayout, Hrp, Halloc, Hcache.
  split; [reflexivity |]. split; [exact Hevs |]. split; [reflexivity |].
  match goal with |- Forall _ (if ?c then _ else _) => destruct c end;
    repeat constructor; eauto.
Qed.

Lemma constructed_pipeline_compiles_witness :
  exists p evs w',
    Graphics.ctor Scenarios.cfg 0 Scenarios.someLayout
      (Scenarios2.nativeInfo (Scenarios2.nativePass true 1 1)
         (Scenarios2.staticWith [Scenarios.opaqueBlend] false false)) = Done (p, evs)
    /\ evs = [EvAddPipelineCompileRef 3]
    /\ Graphics.compile Scenarios.cfg Scenarios.goodDriver 1
         {| Graphics.pipes := {[ 1%nat := p ]}; Graphics.trace := evs |} = Done w'
    /\ Graphics.handle <$> Graphics.pipes w' !! 1%nat = Some 77
    /\ EvReleasePipelineCompileRef 3 ∈ Graphics.trace w'.
Proof.
  destruct (Graphics.ctor Scenarios.cfg 0 Scenarios.someLayout
              (Scenarios2.nativeInfo (Scenarios2.nativePass true 1 1)
                 (Scenarios2.staticWith [Scenarios.opaqueBlend] false false)))
    as [[p evs]|f] eqn:Hctor; [| vm_compute in Hctor; discriminate].
  destruct (constructed_pipeline_compiles Scenarios.cfg Scenarios.goodDriver 0
              Scenarios.someLayout
              (Scenarios2.nativeInfo (Scenarios2.nativePass true 1 1)
                 (Scenarios2.staticWith [Scenarios.opaqueBlend] false false))
              p evs 1 {| Graphics.pipes := {[ 1%nat := p ]}; Graphics.trace := evs |}
              Vk.VK_SUCCESS 77 Hctor eq_refl (lookup_singleton_eq _ _) eq_refl eq_refl
              ltac:(discriminate))
    as (w' & logged & Hcompile & Hpipes & Hevs & Htrace & _).
  exists p, evs, w'. split; [reflexivity |]. split; [exact Hevs |].
  split; [exact Hcompile |].
  split; [rewrite Hpipes, lookup_insert_eq; reflexivity |].
  rewrite Htrace. cbn. apply elem_of_app. right. apply elem_of_cons. right.
  apply elem_of_app. right. apply elem_of_cons. left. reflexivity.
Defined.

(** X11.  [GraphicsPipeline::bind], unlike the compute variant, does not
    wait: it issues the native bind with whatever handle the pipeline holds
    and changes nothing else, so a pipeline bound between its construction
    and its compilation is bound with a null handle. *)
Theorem graphics_bind_does_not_wait (cfg : Config) (cache : Z)
    (l : Graphics.GraphicsPipelineLayout) (info : Graphics.GraphicsPipelineCreationInfo)
    (p : Graphics.GraphicsPipeline) (evs : list Event) (this : nat) (cmd : Z)
    (w : Graphics.World) :
  Graphics.ctor cfg cache l info = Done (p, evs) ->
  Graphics.pipes w !! this = Some p ->
  Graphics.bind this cmd w
  = Done {| Graphics.pipes := Graphics.pipes w;
            Graphics.trace := Graphics.trace w
              ++ [EvCmdBindPipeline cmd Vk.VK_PIPELINE_BIND_POINT_GRAPHICS Vk.VK_NULL_HANDLE] |}.
Proof.
  intros Hctor Hthis.
  apply ctor_Done_scratch in Hctor as (csd & samples & _ & _ & Hhandle & _).
  unfold Graphics.bind, Graphics.deref. rewrite Hthis. simpl.
  unfold Graphics.getHandle. rewrite Hhandle. reflexivity.
Qed.

Lemma graphics_bind_does_not_wait_witness :
  exists p evs,
    Graphics.ctor Scenarios.cfg 0 Scenarios.someLayout
      (Scenarios.legacyInfo Scenarios.singleSampled RW_DEPTH 1 0 None) = Done (p, evs)
    /\ Graphics.bind 1 5 {| Graphics.pipes := {[ 1%nat := p ]}; Graphics.trace := [] |}
       = Done {| Graphics.pipes := {[ 1%nat := p ]};
                 Graphics.trace :=
                   [EvCmdBindPipeline 5 Vk.VK_PIPELINE_BIND_POINT_GRAPHICS Vk.VK_NULL_HANDLE] |}.
Proof.
  destruct (Graphics.ctor Scenarios.cfg 0 Scenarios.someLayout
              (Scenarios.legacyInfo Scenarios.singleSampled RW_DEPTH 1 0 None))
    as [[p evs]|f] eqn:Hctor; [| vm_compute in Hctor; discriminate].
  exists p, evs. split; [reflexivity |].
  exact (graphics_bind_does_not_wait Scenarios.cfg 0 Scenarios.someLayout
           (Scenarios.legacyInfo Scenarios.singleSampled RW_DEPTH 1 0 None) p evs 1 5
           {| Graphics.pipes := {[ 1%nat := p ]}; Graphics.trace := [] |}
           Hctor (lookup_singleton_eq _ _)).
Defined.

(** ** Dynamic state mask *)

Section DynamicMaskFacts.

Import DynamicStateMask.

Lemma scanBlendStates_true states n : forall i,
  scanBlendStates states n i = true
  <-> exists j, (i <= j < i + n)%nat /\ needsBlendConstants (states !!! j) = true.
Proof.
  induction n as [|n IH]; intros i; cbn [scanBlendStates].
  - split; [discriminate | intros (j & Hj & _); lia].
  - destruct (needsBlendConstants (states !!! i)) eqn:Hi.
    + split; [intros _; exists i; split; [lia | exact Hi] | reflexivity].
    + rewrite IH. split; intros (j & Hj & Hneeds).
      * exists j. split; [lia | exact Hneeds].
      * exists j. split; [| exact Hneeds].
        destruct (decide (j = i)) as [->|Hne]; [congruence | lia].
Qed.

(* The mask's idea of "no depth" covers the constructor's. *)
Lemma mask_depth_implies_pipeline_depth info :
  bool_decide (depthState (Graphics.rpClass (Graphics.info_varDsc info)) = NO_DEPTH)
  || match Graphics.info_nativeRP info with
     | Some rp => negb (hasDepthAtSubpass rp (Graphics.subpass (Graphics.info_varDsc info)))
     | None => false
     end = false ->
  Graphics.hasDepth (Graphics.resolvePass info) = true.
Proof.
  intros H. apply orb_false_elim in H as [Hclass Hnative].
  unfold Graphics.resolvePass. destruct (Graphics.info_nativeRP info) as [rp|]; cbn.
  - apply negb_false_iff. exact Hnative.
  - apply bool_decide_eq_false in Hclass. apply bool_decide_eq_true_2. exact Hclass.
Qed.

End DynamicMaskFacts.

(** X12.  [GraphicsPipelineDynamicStateMask::from] clears depth bias, depth
    bounds test and stencil test whenever the render pass class has no depth
    or the native render pass has no depth at the subpass, whatever the mask
    held and whatever the static state asks.  Otherwise depth bias is always
    set, and depth bounds and stencil are set when the static state enables
    them but are never cleared: a mask object that had them set keeps
    them. *)
Theorem dynamic_mask_depth_members (cfg : Config)
    (previous : DynamicStateMask.GraphicsPipelineDynamicStateMask)
    (rsSt : RenderState.StaticState) (desc : Graphics.GraphicsPipelineVariantDescription)
    (native_rp : option RenderPassResource) :
  let m := DynamicStateMask.from cfg previous rsSt desc native_rp in
  (depthState (Graphics.rpClass desc) = NO_DEPTH
   \/ (exists rp, native_rp = Some rp /\ hasDepthAtSubpass rp (Graphics.subpass desc) = false) ->
   DynamicStateMask.hasDepthBias m = false
   /\ DynamicStateMask.hasDepthBoundsTest m = false
   /\ DynamicStateMask.hasStencilTest m = false)
  /\ (depthState (Graphics.rpClass desc) <> NO_DEPTH ->
      (forall rp, native_rp = Some rp -> hasDepthAtSubpass rp (Graphics.subpass desc) = true) ->
      DynamicStateMask.hasDepthBias m = true
      /\ DynamicStateMask.hasDepthBoundsTest m
         = RenderState.depthBoundsEnable rsSt || DynamicStateMask.hasDepthBoundsTest previous
      /\ DynamicStateMask.hasStencilTest m
         = RenderState.stencilTestEnable rsSt || DynamicStateMask.hasStencilTest previous).
Proof.
  cbv zeta. unfold DynamicStateMask.from. split.
  - intros Hnone.
    assert (Hcond : bool_decide (depthState (Graphics.rpClass desc) = NO_DEPTH)
                    || match native_rp with
                       | Some rp => negb (hasDepthAtSubpass rp (Graphics.subpass desc))
                       | None => false
                       end = true).
    { destruct Hnone as [Hclass | (rp & -> & Hrp)].
      - rewrite bool_decide_eq_true_2 by exact Hclass. reflexivity.
      - rewrite Hrp. apply orb_true_r. }
    rewrite Hcond. cbn. auto.
  - intros Hclass Hnative.
    rewrite bool_decide_eq_false_2 by exact Hclass.
    assert (Hrp : match native_rp with
                  | Some rp => negb (hasDepthAtSubpass rp (Graphics.subpass desc))
                  | None => false
                  end = false).
    { destruct native_rp as [rp|]; [rewrite (Hnative rp eq_refl) |]; reflexivity. }
    rewrite Hrp. cbn.
    split; [reflexivity |].
    split; [destruct (RenderState.depthBoundsEnable rsSt)
           | destruct (RenderState.stencilTestEnable rsSt)]; reflexivity.
Qed.

Lemma dynamic_mask_depth_members_witness :
  DynamicStateMask.hasStencilTest
    (DynamicStateMask.from Scenarios.cfg
       {| DynamicStateMask.hasDepthBias := true; DynamicStateMask.hasDepthBoundsTest := true;
          DynamicStateMask.hasStencilTest := true; DynamicStateMask.hasBlendConstants := true |}
       (Scenarios.depthHungry 0)
       (Graphics.info_varDsc (Scenarios.legacyInfo Scenarios.singleSampled NO_DEPTH 1 0 None))
       None) = false.
Proof.
  apply (proj1 (dynamic_mask_depth_members Scenarios.cfg _ (Scenarios.depthHungry 0)
                  (Graphics.info_varDsc
                     (Scenarios.legacyInfo Scenarios.singleSampled NO_DEPTH 1 0 None)) None)).
  left. reflexivity.
Defined.

(** X13.  The mask reports blend constants exactly when one of the blend
    states the function looks at is enabled and has a constant colour or
    constant alpha factor as source or destination factor; it looks at
    NumIndependentBlendParameters states under independent blending and at
    state 0 alone otherwise, and neither the depth configuration nor the
    previous mask has any influence. *)
Theorem dynamic_mask_blend_constants (cfg : Config)
    (previous : DynamicStateMask.GraphicsPipelineDynamicStateMask)
    (rsSt : RenderState.StaticState) (desc : Graphics.GraphicsPipelineVariantDescription)
    (native_rp : option RenderPassResource) :
  let checked :=
    if RenderState.indenpendentBlendEnabled rsSt
    then NumIndependentBlendParameters cfg else 1%nat in
  DynamicStateMask.hasBlendConstants (DynamicStateMask.from cfg previous rsSt desc native_rp)
  = true
  <-> exists i,
        (i < checked)%nat
        /\ RenderState.blendEnable (RenderState.blendStates rsSt !!! i) = true
        /\ let src := RenderState.blendSrcFactor (RenderState.blendStates rsSt !!! i) in
           let dst := RenderState.blendDstFactor (RenderState.blendStates rsSt !!! i) in
           10 <= src <= 13 \/ 10 <= dst <= 13.
Proof.
  cbv zeta.
  assert (Hneeds : forall b,
            DynamicStateMask.needsBlendConstants b = true
            <-> RenderState.blendEnable b = true
                /\ (10 <= RenderState.blendSrcFactor b <= 13
                    \/ 10 <= RenderState.blendDstFactor b <= 13)).
  { intros b. unfold DynamicStateMask.needsBlendConstants, DynamicStateMask.isConstantFactor,
      DynamicStateMask.VK_BLEND_FACTOR_CONSTANT_COLOR,
      DynamicStateMask.VK_BLEND_FACTOR_ONE_MINUS_CONSTANT_ALPHA.
    rewrite andb_true_iff, orb_true_iff, !andb_true_iff, !Z.leb_le. tauto. }
  assert (Hmember : DynamicStateMask.hasBlendConstants
                      (DynamicStateMask.from cfg previous rsSt desc native_rp)
                    = DynamicStateMask.scanBlendStates (RenderState.blendStates rsSt)
                        (if RenderState.indenpendentBlendEnabled rsSt
                         then NumIndependentBlendParameters cfg else 1%nat) 0).
  { unfold DynamicStateMask.from. destruct (_ || _); reflexivity. }
  rewrite Hmember, scanBlendStates_true. split.
  - intros (j & Hj & Hn). apply Hneeds in Hn. exists j. split; [lia | exact Hn].
  - intros (i & Hi & Hn). exists i. split; [lia |]. apply Hneeds. exact Hn.
Qed.

(** X14.  The mask and the pipeline agree on depth: what the mask, computed
    on a cleared mask object from the same static state, variant description
    and native render pass as the pipeline, reports as applicable is enabled
    in the create-info the constructor writes (depth bias, depth bounds
    test, stencil test), and for a pipeline without depth attachment the
    mask reports none of the three. *)
Theorem dynamic_mask_agrees_with_pipeline (cfg : Config) (cache : Z)
    (l : Graphics.GraphicsPipelineLayout) (info : Graphics.GraphicsPipelineCreationInfo)
    (p : Graphics.GraphicsPipeline) (evs : list Event)
    (csd : Graphics.GraphicsPipelineCompileScratchData) :
  Graphics.ctor cfg cache l info = Done (p, evs) ->
  Graphics.compileScratch p = Some csd ->
  let m := DynamicStateMask.from cfg DynamicStateMask.cleared (Graphics.info_staticState info)
             (Graphics.info_varDsc info) (Graphics.info_nativeRP info) in
  (DynamicStateMask.hasDepthBias m = true -> Vk.depthBiasEnable (Graphics.raster csd) = true)
  /\ (DynamicStateMask.hasDepthBoundsTest m = true ->
      Vk.depthBoundsTestEnable (Graphics.depthStencil csd) = true)
  /\ (DynamicStateMask.hasStencilTest m = true ->
      Vk.stencilTestEnable (Graphics.depthStencil csd) = true)
  /\ (Graphics.hasDepth (Graphics.resolvePass info) = false ->
      DynamicStateMask.hasDepthBias m = false
      /\ DynamicStateMask.hasDepthBoundsTest m = false
      /\ DynamicStateMask.hasStencilTest m = false).
Proof.
  intros Hctor Hcsd. cbv zeta.
  apply ctor_Done_scratch in Hctor as (csd' & samples & Hcsd' & Hrest).
  rewrite Hcsd in Hcsd'. injection Hcsd' as <-.
  destruct Hrest as (_ & _ & _ & _ & _ & _ & _ & _ & _ & _ & _ & Hds & Hraster).
  pose proof (mask_depth_implies_pipeline_depth info) as Hcover.
  unfold DynamicStateMask.from.
  destruct (bool_decide _ || _) eqn:Hcond; cbn.
  - repeat split; intros; discriminate.
  - specialize (Hcover eq_refl). rewrite Hcover in Hds, Hraster. cbn [negb] in Hds, Hraster.
    rewrite Hds, Hraster. cbn.
    split; [reflexivity |].
    split; [destruct (RenderState.depthBoundsEnable _); [reflexivity | discriminate] |].
    split; [destruct (RenderState.stencilTestEnable _); [reflexivity | discriminate] |].
    intros Hno. congruence.
Qed.

Lemma dynamic_mask_agrees_with_pipeline_witness :
  exists p evs csd,
    Graphics.ctor Scenarios.cfg 0 Scenarios.someLayout
      (Scenarios.legacyInfo Scenarios.singleSampled RW_DEPTH 1 0 None) = Done (p, evs)
    /\ Graphics.compileScratch p = Some csd
    /\ Vk.stencilTestEnable (Graphics.depthStencil csd) = true.
Proof.
  destruct (Graphics.ctor Scenarios.cfg 0 Scenarios.someLayout
              (Scenarios.legacyInfo Scenarios.singleSampled RW_DEPTH 1 0 None))
    as [[p evs]|f] eqn:Hctor; [| vm_compute in Hctor; discriminate].
  destruct (Graphics.compileScratch p) as [csd|] eqn:Hcsd;
    [| vm_compute in Hctor; injection Hctor as <- _; discriminate].
  destruct (dynamic_mask_agrees_with_pipeline Scenarios.cfg 0 Scenarios.someLayout
              (Scenarios.legacyInfo Scenarios.singleSampled RW_DEPTH 1 0 None) p evs csd
              Hctor Hcsd) as (_ & _ & Hstencil & _).
  exists p, evs, csd. split; [reflexivity |]. split; [exact Hcsd |].
  apply Hstencil. reflexivity.
Defined.

Lemma dynamic_mask_blend_constants_witness :
  DynamicStateMask.hasBlendConstants
    (DynamicStateMask.from Scenarios.cfg DynamicStateMask.cleared
       (Scenarios2.staticWith [Scenarios2.constantBlend] false false)
       (Graphics.info_varDsc (Scenarios.legacyInfo Scenarios.singleSampled NO_DEPTH 1 0 None))
       None) = true.
Proof.
  apply (proj2 (dynamic_mask_blend_constants Scenarios.cfg DynamicStateMask.cleared
                  (Scenarios2.staticWith [Scenarios2.constantBlend] false false)
                  (Graphics.info_varDsc
                     (Scenarios.legacyInfo Scenarios.singleSampled NO_DEPTH 1 0 None)) None)).
  exists 0%nat. split; [cbn; lia |]. split; [reflexivity |]. left. cbn. lia.
Defined.

(** ** Pipeline storage: adding, looking up, taking out *)

Section StorageMore.

Import Storage.

Context {W LayoutType LayoutCreationInfo PipelineType CreationInfo : Type}.
Variable T : PipelineTraits W LayoutType LayoutCreationInfo PipelineType CreationInfo.

#[local] Abbreviation Store := (PipelineManagerStorage LayoutType PipelineType).

Lemma ensureSpace_pipelines (st : Store) (index : Z) :
  0 <= index ->
  pipelines (ensureSpaceForIndex st index)
  = pipelines st ++ replicate (S (Z.to_nat index) - length (pipelines st)) None.
Proof.
  intros Hi. unfold ensureSpaceForIndex.
  destruct (Z.leb_spec (Z.of_nat (length (pipelines st))) index) as [Hle|Hgt].
  - destruct (Z.eqb_spec (index - Z.of_nat (length (pipelines st)) + 1) 0); [lia |].
    cbn [negb pipelines]. f_equal. f_equal. lia.
  - cbn. replace (S (Z.to_nat index) - length (pipelines st))%nat with 0%nat by lia.
    rewrite app_nil_r. reflexivity.
Qed.

Lemma get_Done_inv (pt : ProgramType) (st : Store) program p :
  get pt st program = Done p ->
  checkID pt program = true
  /\ 0 <= getIndexFromID pt program
  /\ pipelines st !! Z.to_nat (getIndexFromID pt program) = Some (Some p).
Proof.
  unfold get. intros H. apply bind_Done_inv in H as ([] & Hid & H).
  apply bind_Done_inv in H as (slot & Hslot & H).
  apply at_index_Done in Hslot as [Hi Hslot].
  destruct slot as [q|]; [| discriminate]. injection H as <-.
  split; [| split; assumption].
  unfold G_ASSERT in Hid. destruct (checkID pt program); [reflexivity | discriminate].
Qed.

Lemma valid_of_lookup (pt : ProgramType) (st : Store) program p :
  checkID pt program = true -> 0 <= getIndexFromID pt program ->
  pipelines st !! Z.to_nat (getIndexFromID pt program) = Some (Some p) ->
  valid pt st program = true.
Proof.
  intros Hid Hi Hl. unfold valid. rewrite Hid, Hl.
  pose proof (lookup_lt_Some _ _ _ Hl) as Hlt.
  destruct (Z.leb_spec 0 (getIndexFromID pt program)); [| lia].
  destruct (Z.ltb_spec (getIndexFromID pt program) (Z.of_nat (length (pipelines st))));
    [reflexivity | lia].
Qed.

End StorageMore.


(** X15.  After an [add] that returns, the program identifier is [valid]
    and [get] returns the pipeline the constructor produced.  The slot array
    has grown just enough to hold the identifier's index, the slots added on
    the way are null, and every slot that existed before, other than the
    identifier's own, holds what it held. *)
Theorem add_then_get {W LayoutType LayoutCreationInfo PipelineType CreationInfo : Type}
    (T : Storage.PipelineTraits W LayoutType LayoutCreationInfo PipelineType CreationInfo)
    (st st' : Storage.PipelineManagerStorage LayoutType PipelineType)
    (program : ProgramID) (cache : Z) (info : CreationInfo) (w w' : W) :
  Storage.add T st program cache info w = Done (st', w') ->
  let pt := Storage.programType T in
  let slot := Z.to_nat (getIndexFromID pt program) in
  exists p layout w1,
    Storage.newPipeline T program cache layout info w1 = Done (p, w')
    /\ Storage.get pt st' program = Done p
    /\ Storage.valid pt st' program = true
    /\ length (Storage.pipelines st') = (length (Storage.pipelines st) `max` S slot)%nat
    /\ (forall j, j <> slot -> (j < length (Storage.pipelines st))%nat ->
        Storage.pipelines st' !! j = Storage.pipelines st !! j)
    /\ (forall j, (length (Storage.pipelines st) <= j < slot)%nat ->
        Storage.pipelines st' !! j = Some None).
Proof.
  intros Hadd pt slot.
  apply add_Done_inv in Hadd as (layout & st1 & w1 & p & Hf & Hctor & Hid & Hi & Hnull & ->).
  fold pt slot in Hi, Hnull, Hid |- *.
  pose proof (findOrAddLayout_pipelines T st (Storage.info_layout T info) w) as Hpipes.
  rewrite Hf in Hpipes. cbn [fst snd] in Hpipes.
  pose proof (ensureSpace_pipelines st1 (getIndexFromID pt program) Hi) as Hgrow.
  fold slot in Hgrow. rewrite Hpipes in Hgrow.
  assert (Hlt : (slot < length (Storage.pipelines
                                  (Storage.ensureSpaceForIndex st1 (getIndexFromID pt program))))%nat)
    by (eapply lookup_lt_Some; exact Hnull).
  assert (Hslot : Storage.pipelines
                    (Storage.set_index
                       (Storage.ensureSpaceForIndex st1 (getIndexFromID pt program))
                       (getIndexFromID pt program) (Some p)) !! slot = Some (Some p))
    by (cbn [Storage.set_index Storage.pipelines]; apply list_lookup_insert_eq; exact Hlt).
  exists p, layout, w1. split; [exact Hctor |].
  split.
  { unfold Storage.get. fold pt. rewrite Hid. simpl.
    rewrite (at_index_lookup _ _ _ Hi Hslot). reflexivity. }
  split; [exact (valid_of_lookup pt _ program p Hid Hi Hslot) |].
  cbn [Storage.set_index Storage.pipelines]. fold slot. rewrite Hgrow.
  split; [rewrite length_insert, length_app, length_replicate; lia |].
  split.
  - intros j Hne Hj. rewrite list_lookup_insert_ne by congruence.
    apply lookup_app_l. exact Hj.
  - intros j Hj. rewrite list_lookup_insert_ne by lia.
    rewrite lookup_app_r by lia. apply lookup_replicate_2. lia.
Qed.

Lemma add_then_get_witness :
  exists st' b',
    Storage.add (Scenarios.computeTraits Scenarios.goodDriver) Scenarios.emptyStorage
      {| get := 9 |} 0 (Scenarios.computeInfo [1; 2] false) Scenarios.emptyBackend
    = Done (st', b')
    /\ Storage.pipelines st' = [None; None; Some 1%nat]
    /\ Storage.get (Scenarios.taggedProgram 1) st' {| get := 9 |} = Done 1%nat.
Proof.
  destruct (Storage.add (Scenarios.computeTraits Scenarios.goodDriver) Scenarios.emptyStorage
              {| get := 9 |} 0 (Scenarios.computeInfo [1; 2] false) Scenarios.emptyBackend)
    as [[st' b']|f] eqn:Hadd; [| vm_compute in Hadd; discriminate].
  destruct (add_then_get (Scenarios.computeTraits Scenarios.goodDriver) _ st' _ _ _ _ b' Hadd)
    as (p & layout & w1 & _ & Hget & _).
  exists st', b'. split; [reflexivity |].
  vm_compute in Hadd. injection Hadd as <- <-.
  split; [reflexivity |].
  pose proof Hget as Hp. vm_compute in Hp. injection Hp as <-. exact Hget.
Defined.



(** X17.  [takeOut] fails on anything but a live slot: outside the array it
    fails on the element access, on a null slot it fails its assertion.
    Taking a pipeline out therefore works once: a second [takeOut] of the
    same index fails the assertion, and [get] on an identifier of that index
    dereferences null. *)
Theorem takeOut_needs_live_slot {LayoutType PipelineType : Type}
    (st : Storage.PipelineManagerStorage LayoutType PipelineType) (index : Z) :
  (index < 0 \/ Z.of_nat (length (Storage.pipelines st)) <= index ->
   Storage.takeOut st index = Fatal OutOfRange)
  /\ (0 <= index -> Storage.pipelines st !! Z.to_nat index = Some None ->
      Storage.takeOut st index = Fatal (AssertFailed Storage.msg_ret))
  /\ (forall p st', Storage.takeOut st index = Done (p, st') ->
      Storage.takeOut st' index = Fatal (AssertFailed Storage.msg_ret)
      /\ length (Storage.pipelines st') = length (Storage.pipelines st)
      /\ forall pt program, checkID pt program = true -> getIndexFromID pt program = index ->
           Storage.get pt st' program = Fatal NullDeref).
Proof.
  assert (Hnull : forall s : Storage.PipelineManagerStorage LayoutType PipelineType,
            0 <= index -> Storage.pipelines s !! Z.to_nat index = Some None ->
            Storage.takeOut s index = Fatal (AssertFailed Storage.msg_ret)).
  { intros s Hi Hl. unfold Storage.takeOut. rewrite (at_index_lookup s _ _ Hi Hl). reflexivity. }
  split; [| split].
  - intros Hout. unfold Storage.takeOut, Storage.at_index.
    destruct (Z.ltb_spec index 0); [reflexivity |].
    rewrite lookup_ge_None_2 by lia. reflexivity.
  - apply Hnull.
  - intros p st' Htake. apply takeOut_Done_inv in Htake as (Hi & Hlive & ->).
    assert (Hslot : Storage.pipelines (Storage.set_index st index None) !! Z.to_nat index
                    = Some None).
    { cbn [Storage.set_index Storage.pipelines]. apply list_lookup_insert_eq.
      eapply lookup_lt_Some. exact Hlive. }
    split; [exact (Hnull _ Hi Hslot) |].
    split; [cbn [Storage.set_index Storage.pipelines]; apply length_insert |].
    intros pt program Hid Hindex. unfold Storage.get. rewrite Hid. simpl. rewrite Hindex.
    rewrite (at_index_lookup _ _ _ Hi Hslot). reflexivity.
Qed.

Lemma takeOut_needs_live_slot_witness :
  Storage.takeOut Scenarios.computeStorage 1 = Fatal (AssertFailed Storage.msg_ret)
  /\ Storage.takeOut Scenarios.computeStorage 3 = Fatal OutOfRange.
Proof.
  split.
  - exact (proj1 (proj2 (takeOut_needs_live_slot Scenarios.computeStorage 1))
             ltac:(lia) eq_refl).
  - apply (proj1 (takeOut_needs_live_slot Scenarios.computeStorage 3)).
    right. vm_compute. discriminate.
Defined.

(** X18.  [valid] is the exact non-fatal test for [get]: [get] returns a
    pipeline if and only if [valid] answers true, and then it is the
    pipeline stored in the identifier's slot. *)
Theorem valid_iff_get_returns {LayoutType PipelineType : Type} (pt : ProgramType)
    (st : Storage.PipelineManagerStorage LayoutType PipelineType) (program : ProgramID) :
  (Storage.valid pt st program = true <-> exists p, Storage.get pt st program = Done p)
  /\ forall p, Storage.get pt st program = Done p ->
       Storage.pipelines st !! Z.to_nat (getIndexFromID pt program) = Some (Some p).
Proof.
  split; [split |].
  - intros Hv. destruct (valid_get pt st program Hv) as (p & _ & Hget). eauto.
  - intros (p & Hget). apply get_Done_inv in Hget as (Hid & Hi & Hl).
    exact (valid_of_lookup pt st program p Hid Hi Hl).
  - intros p Hget. apply get_Done_inv in Hget as (_ & _ & Hl). exact Hl.
Qed.

Lemma valid_iff_get_returns_witness :
  Storage.valid (Scenarios.taggedProgram 1) Scenarios.computeStorage {| get := 1 |} = true
  /\ Storage.valid (Scenarios.taggedProgram 1) Scenarios.computeStorage {| get := 5 |} = false.
Proof.
  split.
  - apply (proj2 (proj1 (valid_iff_get_returns (Scenarios.taggedProgram 1)
                           Scenarios.computeStorage {| get := 1 |}))).
    exists 40%nat. reflexivity.
  - apply not_true_is_false. intros Hv.
    apply (proj1 (proj1 (valid_iff_get_returns (Scenarios.taggedProgram 1)
                           Scenarios.computeStorage {| get := 5 |}))) in Hv as [p Hget].
    vm_compute in Hget. discriminate.
Defined.

(** ** Pipeline storage: walking and unloading *)

Section WalkFacts.

Import Storage StorageWalk.

Context {LayoutType PipelineType : Type}.

#[local] Abbreviation Slots := (PipelineManagerStorage LayoutType PipelineType).

(* The live slots of an array whose first slot has index [i]. *)
Lemma enumerateFrom_fold {St : Type} (pt : ProgramType) (slots : list (option PipelineType))
    (i : nat) (cb : PipelineType -> ProgramID -> St -> St) (s : St) :
  enumerateFrom pt slots i cb s
  = foldl (fun acc e => cb e.1 e.2 acc) s
      (enumerateFrom pt slots i (fun p id acc => acc ++ [(p, id)]) []).
Proof.
  assert (Hgen : forall slots i (pre : list (PipelineType * ProgramID)) s0,
            enumerateFrom pt slots i cb (foldl (fun acc e => cb e.1 e.2 acc) s0 pre)
            = foldl (fun acc e => cb e.1 e.2 acc) s0
                (enumerateFrom pt slots i (fun p id acc => acc ++ [(p, id)]) pre)).
  { clear. intros slots. induction slots as [| [p|] rest IH]; intros i pre s0; cbn [enumerateFrom].
    - reflexivity.
    - rewrite <- IH. rewrite foldl_app. reflexivity.
    - apply IH. }
  exact (Hgen slots i [] s).
Qed.

Lemma enumerateFrom_elem (pt : ProgramType) (slots : list (option PipelineType)) (i : nat)
    (pre : list (PipelineType * ProgramID)) (p : PipelineType) (id : ProgramID) :
  (p, id) ∈ enumerateFrom pt slots i (fun p id acc => acc ++ [(p, id)]) pre
  <-> (p, id) ∈ pre
      \/ exists j, slots !! j = Some (Some p) /\ id = makeID pt (Z.of_nat (i + j)).
Proof.
  revert i pre. induction slots as [| slot rest IH]; intros i pre; cbn [enumerateFrom].
  - split; [intros H; left; exact H |].
    intros [H | (j & Hj & _)]; [exact H | rewrite lookup_nil in Hj; discriminate].
  - rewrite IH. split.
    + intros [Hin | (j & Hj & ->)].
      * destruct slot as [q|]; [| left; exact Hin].
        apply elem_of_app in Hin as [Hin | Hin]; [left; exact Hin |].
        apply list_elem_of_singleton in Hin as [= -> ->].
        right. exists 0%nat. split; [reflexivity | f_equal; f_equal; lia].
      * right. exists (S j). split; [exact Hj | f_equal; f_equal; lia].
    + intros [Hin | ([| j] & Hj & ->)].
      * left. destruct slot; [apply elem_of_app; left |]; exact Hin.
      * cbn in Hj. injection Hj as ->. left. apply elem_of_app. right.
        apply list_elem_of_singleton. f_equal. f_equal. f_equal. lia.
      * right. exists j. split; [exact Hj | f_equal; f_equal; lia].
Qed.

Lemma stored_elem (pt : ProgramType) (st : Slots) (p : PipelineType) (id : ProgramID) :
  (p, id) ∈ stored pt st
  <-> exists j, pipelines st !! j = Some (Some p) /\ id = makeID pt (Z.of_nat j).
Proof.
  unfold stored, enumerate. rewrite enumerateFrom_elem. split.
  - intros [H | H]; [apply elem_of_nil in H; contradiction | exact H].
  - intros H. right. exact H.
Qed.

Lemma stored_valid (pt : ProgramType) (st : Slots) (p : PipelineType) (id : ProgramID) :
  indexes_round_trip pt -> (p, id) ∈ stored pt st ->
  valid pt st id = true /\ get pt st id = Done p.
Proof.
  intros Hrt Hin. apply stored_elem in Hin as (j & Hj & ->).
  destruct (Hrt (Z.of_nat j) ltac:(lia)) as [Hid Hidx].
  assert (Hl : pipelines st !! Z.to_nat (getIndexFromID pt (makeID pt (Z.of_nat j)))
               = Some (Some p)) by (rewrite Hidx, Nat2Z.id; exact Hj).
  assert (Hi : 0 <= getIndexFromID pt (makeID pt (Z.of_nat j))) by lia.
  split; [exact (valid_of_lookup pt st _ p Hid Hi Hl) |].
  unfold get. rewrite Hid. simpl. rewrite (at_index_lookup st _ _ Hi Hl). reflexivity.
Qed.

(* The pipelines [enumerateFrom] visits are the live slots, in order. *)
Lemma enumerateFrom_pipelines (pt : ProgramType) (slots : list (option PipelineType)) (i : nat)
    (pre : list (PipelineType * ProgramID)) :
  (enumerateFrom pt slots i (fun p id acc => acc ++ [(p, id)]) pre).*1
  = pre.*1 ++ omap id slots.
Proof.
  revert i pre. induction slots as [| [q|] rest IH]; intros i pre; cbn [enumerateFrom].
  - rewrite app_nil_r. reflexivity.
  - rewrite IH, fmap_app. cbn. rewrite <- app_assoc. reflexivity.
  - rewrite IH. reflexivity.
Qed.

Lemma shutdownArray_loose {St X : Type} (shutdown : X -> St -> St) (arr : list (option X))
    (s : St) :
  shutdownArray false shutdown arr s = Done (foldl (fun acc x => shutdown x acc) s (omap id arr)).
Proof.
  revert s. induction arr as [| [x|] rest IH]; intros s; cbn; [reflexivity | apply IH | apply IH].
Qed.

Lemma shutdownArray_packed {St X : Type} (tight : bool) (shutdown : X -> St -> St)
    (arr : list X) (s : St) :
  shutdownArray tight shutdown (Some <$> arr) s
  = Done (foldl (fun acc x => shutdown x acc) s arr).
Proof.
  revert s. induction arr as [| x rest IH]; intros s; cbn; [reflexivity | apply IH].
Qed.

End WalkFacts.

(* The identifiers of [Scenarios.taggedProgram] round-trip through the
   storage index. *)
Lemma taggedProgram_round_trip (tag : Z) :
  0 <= tag < 4 -> StorageWalk.indexes_round_trip (Scenarios.taggedProgram tag).
Proof.
  intros Htag i Hi. cbn. split.
  - apply Z.eqb_eq. rewrite Z.add_comm, Z_mod_plus_full. apply Z.mod_small. exact Htag.
  - rewrite Z.add_comm, Z_div_plus_full by lia. rewrite Z.div_small by exact Htag. lia.
Qed.

(** X19.  [enumerate] calls the callback once for every live slot, in index
    order, with the pipeline of the slot and the identifier made from the
    slot's index; null slots are skipped.  So any callback's result is the
    fold over the list [stored] of visited pairs, a pair is visited exactly
    when some slot holds that pipeline under that index, and the visited
    pipelines are the non-null slots in array order. *)
Theorem enumerate_visits_live_slots {LayoutType PipelineType St : Type} (pt : ProgramType)
    (st : Storage.PipelineManagerStorage LayoutType PipelineType)
    (callback : PipelineType -> ProgramID -> St -> St) (s : St) :
  StorageWalk.enumerate pt st callback s
  = foldl (fun acc e => callback e.1 e.2 acc) s (StorageWalk.stored pt st)
  /\ (forall p id, (p, id) ∈ StorageWalk.stored pt st
        <-> exists j, Storage.pipelines st !! j = Some (Some p)
                      /\ id = makeID pt (Z.of_nat j))
  /\ (StorageWalk.stored pt st).*1 = omap id (Storage.pipelines st).
Proof.
  split; [apply enumerateFrom_fold |].
  split; [intros p id; apply stored_elem |].
  unfold StorageWalk.stored, StorageWalk.enumerate.
  rewrite enumerateFrom_pipelines. reflexivity.
Qed.

(** X20.  When the ProgramType's [makeID] and [getIndexFromID] agree on
    storage indexes, every identifier that [enumerate] hands to its callback
    is [valid], and [get] on it returns the very pipeline the callback was
    given. *)
Theorem enumerated_ids_are_valid {LayoutType PipelineType : Type} (pt : ProgramType)
    (st : Storage.PipelineManagerStorage LayoutType PipelineType)
    (p : PipelineType) (id : ProgramID) :
  StorageWalk.indexes_round_trip pt ->
  (p, id) ∈ StorageWalk.stored pt st ->
  Storage.valid pt st id = true /\ Storage.get pt st id = Done p.
Proof. apply stored_valid. Qed.

Lemma enumerated_ids_are_valid_witness :
  StorageWalk.stored (Scenarios.taggedProgram 1) Scenarios.computeStorage
  = [(40%nat, {| get := 1 |}); (41%nat, {| get := 9 |})]
  /\ Storage.valid (Scenarios.taggedProgram 1) Scenarios.computeStorage {| get := 9 |} = true
  /\ Storage.get (Scenarios.taggedProgram 1) Scenarios.computeStorage {| get := 9 |}
     = Done 41%nat.
Proof.
  split; [reflexivity |].
  apply (enumerated_ids_are_valid (Scenarios.taggedProgram 1) Scenarios.computeStorage
           41%nat {| get := 9 |}).
  - apply taggedProgram_round_trip. lia.
  - change (StorageWalk.stored (Scenarios.taggedProgram 1) Scenarios.computeStorage)
      with [(40%nat, {| get := 1 |}); (41%nat, {| get := 9 |})].
    apply elem_of_cons. right. apply elem_of_cons. left. reflexivity.
Defined.

(** X21.  [unload] never fails.  It shuts down exactly the pipelines
    [enumerate] visits, in the same order and skipping null slots, then
    every layout in creation order, and leaves the storage with no layouts
    and no slots, so that afterwards no identifier is valid and [get]
    fails for every identifier. *)
Theorem unload_shuts_down_everything {LayoutType PipelineType St : Type}
    (shutdownPipeline : PipelineType -> St -> St) (shutdownLayout : LayoutType -> St -> St)
    (st : Storage.PipelineManagerStorage LayoutType PipelineType) (s : St) :
  exists st',
    StorageWalk.unload shutdownPipeline shutdownLayout st s
    = Done (st',
            foldl (fun acc l => shutdownLayout l acc)
              (foldl (fun acc p => shutdownPipeline p acc) s
                 (omap id (Storage.pipelines st)))
              (Storage.layouts st))
    /\ Storage.layouts st' = [] /\ Storage.pipelines st' = []
    /\ (forall pt, (StorageWalk.stored pt st).*1 = omap id (Storage.pipelines st))
    /\ (forall pt id, Storage.valid pt st' id = false
                      /\ StorageWalk.stored pt st' = []
                      /\ forall p, Storage.get pt st' id <> Done p).
Proof.
  exists {| Storage.layouts := []; Storage.pipelines := [] |}.
  split.
  { unfold StorageWalk.unload. rewrite shutdownArray_loose. cbn [mbind outcome_bind].
    rewrite shutdownArray_packed. reflexivity. }
  split; [reflexivity |]. split; [reflexivity |].
  split.
  { intros pt. unfold StorageWalk.stored, StorageWalk.enumerate.
    rewrite enumerateFrom_pipelines. reflexivity. }
  intros pt id. split.
  { unfold Storage.valid. cbn. rewrite andb_false_r. reflexivity. }
  split; [reflexivity |].
  intros p Hget. apply get_Done_inv in Hget as (_ & _ & Hl).
  cbn in Hl. rewrite lookup_nil in Hl. discriminate.
Qed.

(** X22.  A compute pipeline that [enumerate] reports can be visited: when
    the compute ProgramType's identifiers round-trip through the storage
    index and are not graphics identifiers, [visit] on an identifier that
    [enumerate] reported for a pipeline returns true after calling the
    visitor's compute overload, and no other, on that pipeline. *)
Theorem visit_reaches_enumerated_compute {GL G CL C RL R St : Type} (cfg : Config)
    (pts : Manager.ProgramTypes) (m : Manager.PipelineManager GL G CL C RL R)
    (func : Manager.Visitor G C R St) (s : St) (p : C) (id : ProgramID) :
  StorageWalk.indexes_round_trip (Manager.ComputeProgram pts) ->
  (forall i, checkID (Manager.ComputeProgram pts) i = true ->
             checkID (Manager.GraphicsProgram pts) i = false) ->
  (p, id) ∈ StorageWalk.stored (Manager.ComputeProgram pts) (Manager.compute m) ->
  Manager.visit cfg pts m id func s = Done (true, Manager.onCompute func p s)
  /\ ManagerAccess.getCompute pts m id = Done p.
Proof.
  intros Hrt Hdisjoint Hin.
  destruct (stored_valid _ _ _ _ Hrt Hin) as [Hv Hget].
  split; [| exact Hget].
  destruct (valid_true_inv _ _ _ Hv) as (_ & Hid & _).
  destruct (processEntry_valid (St := St) _ _ _ (Manager.onCompute func) s Hv)
    as (q & Hq & Hentry).
  apply get_Done_inv in Hget as (_ & _ & Hl).
  assert (q = p) as -> by congruence.
  unfold Manager.visit.
  rewrite processEntry_other by (apply Hdisjoint; exact Hid).
  rewrite Hentry. reflexivity.
Qed.

Lemma visit_reaches_enumerated_compute_witness :
  Manager.visit Scenarios.cfg Scenarios.programTypes Scenarios.someManager {| get := 9 |}
    Scenarios.recorder []
  = Done (true, [("compute"%string, 41%nat)]).
Proof.
  refine (proj1 (visit_reaches_enumerated_compute Scenarios.cfg Scenarios.programTypes
                   Scenarios.someManager Scenarios.recorder [] 41%nat {| get := 9 |}
                   _ _ _)).
  - apply (taggedProgram_round_trip 1). lia.
  - intros i Hi. cbn in Hi |- *. apply Z.eqb_eq in Hi. apply Z.eqb_neq. lia.
  - change (StorageWalk.stored (Manager.ComputeProgram Scenarios.programTypes)
              (Manager.compute Scenarios.someManager))
      with [(40%nat, {| get := 1 |}); (41%nat, {| get := 9 |})].
    apply elem_of_cons. right. apply elem_of_cons. left. reflexivity.
Defined.

(** X23.  Adding and taking out are inverse on the slot: after an [add] that
    returns, [takeOut] of the identifier's index returns the pipeline the
    constructor produced and leaves the slot null, so the identifier is no
    longer valid, while the layout created or found for it stays in the
    storage. *)
Theorem add_then_takeOut {W LayoutType LayoutCreationInfo PipelineType CreationInfo : Type}
    (T : Storage.PipelineTraits W LayoutType LayoutCreationInfo PipelineType CreationInfo)
    (st st' : Storage.PipelineManagerStorage LayoutType PipelineType)
    (program : ProgramID) (cache : Z) (info : CreationInfo) (w w' : W) :
  Storage.add T st program cache info w = Done (st', w') ->
  let pt := Storage.programType T in
  exists p st'',
    Storage.get pt st' program = Done p
    /\ Storage.takeOut st' (getIndexFromID pt program) = Done (p, st'')
    /\ Storage.valid pt st'' program = false
    /\ Storage.layouts st'' = Storage.layouts st'
    /\ length (Storage.pipelines st'') = length (Storage.pipelines st').
Proof.
  intros Hadd pt.
  apply add_Done_inv in Hadd as (layout & st1 & w1 & p & Hf & Hctor & Hid & Hi & Hnull & ->).
  fold pt in Hi, Hnull, Hid |- *.
  set (st2 := Storage.ensureSpaceForIndex st1 (getIndexFromID pt program)) in *.
  assert (Hlt : (Z.to_nat (getIndexFromID pt program) < length (Storage.pipelines st2))%nat)
    by (eapply lookup_lt_Some; exact Hnull).
  assert (Hslot : Storage.pipelines (Storage.set_index st2 (getIndexFromID pt program) (Some p))
                    !! Z.to_nat (getIndexFromID pt program) = Some (Some p))
    by (cbn [Storage.set_index Storage.pipelines]; apply list_lookup_insert_eq; exact Hlt).
  exists p, (Storage.set_index (Storage.set_index st2 (getIndexFromID pt program) (Some p))
               (getIndexFromID pt program) None).
  split.
  { unfold Storage.get. rewrite Hid. simpl.
    rewrite (at_index_lookup _ _ _ Hi Hslot). reflexivity. }
  split.
  { unfold Storage.takeOut. rewrite (at_index_lookup _ _ _ Hi Hslot). reflexivity. }
  split.
  { apply valid_null_slot. cbn [Storage.set_index Storage.pipelines].
    apply list_lookup_insert_eq. rewrite length_insert. exact Hlt. }
  split; [reflexivity |].
  cbn [Storage.set_index Storage.pipelines]. rewrite !length_insert. reflexivity.
Qed.

Lemma add_then_takeOut_witness :
  exists st' b' st'',
    Storage.add (Scenarios.computeTraits Scenarios.goodDriver) Scenarios.emptyStorage
      {| get := 5 |} 0 (Scenarios.computeInfo [1; 2] false) Scenarios.emptyBackend
    = Done (st', b')
    /\ Storage.takeOut st' 1 = Done (1%nat, st'')
    /\ Storage.pipelines st'' = [None; None].
Proof.
  destruct (Storage.add (Scenarios.computeTraits Scenarios.goodDriver) Scenarios.emptyStorage
              {| get := 5 |} 0 (Scenarios.computeInfo [1; 2] false) Scenarios.emptyBackend)
    as [[st' b']|f] eqn:Hadd; [| vm_compute in Hadd; discriminate].
  destruct (add_then_takeOut (Scenarios.computeTraits Scenarios.goodDriver) _ st' _ _ _ _ b' Hadd)
    as (p & st'' & _ & Htake & _).
  exists st', b', st''. split; [reflexivity |].
  vm_compute in Hadd. injection Hadd as <- <-.
  pose proof Htake as Hp. vm_compute in Hp. injection Hp as <- <-.
  split; [exact Htake | reflexivity].
Defined.

Lemma enumerate_visits_live_slots_witness :
  StorageWalk.enumerate (Scenarios.taggedProgram 1) Scenarios.computeStorage
    (fun p id n => (n + Z.of_nat p * get id)) 0 = 40 * 1 + 41 * 9.
Proof.
  rewrite (proj1 (enumerate_visits_live_slots (Scenarios.taggedProgram 1)
                    Scenarios.computeStorage (fun p id n => (n + Z.of_nat p * get id)) 0)).
  reflexivity.
Defined.

Lemma unload_shuts_down_everything_witness :
  StorageWalk.unload (fun p log => log ++ [p]) (fun (_ : unit) log => log ++ [0%nat])
    (Manager.compute Scenarios.someManager) []
  = Done (Scenarios.emptyStorage, [40; 41; 0]%nat).
Proof.
  destruct (unload_shuts_down_everything (fun p log => log ++ [p])
              (fun (_ : unit) log => log ++ [0%nat])
              (Manager.compute Scenarios.someManager) [])
    as ([layouts' pipelines'] & -> & Hl & Hp & _).
  cbn in Hl, Hp. subst. reflexivity.
Defined.
